(** * aliciadata-chat: a shallow embedding of the chat turn pipeline

    The Python sources [database.py], [chat_service.py], [prompt_loader.py]
    and [main.py] are embedded as functions in a reader/state/exception
    monad.  The external collaborators (PostgreSQL through psycopg2, the
    Anthropic streaming API, pystache, the file system, the process
    environment, the wall clock and the uuid generator) are oracles of an
    environment record; the module globals, the tables, the transcript
    objects and the observable trace live in a world record. *)

From Stdlib Require Import ZArith NArith Lia Ascii String.
From stdpp Require Import base option list sorting gmap strings.

Local Open Scope Z_scope.

(** ** Python values *)

(** A Python [str] is a sequence of Unicode code points. *)
Definition str : Type := list N.

(** ASCII literals of the source text. *)
Fixpoint lit (s : string) : str :=
  match s with
  | EmptyString => []
  | String a s' => N_of_ascii a :: lit s'
  end.

(** [str.isspace] on one code point (the table behind [Py_UNICODE_ISSPACE]). *)
Definition isspace (c : N) : bool :=
  ((9 <=? c) && (c <=? 13) || (28 <=? c) && (c <=? 32)
   || (c =? 133) || (c =? 160) || (c =? 5760)
   || (8192 <=? c) && (c <=? 8202)
   || (c =? 8232) || (c =? 8233) || (c =? 8239) || (c =? 8287)
   || (c =? 12288))%N.

Fixpoint lstrip (s : str) : str :=
  match s with
  | [] => []
  | c :: s' => if isspace c then lstrip s' else s
  end.

Definition rstrip (s : str) : str := rev (lstrip (rev s)).

(** [s.strip()] *)
Definition strip (s : str) : str := rstrip (lstrip s).

(** Truth value of a string: [bool(s)]. *)
Definition truthy (s : str) : bool :=
  match s with [] => false | _ :: _ => true end.

(** [sep.join(parts)] *)
Fixpoint join (sep : str) (parts : list str) : str :=
  match parts with
  | [] => []
  | [p] => p
  | p :: rest => p ++ sep ++ join sep rest
  end.

(** [needle in hay] *)
Definition contains (hay needle : str) : Prop :=
  exists pre post, hay = pre ++ needle ++ post.

Fixpoint starts_with (hay needle : str) : bool :=
  match needle, hay with
  | [], _ => true
  | _ :: _, [] => false
  | a :: needle', b :: hay' => (a =? b)%N && starts_with hay' needle'
  end.

(** Executable [needle in hay]. *)
Fixpoint containsb (hay needle : str) : bool :=
  starts_with hay needle ||
  match hay with
  | [] => false
  | _ :: hay' => containsb hay' needle
  end.

(** ** Exceptions

    Only subclasses of [Exception] are modelled; [KeyboardInterrupt],
    [SystemExit] and [GeneratorExit] are outside the model. *)

Inductive ExnClass : Type :=
  | ValueError
  | FileNotFoundError
  | IndexError
  | OtherException.

(** [exn_text e] is [str(e)]. *)
Record Exn : Type := mkExn { exn_class : ExnClass; exn_text : str }.

Inductive Outcome (A : Type) : Type :=
  | Ok (a : A)
  | Raised (e : Exn).
Arguments Ok {A} a.
Arguments Raised {A} e.

(** ** Rows, documents, API messages, transcript cells *)

(** A row of [chats], in the column order of the SELECT of
    [get_session_history]: index 0 id, 1 timestamp, 2 session_uuid,
    3 message_type, 4 contents, 5 created_at. *)
Record ChatRow : Type := mkRow {
  row_id : Z;
  row_timestamp : Z;
  row_session_uuid : str;
  row_message_type : str;
  row_contents : str;
  row_created_at : Z
}.

(** A row of [documents]; [resume] and [jd] may be NULL. *)
Record DocRow : Type := mkDoc {
  doc_name : str;
  doc_resume : option str;
  doc_jd : option str
}.

(** The dict [{"role": ..., "content": ...}] handed to the API. *)
Record ApiMessage : Type := mkMsg { role : str; content : str }.

(** The parameters of the INSERT of [save_message]. *)
Record InsertParams : Type := mkInsert {
  ins_session_uuid : str;
  ins_message_type : str;
  ins_contents : str;
  ins_timestamp : Z
}.

(** The context dict of [render_prompt]. *)
Record RenderContext : Type := mkContext {
  ctx_resume : str;
  ctx_jd : str;
  ctx_email : str
}.

(** Transcript objects.  A Gradio history is a list of two-element lists
    [[user_msg, bot_msg]].  The inner lists are mutable objects on a heap;
    an outer list is never mutated by the code, so it is represented by the
    sequence of references it holds. *)
Definition loc : Type := nat.
Record Turn : Type := mkTurn { user_msg : option str; bot_msg : option str }.
Definition Transcript : Type := list loc.

(** ** The observable trace *)

Inductive Event : Type :=
  | EvNow (t : Z)
      (* datetime.now() was read *)
  | EvSave (p : InsertParams)
      (* database.save_message was entered *)
  | EvHistory (session_uuid : str)
      (* database.get_session_history was entered *)
  | EvDocument (name : str)
      (* database.get_document_by_name was entered *)
  | EvStream (messages : list ApiMessage) (system_prompt : str)
      (* client.messages.stream(...) was opened *)
  | EvChunk (text : str)
      (* stream_message yields a chunk *)
  | EvYield (history : Transcript) (seen : list (option Turn))
      (* chat_function yielded (history, ""); [seen] is what the
         consumer reads through the references at that moment *).

(** ** World and environment *)

(** What [database.py] owns: the tables behind it, the transaction of the
    connection in use, and its pool global. *)
Record Db : Type := mkDb {
  chats : list ChatRow;            (* committed rows, in insertion order *)
  documents : list DocRow;
  pending : list ChatRow;          (* uncommitted rows of the connection in use *)
  connection_pool : bool;          (* database.connection_pool is not None *)
  db_ops : nat                     (* psycopg2 calls made so far *)
}.

Record World : Type := mkWorld {
  db : Db;
  client : bool;                   (* chat_service.client is not None *)
  template_cache : option str;     (* prompt_loader._template_cache *)
  app_initialized : bool;          (* main.app_initialized *)
  initialization_error : option str;
  heap : gmap loc Turn;
  clock_reads : nat;
  uuid_draws : nat;
  api_calls : nat;
  stdout : list str;
  trace : list Event
}.

Record Env : Type := mkEnv {
  now : nat -> Z;
    (* the n-th reading of datetime.now(), in microseconds *)
  fault : nat -> option Exn;
    (* whether the n-th psycopg2 primitive raises *)
  store_default : nat -> Z * Z;
    (* the (id, created_at) the store assigns to a row inserted by the
       n-th primitive; the declaration of the table is not part of the
       sources, the INSERT leaves both columns to the store *)
  getenv : str -> option str;
  read_text : str -> Outcome str;
    (* open(path).read() *)
  pystache_render : str -> RenderContext -> Outcome str;
  messages_stream : nat -> list ApiMessage -> str -> list str * option Exn;
    (* the fragments the n-th streaming call delivers, and the error that
       ends it, if any *)
  uuid4 : nat -> str
}.

(** The collaborators that only the start of the process uses: the
    non-streaming call of the API and the file-system queries of
    [os.path]. *)
Record Host : Type := mkHost {
  messages_create : nat -> option Exn;
    (* whether client.messages.create(...), made as the n-th call of the
       API, raises *)
  isabs : str -> bool;
    (* os.path.isabs *)
  abspath : str -> str;
    (* os.path.abspath *)
  isfile : str -> bool
    (* os.path.isfile *)
}.

(** ** The monad *)

Definition M (A : Type) : Type := Env -> World -> Outcome A * World.

Definition ret {A} (a : A) : M A := fun _ w => (Ok a, w).

Definition bind {A B} (m : M A) (f : A -> M B) : M B :=
  fun E w =>
    match m E w with
    | (Ok a, w') => f a E w'
    | (Raised e, w') => (Raised e, w')
    end.

Definition raise {A} (e : Exn) : M A := fun _ w => (Raised e, w).

(** [try: body except Exception as e: handler e] *)
Definition try_except {A} (body : M A) (handler : Exn -> M A) : M A :=
  fun E w =>
    match body E w with
    | (Ok a, w') => (Ok a, w')
    | (Raised e, w') => handler e E w'
    end.

(** [try: body finally: final]; an exception of [final] replaces the
    outcome of [body], a [return] of [body] included. *)
Definition try_finally {A} (body : M A) (final : M unit) : M A :=
  fun E w =>
    match body E w with
    | (r, w') =>
        match final E w' with
        | (Ok _, w'') => (r, w'')
        | (Raised e, w'') => (Raised e, w'')
        end
    end.

Definition ask : M Env := fun E w => (Ok E, w).
Definition get : M World := fun _ w => (Ok w, w).
Definition modify (f : World -> World) : M unit := fun _ w => (Ok tt, f w).

Declare Scope monad_scope.
Delimit Scope monad_scope with monad.
Notation "x <- m ;; k" := (bind m (fun x => k))
  (at level 100, m at next level, right associativity) : monad_scope.
Notation "m ;;; k" := (bind m (fun _ => k))
  (at level 100, right associativity) : monad_scope.
Local Open Scope monad_scope.

(** ** Generators

    A started generator is either finished with its return value, or
    suspended at a [yield] with the computation that resumes it. *)
#[warnings="-register-all"]
Inductive Step (Y R : Type) : Type :=
  | Return (r : R)
  | Yield (y : Y) (resume : Env -> World -> Outcome (Step Y R) * World).
Arguments Return {Y R} r.
Arguments Yield {Y R} y resume.

(** A generator object that has not been started. *)
Definition Gen (Y R : Type) : Type := M (Step Y R).

(** ** Field updates *)

Definition set_chats (v : list ChatRow) (d : Db) : Db :=
  mkDb v (documents d) (pending d) (connection_pool d) (db_ops d).

Definition set_pending (v : list ChatRow) (d : Db) : Db :=
  mkDb (chats d) (documents d) v (connection_pool d) (db_ops d).

Definition set_connection_pool (v : bool) (d : Db) : Db :=
  mkDb (chats d) (documents d) (pending d) v (db_ops d).

Definition set_db_ops (v : nat) (d : Db) : Db :=
  mkDb (chats d) (documents d) (pending d) (connection_pool d) v.

Definition set_db (v : Db) (w : World) : World :=
  mkWorld v (client w) (template_cache w) (app_initialized w)
    (initialization_error w) (heap w) (clock_reads w) (uuid_draws w)
    (api_calls w) (stdout w) (trace w).

Definition set_client (v : bool) (w : World) : World :=
  mkWorld (db w) v (template_cache w) (app_initialized w)
    (initialization_error w) (heap w) (clock_reads w) (uuid_draws w)
    (api_calls w) (stdout w) (trace w).

Definition set_template_cache (v : option str) (w : World) : World :=
  mkWorld (db w) (client w) v (app_initialized w)
    (initialization_error w) (heap w) (clock_reads w) (uuid_draws w)
    (api_calls w) (stdout w) (trace w).

Definition set_app_initialized (v : bool) (w : World) : World :=
  mkWorld (db w) (client w) (template_cache w) v
    (initialization_error w) (heap w) (clock_reads w) (uuid_draws w)
    (api_calls w) (stdout w) (trace w).

Definition set_initialization_error (v : option str) (w : World) : World :=
  mkWorld (db w) (client w) (template_cache w) (app_initialized w)
    v (heap w) (clock_reads w) (uuid_draws w)
    (api_calls w) (stdout w) (trace w).

Definition set_heap (v : gmap loc Turn) (w : World) : World :=
  mkWorld (db w) (client w) (template_cache w) (app_initialized w)
    (initialization_error w) v (clock_reads w) (uuid_draws w)
    (api_calls w) (stdout w) (trace w).

Definition set_clock_reads (v : nat) (w : World) : World :=
  mkWorld (db w) (client w) (template_cache w) (app_initialized w)
    (initialization_error w) (heap w) v (uuid_draws w)
    (api_calls w) (stdout w) (trace w).

Definition set_uuid_draws (v : nat) (w : World) : World :=
  mkWorld (db w) (client w) (template_cache w) (app_initialized w)
    (initialization_error w) (heap w) (clock_reads w) v
    (api_calls w) (stdout w) (trace w).

Definition set_api_calls (v : nat) (w : World) : World :=
  mkWorld (db w) (client w) (template_cache w) (app_initialized w)
    (initialization_error w) (heap w) (clock_reads w) (uuid_draws w)
    v (stdout w) (trace w).

Definition set_stdout (v : list str) (w : World) : World :=
  mkWorld (db w) (client w) (template_cache w) (app_initialized w)
    (initialization_error w) (heap w) (clock_reads w) (uuid_draws w)
    (api_calls w) v (trace w).

Definition set_trace (v : list Event) (w : World) : World :=
  mkWorld (db w) (client w) (template_cache w) (app_initialized w)
    (initialization_error w) (heap w) (clock_reads w) (uuid_draws w)
    (api_calls w) (stdout w) v.

(** Update of the part owned by [database.py]. *)
Definition modify_db (f : Db -> Db) : M unit :=
  modify (fun w => set_db (f (db w)) w).

(** ** Primitive effects *)

(** Record an event of the trace. *)
Definition emit (e : Event) : M unit :=
  modify (fun w => set_trace (trace w ++ [e]) w).

(** [print(s)] *)
Definition print (s : str) : M unit :=
  modify (fun w => set_stdout (stdout w ++ [s]) w).

(** [datetime.now()] *)
Definition datetime_now : M Z :=
  fun E w =>
    let t := now E (clock_reads w) in
    (Ok t, set_trace (trace w ++ [EvNow t]) (set_clock_reads (S (clock_reads w)) w)).

(** [str(uuid.uuid4())] *)
Definition uuid_uuid4 : M str :=
  fun E w => (Ok (uuid4 E (uuid_draws w)), set_uuid_draws (S (uuid_draws w)) w).

(** One call into psycopg2: it takes the next decision of the fault oracle
    and returns its own index on success. *)
Definition psycopg2 : M nat :=
  fun E w =>
    let n := db_ops (db w) in
    match fault E n with
    | Some e => (Raised e, set_db (set_db_ops (S n) (db w)) w)
    | None => (Ok n, set_db (set_db_ops (S n) (db w)) w)
    end.

(** [os.getenv(name)] *)
Definition os_getenv (name : string) : M (option str) :=
  fun E w => (Ok (getenv E (lit name)), w).

(** [not value] for an optional string: unset or empty. *)
Definition falsy (v : option str) : bool :=
  match v with
  | None => true
  | Some s => negb (truthy s)
  end.

(** ** database.py *)

(** The ORDER BY key of [get_session_history]: timestamp, then created_at. *)
Definition row_le (a b : ChatRow) : Prop :=
  row_timestamp a < row_timestamp b
  \/ (row_timestamp a = row_timestamp b /\ row_created_at a <= row_created_at b).

#[global] Instance row_le_dec : RelDecision row_le.
Proof. intros a b. unfold row_le. apply _. Defined.

Module database.

Definition required_names : list string :=
  ["DATABASE_HOST"; "DATABASE_PORT"; "DATABASE_NAME"; "DATABASE_USER";
   "DATABASE_PASSWORD"]%string.

(** [[var for var, value in required_vars.items() if not value]] *)
Definition missing_vars (E : Env) : list str :=
  map lit (filter (fun var => falsy (getenv E (lit var)) = true)
             required_names).

Definition get_connection_pool : M unit :=
  w <- get;;
  if connection_pool (db w) then ret tt
  else
    E <- ask;;
    let db_host := getenv E (lit "DATABASE_HOST") in
    let db_name := getenv E (lit "DATABASE_NAME") in
    match missing_vars E with
    | _ :: _ =>
        raise (mkExn ValueError
                 (lit "Missing required environment variables: "
                  ++ join (lit ", ") (missing_vars E)))
    | [] =>
        try_except
          (psycopg2;;;
           modify_db (set_connection_pool true);;;
           print (lit "Database connection pool created successfully (host: "
                  ++ default [] db_host ++ lit ", database: "
                  ++ default [] db_name ++ lit ")");;;
           ret tt)
          (fun e =>
             print (lit "Failed to create database connection pool: "
                    ++ exn_text e);;;
             raise e)
    end.

(** [pool_instance.getconn()]: a connection taken from the pool has no
    open transaction. *)
Definition getconn : M unit :=
  psycopg2;;; modify_db (set_pending []).

(** [conn.cursor()] *)
Definition cursor : M unit := psycopg2;;; ret tt.

(** [cursor.execute(INSERT INTO chats ...)]: the row joins the open
    transaction; the store assigns id and created_at. *)
Definition execute_insert (p : InsertParams) : M unit :=
  n <- psycopg2;;
  E <- ask;;
  let '(id, created_at) := store_default E n in
  modify_db (fun d =>
    set_pending (pending d ++
      [mkRow id (ins_timestamp p) (ins_session_uuid p) (ins_message_type p)
         (ins_contents p) created_at]) d).

(** [conn.commit()] *)
Definition commit : M unit :=
  psycopg2;;;
  modify_db (fun d => set_pending [] (set_chats (chats d ++ pending d) d)).

(** [cursor.close()] *)
Definition cursor_close : M unit := psycopg2;;; ret tt.

(** [pool_instance.putconn(conn)]: an open transaction is rolled back. *)
Definition putconn : M unit :=
  psycopg2;;; modify_db (set_pending []).

(** [cursor.execute(SELECT ...)] *)
Definition execute_select : M unit := psycopg2;;; ret tt.

(** [cursor.fetchall()] for the SELECT of [get_session_history]: the rows
    of the session, ordered by the key; the order among rows with equal
    keys is the one this sort happens to give. *)
Definition fetchall_history (session_uuid : str) : M (list ChatRow) :=
  psycopg2;;;
  w <- get;;
  ret (merge_sort row_le
         (filter (fun r => row_session_uuid r = session_uuid)
            (chats (db w)))).

(** [cursor.fetchone()] for the SELECT of [get_document_by_name]. *)
Definition fetchone_document (name : str)
  : M (option (option str * option str)) :=
  psycopg2;;;
  w <- get;;
  ret (match filter (fun d => doc_name d = name) (documents (db w)) with
       | [] => None
       | d :: _ => Some (doc_resume d, doc_jd d)
       end).

(** The [try] block of [save_message]. *)
Definition save_message_try (p : InsertParams) : M bool :=
  get_connection_pool;;;
  getconn;;;
  try_finally
    (cursor;;;
     execute_insert p;;;
     commit;;;
     cursor_close;;;
     ret true)
    putconn.

Definition save_message (session_uuid message_type contents : str)
    (timestamp : option Z) : M bool :=
  timestamp <- match timestamp with
               | None => datetime_now
               | Some t => ret t
               end;;
  let p := mkInsert session_uuid message_type contents timestamp in
  emit (EvSave p);;;
  try_except
    (save_message_try p)
    (fun e =>
       print (lit "Error saving message to database: " ++ exn_text e);;;
       ret false).

(** The [try] block of [get_session_history]. *)
Definition get_session_history_try (session_uuid : str)
  : M (option (list ChatRow)) :=
  get_connection_pool;;;
  getconn;;;
  try_finally
    (cursor;;;
     execute_select;;;
     messages <- fetchall_history session_uuid;;
     cursor_close;;;
     ret (Some messages))
    putconn.

Definition get_session_history (session_uuid : str)
  : M (option (list ChatRow)) :=
  emit (EvHistory session_uuid);;;
  try_except
    (get_session_history_try session_uuid)
    (fun e =>
       print (lit "Error retrieving session history: " ++ exn_text e);;;
       ret None).

(** The [try] block of [get_document_by_name]. *)
Definition get_document_by_name_try (name : str)
  : M (option (option str * option str)) :=
  get_connection_pool;;;
  getconn;;;
  try_finally
    (cursor;;;
     execute_select;;;
     result <- fetchone_document name;;
     cursor_close;;;
     match result with
     | Some r => ret (Some r)
     | None => ret None
     end)
    putconn.

Definition get_document_by_name (name : str)
  : M (option (option str * option str)) :=
  emit (EvDocument name);;;
  try_except
    (get_document_by_name_try name)
    (fun e =>
       print (lit "Error retrieving document by name '" ++ name
              ++ lit "': " ++ exn_text e);;;
       ret None).

(** [cursor.fetchone()] for [SELECT 1]. *)
Definition fetchone_one : M unit := psycopg2;;; ret tt.

(** The [try] block of [test_connection]. *)
Definition test_connection_try : M bool :=
  get_connection_pool;;;
  getconn;;;
  try_finally
    (cursor;;;
     execute_select;;;
     fetchone_one;;;
     cursor_close;;;
     print (lit "Database connection test successful");;;
     ret true)
    putconn.

Definition test_connection : M bool :=
  try_except
    test_connection_try
    (fun e =>
       print (lit "Database connection test failed: " ++ exn_text e);;;
       ret false).

(** [connection_pool.closeall()] *)
Definition closeall : M unit := psycopg2;;; ret tt.

Definition close_pool : M unit :=
  w <- get;;
  if connection_pool (db w) then
    try_finally
      (try_except
         (closeall;;;
          print (lit "Database connection pool closed successfully"))
         (fun e =>
            print (lit "Error closing connection pool: " ++ exn_text e)))
      (modify_db (set_connection_pool false))
  else ret tt.

End database.

(** ** chat_service.py *)

Module chat_service.

Definition initialize_client : M unit :=
  api_key <- os_getenv "ANTHROPIC_API_KEY";;
  if falsy api_key then
    raise (mkExn ValueError
             (lit "ANTHROPIC_API_KEY environment variable not set"))
  else modify (set_client true).

(** [client.messages.create(model=..., max_tokens=10,
    messages=[{"role": "user", "content": "Hi"}])]; the response is not
    used. *)
Definition messages_create_call (H : Host) : M unit :=
  fun _ w =>
    let n := api_calls w in
    match messages_create H n with
    | Some e => (Raised e, set_api_calls (S n) w)
    | None => (Ok tt, set_api_calls (S n) w)
    end.

Definition validate_api_key (H : Host) : M bool :=
  try_except
    (w <- get;;
     (if client w then ret tt else initialize_client);;;
     messages_create_call H;;;
     ret true)
    (fun e =>
       print (lit "API validation error: " ++ exn_text e);;;
       ret false).

(** One iteration of the loop of [format_message_history]. *)
Definition format_one (messages : list ApiMessage) (msg : ChatRow)
  : list ApiMessage :=
  let message_type := row_message_type msg in
  let contents := row_contents msg in
  if decide (message_type = lit "system") then messages
  else if decide (message_type = lit "user"
                  \/ message_type = lit "assistant")
       then messages ++ [mkMsg message_type contents]
       else messages.

Definition format_message_history (db_messages : list ChatRow)
  : list ApiMessage :=
  fold_left format_one db_messages [].

(** [client.messages.stream(model=..., system=system_prompt,
    messages=messages)]: what the remote service will deliver. *)
Definition messages_stream_open (messages : list ApiMessage)
    (system_prompt : str) : M (list str * option Exn) :=
  fun E w =>
    let n := api_calls w in
    (Ok (messages_stream E n messages system_prompt),
     set_trace (trace w ++ [EvStream messages system_prompt])
       (set_api_calls (S n) w)).

(** The loop [for text in stream.text_stream: full_response += text;
    yield text] followed by [return full_response]; the iterator raises
    the error of the call once its fragments are delivered. *)
Fixpoint text_stream_loop (chunks : list str) (err : option Exn)
    (full_response : str) : Gen str str :=
  match chunks with
  | text :: rest =>
      emit (EvChunk text);;;
      ret (Yield text (text_stream_loop rest err (full_response ++ text)))
  | [] =>
      match err with
      | Some e => raise e
      | None => ret (Return full_response)
      end
  end.

(** [try: ... except Exception as e: ...] around code that yields: an
    exception raised while the block runs, on any resumption, enters the
    handler. *)
Fixpoint guard_step {Y R} (handler : Exn -> Gen Y R) (s : Step Y R)
  : Step Y R :=
  match s with
  | Return r => Return r
  | Yield y resume =>
      Yield y (fun E w =>
        match resume E w with
        | (Ok s', w') => (Ok (guard_step handler s'), w')
        | (Raised e, w') => handler e E w'
        end)
  end.

Definition gen_try_except {Y R} (body : Gen Y R) (handler : Exn -> Gen Y R)
  : Gen Y R :=
  fun E w =>
    match body E w with
    | (Ok s, w') => (Ok (guard_step handler s), w')
    | (Raised e, w') => handler e E w'
    end.

(** The [except Exception as e] branch of [stream_message]. *)
Definition stream_failed (e : Exn) : Gen str str :=
  let error_msg := lit "Error during streaming: " ++ exn_text e in
  print error_msg;;;
  emit (EvChunk error_msg);;;
  ret (Yield error_msg (ret (Return error_msg))).

Definition stream_message (messages : list ApiMessage) (system_prompt : str)
  : Gen str str :=
  w <- get;;
  (if client w then ret tt else initialize_client);;;
  gen_try_except
    (let full_response := [] in
     stream <- messages_stream_open messages system_prompt;;
     text_stream_loop (fst stream) (snd stream) full_response)
    stream_failed.

(** [list(gen)] together with the value the generator returns. *)
Fixpoint drain {Y R} (s : Step Y R) : M (list Y * R) :=
  match s with
  | Return r => ret ([], r)
  | Yield y resume =>
      fun E w =>
        match resume E w with
        | (Ok s', w') =>
            match drain s' E w' with
            | (Ok (ys, r), w'') => (Ok (y :: ys, r), w'')
            | (Raised e, w'') => (Raised e, w'')
            end
        | (Raised e, w') => (Raised e, w')
        end
  end.

End chat_service.

(** ** prompt_loader.py *)

Module prompt_loader.

Definition default_template_path : str := lit "prompts/chat_system.mustache".

Definition validate_template_exists (H : Host) (template_path : str)
  : M bool :=
  let abs_path :=
    if isabs H template_path then template_path
    else abspath H template_path in
  let exists_ := isfile H abs_path in
  (if exists_ then print (lit "Template file found: " ++ abs_path)
   else print (lit "Template file not found: " ++ abs_path));;;
  ret exists_.

(** [open(abs_path, 'r', encoding='utf-8').read()] *)
Definition read_file (path : str) : M str := fun E w => (read_text E path, w).

(** [os.path.abspath] is not modelled: the file is named by
    [template_path]. *)
Definition load_template (template_path : str) : M (option str) :=
  w <- get;;
  match template_cache w with
  | Some cached => ret (Some cached)
  | None =>
      try_except
        (content <- read_file template_path;;
         modify (set_template_cache (Some content));;;
         print (lit "Template loaded successfully from: " ++ template_path);;;
         ret (Some content))
        (fun e =>
           match exn_class e with
           | FileNotFoundError =>
               print (lit "Template file not found: " ++ template_path);;;
               ret None
           | _ =>
               print (lit "Error loading template: " ++ exn_text e);;;
               ret None
           end)
  end.

(** [pystache.render(template, context)] *)
Definition pystache_call (template : str) (context : RenderContext) : M str :=
  fun E w => (pystache_render E template context, w).

Definition nl : str := [10%N].

(** The hardcoded prompt of the [except] branch of [render_prompt]. *)
Definition fallback_prompt (resume jd : str) : str :=
  lit "You are a helpful career advisor assistant reviewing a resume against a job description."
  ++ nl ++ nl ++ lit "RESUME:" ++ nl ++ resume
  ++ nl ++ nl ++ lit "JOB DESCRIPTION:" ++ nl ++ jd
  ++ nl ++ nl
  ++ lit "Please provide thoughtful, specific feedback to help the hiring manager evaluate fit for this position.".

Definition render_prompt (template resume jd : str) (email : option str)
  : M str :=
  try_except
    (email <- match email with
              | None =>
                  v <- os_getenv "APPLICANT_EMAIL";;
                  ret (default [] v)
              | Some given => ret given
              end;;
     let context := mkContext resume jd email in
     rendered <- pystache_call template context;;
     ret rendered)
    (fun e =>
       print (lit "Error rendering template: " ++ exn_text e);;;
       ret (fallback_prompt resume jd)).

Definition get_system_prompt (resume jd template_path : str)
  : M (option str) :=
  template <- load_template template_path;;
  match template with
  | None => ret None
  | Some template =>
      rendered <- render_prompt template resume jd None;;
      ret (Some rendered)
  end.

End prompt_loader.

(** ** main.py *)

Module main.

(** The tuple [(error_message, q_value, session_uuid, chat_enabled,
    resume, jd)] returned by [load_document_on_startup]. *)
Record PageLoad : Type := mkPageLoad {
  error_message : str;
  q_value : str;
  session_uuid_of : str;
  chat_enabled : bool;
  resume_of : str;
  jd_of : str
}.

(** [f"{initialization_error}"] *)
Definition format_optional (o : option str) : str :=
  match o with
  | None => lit "None"
  | Some s => s
  end.

Definition required_env_vars : list string :=
  ["ANTHROPIC_API_KEY"; "DATABASE_HOST"; "DATABASE_PORT"; "DATABASE_NAME";
   "DATABASE_USER"; "DATABASE_PASSWORD"]%string.

(** [[var for var in required_env_vars if not os.getenv(var)]] *)
Definition missing_env_vars (E : Env) : list str :=
  map lit (filter (fun var => falsy (getenv E (lit var)) = true)
             required_env_vars).

(** [startup_checks]: the environment [E] is the process environment once
    [load_dotenv()] has run.  A [try] block that may return is a
    computation of an optional result: [Some] is the value returned from
    inside the block, [None] means that control leaves the block at its
    end. *)
Definition startup_checks (H : Host) : M (bool * option str) :=
  E <- ask;;
  match missing_env_vars E with
  | _ :: _ =>
      ret (false,
           Some (lit "Missing required environment variables: "
                 ++ join (lit ", ") (missing_env_vars E)))
  | [] =>
      returned <-
        try_except
          (ok <- database.test_connection;;
           if negb ok then
             ret (Some (false,
                        Some (lit "Unable to connect to database. Please check configuration.")))
           else ret None)
          (fun e =>
             ret (Some (false,
                        Some (lit "Database connection error: "
                              ++ exn_text e))));;
      match returned with
      | Some result => ret result
      | None =>
          returned <-
            try_except
              (ok <- chat_service.validate_api_key H;;
               if negb ok then
                 ret (Some (false,
                            Some (lit "Unable to connect to Claude API. Please check API key.")))
               else ret None)
              (fun e =>
                 ret (Some (false,
                            Some (lit "Claude API error: " ++ exn_text e))));;
          match returned with
          | Some result => ret result
          | None =>
              found <- prompt_loader.validate_template_exists H
                         prompt_loader.default_template_path;;
              if negb found then
                ret (false,
                     Some (lit "System prompt template not found at prompts/chat_system.mustache"))
              else ret (true, None)
          end
      end
  end.

Definition initialize_app (H : Host) : M unit :=
  print (lit "Running startup checks...");;;
  checked <- startup_checks H;;
  let success := fst checked in
  let error := snd checked in
  if success then
    modify (set_app_initialized true);;;
    modify (set_initialization_error None);;;
    print (lit "All startup checks passed. Application ready.")
  else
    modify (set_app_initialized false);;;
    modify (set_initialization_error error);;;
    print (lit "Startup check failed: " ++ format_optional error).

(** [value or ""] *)
Definition or_empty_str (o : option str) : str := default [] o.

(** The [try] block of [load_document_on_startup]. *)
Definition load_document_try (q_param session_uuid : str) : M PageLoad :=
  result <- database.get_document_by_name q_param;;
  match result with
  | None =>
      let error_msg :=
        lit "**Error:** No document found with name '" ++ q_param ++ lit "'" in
      ret (mkPageLoad error_msg q_param session_uuid false [] [])
  | Some (resume, jd) =>
      ret (mkPageLoad [] q_param session_uuid true
             (or_empty_str resume) (or_empty_str jd))
  end.

(** [request] is represented by the value of its query parameter [q],
    if any. *)
Definition load_document_on_startup (request_q : option str) : M PageLoad :=
  w <- get;;
  if negb (app_initialized w) then
    let error_msg :=
      lit "**Error:** " ++ format_optional (initialization_error w) in
    u <- uuid_uuid4;;
    ret (mkPageLoad error_msg [] u false [] [])
  else
    let q_param := strip (default [] request_q) in
    if negb (truthy q_param) then
      let error_msg :=
        lit "**Error:** 'q' parameter must be specified in the URL" in
      u <- uuid_uuid4;;
      ret (mkPageLoad error_msg [] u false [] [])
    else
      session_uuid <- uuid_uuid4;;
      try_except
        (load_document_try q_param session_uuid)
        (fun e =>
           let error_msg :=
             lit "**Error:** Database error while retrieving document: "
             ++ exn_text e in
           ret (mkPageLoad error_msg q_param session_uuid false [] [])).

(** [[message, None]]: a fresh inner list. *)
Definition new_turn (message : str) : M loc :=
  fun _ w =>
    let l := fresh (dom (heap w)) in
    (Ok l, set_heap (<[l := mkTurn (Some message) None]> (heap w)) w).

(** [history[-1][1] = value] *)
Definition set_last_reply (history : Transcript) (value : str) : M unit :=
  match last history with
  | None => raise (mkExn IndexError (lit "list index out of range"))
  | Some l =>
      modify (fun w =>
        set_heap (alter (fun t => mkTurn (user_msg t) (Some value)) l (heap w)) w)
  end.

(** [db_messages or []] *)
Definition or_empty_list {A} (o : option (list A)) : list A := default [] o.

(** What is yielded and what is returned by [chat_function]:
    [(history, "")]. *)
Definition Update : Type := Transcript * str.

(** The [for chunk in stream_generator] loop of [chat_function] and the
    code after it, from the state of the stream generator after a
    [next]. *)
Fixpoint chat_loop (session_uuid : str) (history : Transcript)
    (full_response : str) (s : Step str str) : Gen Update Update :=
  match s with
  | Yield chunk resume =>
      let full_response := full_response ++ chunk in
      set_last_reply history full_response;;;
      ret (Yield (history, [])
             (fun E w =>
                match resume E w with
                | (Ok s', w') =>
                    chat_loop session_uuid history full_response s' E w'
                | (Raised e, w') => (Raised e, w')
                end))
  | Return _ =>
      t <- datetime_now;;
      database.save_message session_uuid (lit "assistant") full_response
        (Some t);;;
      ret (Return (history, []))
  end.

Definition chat_function (message : str) (history : Transcript)
    (session_uuid resume jd : str) : Gen Update Update :=
  if negb (truthy (strip message)) then ret (Return (history, []))
  else
    timestamp <- datetime_now;;
    database.save_message session_uuid (lit "user") message (Some timestamp);;;
    db_messages <- database.get_session_history session_uuid;;
    let api_messages :=
      chat_service.format_message_history (or_empty_list db_messages) in
    system_prompt <- prompt_loader.get_system_prompt resume jd
                       prompt_loader.default_template_path;;
    system_prompt <- match system_prompt with
                     | None => prompt_loader.render_prompt [] resume jd None
                     | Some p => ret p
                     end;;
    cell <- new_turn message;;
    let history := history ++ [cell] in
    ret (Yield (history, [])
           (let full_response := [] in
            let stream_generator :=
              chat_service.stream_message api_messages system_prompt in
            s <- stream_generator;;
            chat_loop session_uuid history full_response s)).

(** The tuple of updates that [on_load] returns; a [gr.update(...)] is
    represented by the keyword arguments it is given. *)
Record OnLoad : Type := mkOnLoad {
  error_display_value : str;
  error_display_visible : bool;
  q_state : str;
  session_uuid_state : str;
  message_input_interactive : bool;
  send_button_interactive : bool;
  resume_accordion_visible : bool;
  resume_display_value : str;
  jd_accordion_visible : bool;
  jd_display_value : str
}.

(** The function [on_load] inside [create_interface]. *)
Definition on_load (request_q : option str) : M OnLoad :=
  loaded <- load_document_on_startup request_q;;
  let error_msg := error_message loaded in
  let q_val := q_value loaded in
  let sess_uuid := session_uuid_of loaded in
  let chat_enabled := chat_enabled loaded in
  let resume := resume_of loaded in
  let jd := jd_of loaded in
  let error_visible := (0 <? length error_msg)%nat in
  let resume_visible := (0 <? length resume)%nat in
  let jd_visible := (0 <? length jd)%nat in
  ret (mkOnLoad error_msg error_visible q_val sess_uuid chat_enabled
         chat_enabled resume_visible resume jd_visible jd).

(** The caller of [chat_function]: it iterates the generator to its end
    and reads every yielded transcript when it is yielded. *)
Fixpoint iterate {R} (s : Step Update R) : M R :=
  match s with
  | Return r => ret r
  | Yield (history, _) resume =>
      (fun E w =>
         (Ok tt, set_trace (trace w ++ [EvYield history ((heap w !!.) <$> history)]) w));;;
      (fun E w =>
         match resume E w with
         | (Ok s', w') => iterate s' E w'
         | (Raised e, w') => (Raised e, w')
         end)
  end.

(** One whole turn: the generator is created, started and run to its
    end. *)
Definition submit_turn (message : str) (history : Transcript)
    (session_uuid resume jd : str) : M Update :=
  s <- chat_function message history session_uuid resume jd;;
  iterate s.

End main.

(** ** A renderer for the variable tags of Mustache

    [pystache.render] is an oracle of the environment.  This renderer is
    one instance of it, for templates made of literal text, comments and
    variable tags: [{{name}}] is replaced by the HTML-escaped value,
    [{{{name}}}] and [{{& name}}] by the value itself, an unknown name by
    the empty string.  Section, partial and delimiter tags are not part of
    this instance and are reported as an error. *)

Module mustache.

(** [html.escape(s, quote=True)] *)
Fixpoint escape (s : str) : str :=
  match s with
  | [] => []
  | c :: s' =>
      (if (c =? 38)%N then lit "&amp;"
       else if (c =? 60)%N then lit "&lt;"
       else if (c =? 62)%N then lit "&gt;"
       else if (c =? 34)%N then lit "&quot;"
       else if (c =? 39)%N then lit "&#x27;"
       else [c]) ++ escape s'
  end.

(** Split at the first occurrence of [close]. *)
Fixpoint split_at (close : str) (s : str) : option (str * str) :=
  if starts_with s close then Some ([], drop (length close) s)
  else
    match s with
    | [] => None
    | c :: s' =>
        match split_at close s' with
        | Some (before, after) => Some (c :: before, after)
        | None => None
        end
    end.

Definition lookup (context : RenderContext) (name : str) : str :=
  let name := strip name in
  if decide (name = lit "resume") then ctx_resume context
  else if decide (name = lit "jd") then ctx_jd context
  else if decide (name = lit "email") then ctx_email context
  else [].

Definition unsupported : Exn :=
  mkExn OtherException (lit "unsupported tag").

Fixpoint render_fuel (fuel : nat) (template : str) (context : RenderContext)
  : Outcome str :=
  match fuel with
  | O => Ok template
  | S fuel' =>
      if starts_with template (lit "{{{") then
        match split_at (lit "}}}") (drop 3 template) with
        | Some (name, rest) =>
            match render_fuel fuel' rest context with
            | Ok out => Ok (lookup context name ++ out)
            | Raised e => Raised e
            end
        | None => Ok template
        end
      else if starts_with template (lit "{{") then
        match split_at (lit "}}") (drop 2 template) with
        | Some (tag, rest) =>
            match tag with
            | [] => Raised unsupported
            | k :: name =>
                if (k =? 35)%N || (k =? 94)%N || (k =? 47)%N
                   || (k =? 62)%N || (k =? 61)%N
                then Raised unsupported
                else
                  match render_fuel fuel' rest context with
                  | Ok out =>
                      if (k =? 33)%N then Ok out
                      else if (k =? 38)%N then Ok (lookup context name ++ out)
                      else Ok (escape (lookup context tag) ++ out)
                  | Raised e => Raised e
                  end
            end
        | None => Ok template
        end
      else
        match template with
        | [] => Ok []
        | c :: rest =>
            match render_fuel fuel' rest context with
            | Ok out => Ok (c :: out)
            | Raised e => Raised e
            end
        end
  end.

Definition render (template : str) (context : RenderContext) : Outcome str :=
  render_fuel (S (length template)) template context.

End mustache.

(** ** Sample environments and worlds *)

Module sample.

Definition transport_error : Exn :=
  mkExn OtherException (lit "Connection error.").

Definition store_error : Exn :=
  mkExn OtherException (lit "server closed the connection unexpectedly").

Definition template_text : str :=
  lit "Resume: {{{resume}}} JD: {{{jd}}} Contact: {{email}}".

Definition vars (name : str) : option str :=
  if decide (name = lit "APPLICANT_EMAIL") then Some (lit "a@b.c")
  else Some (lit "set").

(** Everything works: the store never fails, the template file is
    readable, the service answers with two fragments. *)
Definition env : Env :=
  mkEnv (fun n => 1000 + Z.of_nat n)
        (fun _ => None)
        (fun n => (Z.of_nat n, 5000 + Z.of_nat n))
        vars
        (fun _ => Ok template_text)
        mustache.render
        (fun _ _ _ => ([lit "Hi"; lit " there"], None))
        (fun n => lit "session-" ++ [48 + N.of_nat n]%N).

(** The stream breaks after the first fragment. *)
Definition env_stream_breaks : Env :=
  mkEnv (now env) (fault env) (store_default env) (getenv env)
        (read_text env) (pystache_render env)
        (fun _ _ _ => ([lit "Hi"], Some transport_error))
        (uuid4 env).

(** Every primitive of the store raises. *)
Definition env_store_down : Env :=
  mkEnv (now env) (fun _ => Some store_error) (store_default env)
        (getenv env) (read_text env) (pystache_render env)
        (messages_stream env) (uuid4 env).

(** The template file is missing. *)
Definition env_no_template : Env :=
  mkEnv (now env) (fault env) (store_default env) (getenv env)
        (fun path => Raised (mkExn FileNotFoundError path))
        (pystache_render env) (messages_stream env) (uuid4 env).

(** After a successful start: pool and client exist, tables empty. *)
Definition world : World :=
  mkWorld
    (mkDb [] [mkDoc (lit "acme-swe") (Some (lit "R1")) (Some (lit "J1"))]
       [] true 0)
    true None true None ∅ 0 0 0 [] [].

(** The start of the process: the API answers, the template file is in
    place, relative paths are resolved under [/app]. *)
Definition host : Host :=
  mkHost (fun _ => None) (fun _ => false) (fun p => lit "/app/" ++ p)
         (fun _ => true).

(** The process before [initialize_app]: no pool, no client. *)
Definition cold_world : World :=
  mkWorld
    (mkDb [] [mkDoc (lit "acme-swe") (Some (lit "R1")) (Some (lit "J1"))]
       [] false 0)
    false None false None ∅ 0 0 0 [] [].

(** The variable [ANTHROPIC_API_KEY] is not set. *)
Definition env_no_key : Env :=
  mkEnv (now env) (fault env) (store_default env)
        (fun name =>
           if decide (name = lit "ANTHROPIC_API_KEY") then None
           else vars name)
        (read_text env) (pystache_render env) (messages_stream env)
        (uuid4 env).

End sample.

(** * Specification vocabulary *)

(** [wp m E w Q]: the run of [m] from [w] ends in an outcome and a world
    that satisfy [Q]. *)
Definition wp {A} (m : M A) (E : Env) (w : World)
    (Q : Outcome A -> World -> Prop) : Prop :=
  Q (m E w).1 (m E w).2.

(** No primitive of the store raises among the calls [a], ..., [b - 1]. *)
Definition fault_free (E : Env) (a b : nat) : Prop :=
  forall n, (a <= n < b)%nat -> fault E n = None.

(** The pool exists or can be created from the process environment. *)
Definition pool_configured (E : Env) (d : Db) : Prop :=
  connection_pool d = true \/ database.missing_vars E = [].

(** The row that the INSERT of [save_message] adds. *)
Definition row_of (p : InsertParams) (id created_at : Z) : ChatRow :=
  mkRow id (ins_timestamp p) (ins_session_uuid p) (ins_message_type p)
    (ins_contents p) created_at.

(** [w'] differs from [w] in the part of [database.py], the standard
    output and the trace only. *)
Definition db_frame (w w' : World) : Prop :=
  w' = set_trace (trace w') (set_stdout (stdout w') (set_db (db w') w)).

(** What one call of [save_message] with a given timestamp does: it
    returned [b] and left the world [w']. *)
Record save_spec (E : Env) (w : World) (p : InsertParams) (b : bool)
    (w' : World) : Prop := {
  save_frame : db_frame w w';
  save_trace : trace w' = trace w ++ [EvSave p];
  save_documents : documents (db w') = documents (db w);
  save_ops : (db_ops (db w) <= db_ops (db w'))%nat;
  save_true :
    b = true <->
    pool_configured E (db w) /\ fault_free E (db_ops (db w)) (db_ops (db w'));
  save_chats :
    chats (db w') = chats (db w)
    \/ exists id created_at,
         chats (db w') = chats (db w) ++ [row_of p id created_at];
  save_row :
    b = true ->
    connection_pool (db w') = true
    /\ exists id created_at,
         chats (db w') = chats (db w) ++ [row_of p id created_at];
  save_pool : connection_pool (db w) = true -> connection_pool (db w') = true
}.

(** The rows that the SELECT of [get_session_history] returns. *)
Definition select_history (session_uuid : str) (rows : list ChatRow)
  : list ChatRow :=
  merge_sort row_le (filter (fun r => row_session_uuid r = session_uuid) rows).

(** The row that the SELECT of [get_document_by_name] returns. *)
Definition select_document (name : str) (docs : list DocRow)
  : option (option str * option str) :=
  match filter (fun d => doc_name d = name) docs with
  | [] => None
  | d :: _ => Some (doc_resume d, doc_jd d)
  end.

(** What one call of [get_session_history] does: it returned [r] and left
    the world [w']. *)
Record history_spec (E : Env) (w : World) (session_uuid : str)
    (r : option (list ChatRow)) (w' : World) : Prop := {
  history_frame : db_frame w w';
  history_trace : trace w' = trace w ++ [EvHistory session_uuid];
  history_chats : chats (db w') = chats (db w);
  history_documents : documents (db w') = documents (db w);
  history_ops : (db_ops (db w) <= db_ops (db w'))%nat;
  history_ok :
    pool_configured E (db w) /\ fault_free E (db_ops (db w)) (db_ops (db w')) ->
    r = Some (select_history session_uuid (chats (db w)));
  history_failed :
    ~ (pool_configured E (db w)
       /\ fault_free E (db_ops (db w)) (db_ops (db w'))) ->
    r = None;
  history_some :
    forall messages, r = Some messages ->
      messages = select_history session_uuid (chats (db w));
  history_pool : connection_pool (db w) = true -> connection_pool (db w') = true
}.

(** What one call of [get_document_by_name] does: it returned [r] and left
    the world [w']. *)
Record document_spec (E : Env) (w : World) (name : str)
    (r : option (option str * option str)) (w' : World) : Prop := {
  document_frame : db_frame w w';
  document_trace : trace w' = trace w ++ [EvDocument name];
  document_chats : chats (db w') = chats (db w);
  document_documents : documents (db w') = documents (db w);
  document_ops : (db_ops (db w) <= db_ops (db w'))%nat;
  document_ok :
    pool_configured E (db w) /\ fault_free E (db_ops (db w)) (db_ops (db w')) ->
    r = select_document name (documents (db w));
  document_failed :
    ~ (pool_configured E (db w)
       /\ fault_free E (db_ops (db w)) (db_ops (db w'))) ->
    r = None;
  document_some :
    forall found, r = Some found ->
      select_document name (documents (db w)) = Some found;
  document_pool : connection_pool (db w) = true -> connection_pool (db w') = true
}.

(** Empty or made of whitespace only. *)
Definition blank (s : str) : Prop := Forall (fun c => isspace c = true) s.

(** The rows that are replayed to the model. *)
Definition replayed (msg : ChatRow) : Prop :=
  row_message_type msg = lit "user" \/ row_message_type msg = lit "assistant".

Definition to_api (msg : ChatRow) : ApiMessage :=
  mkMsg (row_message_type msg) (row_contents msg).

(** The context dict that [render_prompt] builds when no email is given. *)
Definition render_context (E : Env) (resume jd : str) : RenderContext :=
  mkContext resume jd (default [] (getenv E (lit "APPLICANT_EMAIL"))).

(** What [render_prompt template resume jd] returns. *)
Definition rendered (E : Env) (template resume jd : str) : str :=
  match pystache_render E template (render_context E resume jd) with
  | Ok s => s
  | Raised _ => prompt_loader.fallback_prompt resume jd
  end.

(** What [load_template] returns for the default path. *)
Definition loaded_template (E : Env) (cache : option str) : option str :=
  match cache with
  | Some cached => Some cached
  | None =>
      match read_text E prompt_loader.default_template_path with
      | Ok content => Some content
      | Raised _ => None
      end
  end.

(** The system prompt that [chat_function] hands to [stream_message]. *)
Definition turn_prompt (E : Env) (cache : option str) (resume jd : str) : str :=
  rendered E (default [] (loaded_template E cache)) resume jd.

(** [w'] differs from [w] in the template cache and the standard output only. *)
Definition prompt_frame (w w' : World) : Prop :=
  w' = set_stdout (stdout w') (set_template_cache (template_cache w') w).

(** The client exists or can be created from the process environment. *)
Definition client_ready (E : Env) (w : World) : Prop :=
  client w = true \/ falsy (getenv E (lit "ANTHROPIC_API_KEY")) = false.

(** The chunk that reports an error of the streaming call. *)
Definition error_chunk (e : Exn) : str :=
  lit "Error during streaming: " ++ exn_text e.

(** The chunks that [stream_message] yields when the service answers [r]. *)
Definition stream_chunks (r : list str * option Exn) : list str :=
  r.1 ++ match r.2 with Some e => [error_chunk e] | None => [] end.

(** The world once the streaming call is open. *)
Definition stream_opened (messages : list ApiMessage) (system_prompt : str)
    (w : World) : World :=
  set_trace (trace w ++ [EvStream messages system_prompt])
    (set_api_calls (S (api_calls w)) (set_client true w)).

(** The [try] block of [stream_message] from inside its loop. *)
Definition guarded_stream (chunks : list str) (err : option Exn)
    (full_response : str) : Gen str str :=
  chat_service.gen_try_except
    (chat_service.text_stream_loop chunks err full_response)
    chat_service.stream_failed.

(** [history[-1][1] = reply] on the heap. *)
Definition with_reply (cell : loc) (reply : str) (h : gmap loc Turn)
  : gmap loc Turn :=
  alter (fun t => mkTurn (user_msg t) (Some reply)) cell h.

(** What the consumer reads through a transcript. *)
Definition view (h : gmap loc Turn) (history : Transcript) : list (option Turn) :=
  (h !!.) <$> history.

(** The events of the streaming loop: every chunk is followed by the yield
    of the transcript whose last cell holds the text accumulated so far. *)
Fixpoint stream_events (history : Transcript) (cell : loc) (h : gmap loc Turn)
    (full_response : str) (chunks : list str) : list Event :=
  match chunks with
  | [] => []
  | chunk :: rest =>
      let full_response := full_response ++ chunk in
      let h := with_reply cell full_response h in
      EvChunk chunk :: EvYield history (view h history)
        :: stream_events history cell h full_response rest
  end.

(** The heap when the streaming loop ends. *)
Fixpoint stream_heap (cell : loc) (h : gmap loc Turn) (full_response : str)
    (chunks : list str) : gmap loc Turn :=
  match chunks with
  | [] => h
  | chunk :: rest =>
      stream_heap cell (with_reply cell (full_response ++ chunk) h)
        (full_response ++ chunk) rest
  end.

(** The world when the streaming loop ends. *)
Definition after_stream (history : Transcript) (cell : loc)
    (full_response : str) (r : list str * option Exn) (w : World) : World :=
  set_heap (stream_heap cell (heap w) full_response (stream_chunks r))
    (set_trace
       (trace w ++ stream_events history cell (heap w) full_response
                     (stream_chunks r))
       (set_stdout
          (stdout w ++ match r.2 with Some e => [error_chunk e] | None => [] end)
          w)).

(** The rest of a turn, from a stream generator that is about to be
    advanced. *)
Definition drive (session_uuid : str) (history : Transcript)
    (full_response : str) (g : Gen str str) : M main.Update :=
  s <- (s <- g;; main.chat_loop session_uuid history full_response s);;
  main.iterate s.

(** The code after the loop of [chat_function]. *)
Definition finish (session_uuid : str) (history : Transcript)
    (full_response : str) : M main.Update :=
  t <- datetime_now;;
  database.save_message session_uuid (lit "assistant") full_response (Some t);;;
  ret (history, []).

(** The world in which the turn reads the session history. *)
Definition world_user_saved (message session_uuid : str) (E : Env) (w : World)
  : World :=
  (database.save_message session_uuid (lit "user") message
     (Some (now E (clock_reads w))) E (datetime_now E w).2).2.

(** What [get_session_history] returns to the turn. *)
Definition turn_history (message session_uuid : str) (E : Env) (w : World)
  : option (list ChatRow) :=
  match (database.get_session_history session_uuid E
           (world_user_saved message session_uuid E w)).1 with
  | Ok r => r
  | Raised _ => None
  end.

(** The messages that the turn hands to [stream_message]. *)
Definition turn_messages (message session_uuid : str) (E : Env) (w : World)
  : list ApiMessage :=
  chat_service.format_message_history
    (main.or_empty_list (turn_history message session_uuid E w)).

(** The new events of a turn. *)
Definition turn_events (message : str) (history : Transcript)
    (session_uuid resume jd : str) (E : Env) (w : World) : list Event :=
  let cell := fresh (dom (heap w)) in
  let hist := history ++ [cell] in
  let h1 := <[cell := mkTurn (Some message) None]> (heap w) in
  let t0 := now E (clock_reads w) in
  let t1 := now E (S (clock_reads w)) in
  let messages := turn_messages message session_uuid E w in
  let system_prompt := turn_prompt E (template_cache w) resume jd in
  let chunks :=
    stream_chunks (messages_stream E (api_calls w) messages system_prompt) in
  [EvNow t0;
   EvSave (mkInsert session_uuid (lit "user") message t0);
   EvHistory session_uuid;
   EvYield hist (view h1 hist);
   EvStream messages system_prompt]
  ++ stream_events hist cell h1 [] chunks
  ++ [EvNow t1;
      EvSave (mkInsert session_uuid (lit "assistant") (List.concat chunks) t1)].

(** The chunks that [stream_message] yielded, in order. *)
Fixpoint chunks_of (events : list Event) : list str :=
  match events with
  | [] => []
  | EvChunk text :: rest => text :: chunks_of rest
  | _ :: rest => chunks_of rest
  end.

(** The calls of [save_message], in order. *)
Fixpoint saves_of (events : list Event) : list InsertParams :=
  match events with
  | [] => []
  | EvSave p :: rest => p :: saves_of rest
  | _ :: rest => saves_of rest
  end.

(** The transcripts that the consumer received, as it read them. *)
Fixpoint yields_of (events : list Event) : list (list (option Turn)) :=
  match events with
  | [] => []
  | EvYield _ seen :: rest => seen :: yields_of rest
  | _ :: rest => yields_of rest
  end.

(** The system prompts of the streaming calls, in order. *)
Fixpoint prompts_of (events : list Event) : list str :=
  match events with
  | [] => []
  | EvStream _ system_prompt :: rest => system_prompt :: prompts_of rest
  | _ :: rest => prompts_of rest
  end.

(** The message lists of the streaming calls, in order. *)
Fixpoint contexts_of (events : list Event) : list (list ApiMessage) :=
  match events with
  | [] => []
  | EvStream messages _ :: rest => messages :: contexts_of rest
  | _ :: rest => contexts_of rest
  end.

(** The transcript the consumer reads at a yield of the loop: the earlier
    turns, then the turn in progress with the text accumulated so far. *)
Definition snapshot (earlier : list (option Turn)) (message reply : str)
  : list (option Turn) :=
  earlier ++ [Some (mkTurn (Some message) (Some reply))].

(** Chunk by chunk: the chunk, then at once the snapshot with the
    concatenation of the chunks received so far. *)
Fixpoint snapshots (history : Transcript) (earlier : list (option Turn))
    (message full_response : str) (chunks : list str) : list Event :=
  match chunks with
  | [] => []
  | chunk :: rest =>
      EvChunk chunk
        :: EvYield history (snapshot earlier message (full_response ++ chunk))
        :: snapshots history earlier message (full_response ++ chunk) rest
  end.

(** Valid references: every cell of the transcript is on the heap. *)
Definition valid_history (h : gmap loc Turn) (history : Transcript) : Prop :=
  Forall (fun l => is_Some (h !! l)) history.

(** The rows of one session. *)
Definition session_rows (session_uuid : str) (rows : list ChatRow)
  : list ChatRow :=
  filter (fun r => row_session_uuid r = session_uuid) rows.

(** The parameters a row was inserted with. *)
Definition params_of (r : ChatRow) : InsertParams :=
  mkInsert (row_session_uuid r) (row_message_type r) (row_contents r)
    (row_timestamp r).

(** A sequence of calls of [save_message], with what each call returned. *)
Fixpoint run_appends (ps : list InsertParams) (E : Env) (w : World)
  : list bool * World :=
  match ps with
  | [] => ([], w)
  | p :: rest =>
      let (r, w1) :=
        database.save_message (ins_session_uuid p) (ins_message_type p)
          (ins_contents p) (Some (ins_timestamp p)) E w in
      let (bs, w2) := run_appends rest E w1 in
      (match r with Ok b => b | Raised _ => false end :: bs, w2)
  end.

(** Every append to the session returned True. *)
Definition appends_succeeded (session_uuid : str) (ps : list InsertParams)
    (returned : list bool) : Prop :=
  Forall2 (fun p b => ins_session_uuid p = session_uuid -> b = true)
    ps returned.

(** Only chunks and yields happen while the reply is streamed. *)
Definition streaming (ev : Event) : Prop :=
  match ev with
  | EvChunk _ | EvYield _ _ | EvStream _ _ => True
  | _ => False
  end.

(** The page that reports a lookup without a result. *)
Definition not_found_page (name session_uuid : str) : main.PageLoad :=
  main.mkPageLoad
    (lit "**Error:** No document found with name '" ++ name ++ lit "'")
    name session_uuid false [] [].

(** [w'] differs from [w] in the client, the count of API calls and the
    standard output only. *)
Definition client_frame (w w' : World) : Prop :=
  w' = set_stdout (stdout w')
         (set_api_calls (api_calls w') (set_client (client w') w)).

(** The texts of the four ways [startup_checks] can fail. *)
Definition startup_failures (E : Env) : list str :=
  [lit "Missing required environment variables: "
   ++ join (lit ", ") (main.missing_env_vars E);
   lit "Unable to connect to database. Please check configuration.";
   lit "Unable to connect to Claude API. Please check API key.";
   lit "System prompt template not found at prompts/chat_system.mustache"].

(** What [startup_checks] returned and the world it left. *)
Record startup_spec (H : Host) (E : Env) (w : World) (success : bool)
    (error : option str) (w' : World) : Prop := {
  startup_error : success = true <-> error = None;
  startup_texts : forall text, error = Some text -> text ∈ startup_failures E;
  startup_ready :
    success = true ->
    main.missing_env_vars E = []
    /\ connection_pool (db w') = true
    /\ client w' = true
    /\ isfile H
         (if isabs H prompt_loader.default_template_path
          then prompt_loader.default_template_path
          else abspath H prompt_loader.default_template_path) = true;
  startup_missing :
    main.missing_env_vars E <> [] ->
    w' = w
    /\ error = Some (lit "Missing required environment variables: "
                     ++ join (lit ", ") (main.missing_env_vars E));
  startup_store_first :
    main.missing_env_vars E = [] ->
    (database.test_connection E w).1 = Ok false ->
    error = Some (lit "Unable to connect to database. Please check configuration.")
    /\ api_calls w' = api_calls w /\ client w' = client w;
  startup_chats : chats (db w') = chats (db w);
  startup_documents : documents (db w') = documents (db w);
  startup_trace : trace w' = trace w;
  startup_heap : heap w' = heap w;
  startup_flags :
    app_initialized w' = app_initialized w
    /\ initialization_error w' = initialization_error w
}.

(** * Properties *)

Arguments lit : simpl never.
Arguments database.missing_vars : simpl never.

(** ** A weakest-precondition calculus for the monad *)

Section wp_rules.
Context {A B : Type}.
Implicit Types (E : Env) (w : World).

Lemma wp_run (m : M A) E w Q r w' : m E w = (r, w') -> Q r w' -> wp m E w Q.
Proof. unfold wp. intros ->. done. Qed.

Lemma wp_elim (m : M A) E w Q : wp m E w Q -> exists r w', m E w = (r, w') /\ Q r w'.
Proof. unfold wp. destruct (m E w) as [r w']. eauto. Qed.

Lemma wp_mono (m : M A) E w (Q Q' : Outcome A -> World -> Prop) :
  wp m E w Q -> (forall r w', Q r w' -> Q' r w') -> wp m E w Q'.
Proof. unfold wp. auto. Qed.

Lemma wp_ret (a : A) E w Q : Q (Ok a) w -> wp (ret a) E w Q.
Proof. done. Qed.

Lemma wp_raise e E w (Q : Outcome A -> World -> Prop) :
  Q (Raised e) w -> wp (raise e) E w Q.
Proof. done. Qed.

Lemma wp_bind (m : M A) (f : A -> M B) E w Q :
  wp m E w (fun r w' =>
    match r with
    | Ok a => wp (f a) E w' Q
    | Raised e => Q (Raised e) w'
    end) ->
  wp (bind m f) E w Q.
Proof. unfold wp, bind. destruct (m E w) as [[a|e] w']; done. Qed.

Lemma wp_try_except (body : M A) handler E w Q :
  wp body E w (fun r w' =>
    match r with
    | Ok a => Q (Ok a) w'
    | Raised e => wp (handler e) E w' Q
    end) ->
  wp (try_except body handler) E w Q.
Proof. unfold wp, try_except. destruct (body E w) as [[a|e] w']; done. Qed.

Lemma wp_try_finally (body : M A) final E w Q :
  wp body E w (fun r w' =>
    wp final E w' (fun r' w'' =>
      match r' with
      | Ok _ => Q r w''
      | Raised e => Q (Raised e) w''
      end)) ->
  wp (try_finally body final) E w Q.
Proof.
  unfold wp, try_finally. destruct (body E w) as [r w']. cbn.
  destruct (final E w') as [[[]|e] w'']; done.
Qed.
End wp_rules.

Lemma bind_run {A B} (m : M A) (f : A -> M B) E w :
  bind m f E w =
  match m E w with
  | (Ok a, w') => f a E w'
  | (Raised e, w') => (Raised e, w')
  end.
Proof. reflexivity. Qed.

Lemma try_except_run {A} (body : M A) handler E w :
  try_except body handler E w =
  match body E w with
  | (Ok a, w') => (Ok a, w')
  | (Raised e, w') => handler e E w'
  end.
Proof. reflexivity. Qed.

Lemma wp_get E w Q : Q (Ok w) w -> wp get E w Q.
Proof. done. Qed.

Lemma wp_ask E w Q : Q (Ok E) w -> wp ask E w Q.
Proof. done. Qed.

Lemma wp_modify f E w Q : Q (Ok tt) (f w) -> wp (modify f) E w Q.
Proof. done. Qed.

Lemma wp_modify_db f E w Q :
  Q (Ok tt) (set_db (f (db w)) w) -> wp (modify_db f) E w Q.
Proof. done. Qed.

Lemma wp_emit ev E w Q :
  Q (Ok tt) (set_trace (trace w ++ [ev]) w) -> wp (emit ev) E w Q.
Proof. done. Qed.

Lemma wp_print s E w Q :
  Q (Ok tt) (set_stdout (stdout w ++ [s]) w) -> wp (print s) E w Q.
Proof. done. Qed.

Lemma wp_psycopg2 E w Q :
  (forall e, fault E (db_ops (db w)) = Some e ->
     Q (Raised e) (set_db (set_db_ops (S (db_ops (db w))) (db w)) w)) ->
  (fault E (db_ops (db w)) = None ->
     Q (Ok (db_ops (db w))) (set_db (set_db_ops (S (db_ops (db w))) (db w)) w)) ->
  wp psycopg2 E w Q.
Proof.
  unfold wp, psycopg2. destruct (fault E (db_ops (db w))); cbn; auto.
Qed.

(** Projections of updated records. *)
Ltac simpl_world :=
  cbn [db client template_cache app_initialized initialization_error heap
       clock_reads uuid_draws api_calls stdout trace
       chats documents pending connection_pool db_ops
       set_chats set_pending set_connection_pool set_db_ops set_db set_client
       set_template_cache set_heap set_clock_reads set_uuid_draws
       set_api_calls set_stdout set_trace] in *.

(** One step of symbolic execution. *)
Ltac wp_step :=
  lazymatch goal with
  | |- wp (bind _ _) _ _ _ => apply wp_bind
  | |- wp (ret _) _ _ _ => apply wp_ret
  | |- wp (raise _) _ _ _ => apply wp_raise
  | |- wp (try_except _ _) _ _ _ => apply wp_try_except
  | |- wp (try_finally _ _) _ _ _ => apply wp_try_finally
  | |- wp get _ _ _ => apply wp_get
  | |- wp ask _ _ _ => apply wp_ask
  | |- wp (modify_db _) _ _ _ => apply wp_modify_db
  | |- wp (modify _) _ _ _ => apply wp_modify
  | |- wp (emit _) _ _ _ => apply wp_emit
  | |- wp (print _) _ _ _ => apply wp_print
  | |- wp psycopg2 _ _ _ => apply wp_psycopg2; [intros ? ? | intros ?]
  | |- wp (match ?x with _ => _ end) _ _ _ => destruct x eqn:?
  end; simpl_world.

(** Unfold the primitives of [database.py]. *)
Ltac unfold_db :=
  unfold database.getconn, database.cursor, database.execute_insert,
    database.execute_select, database.commit, database.cursor_close,
    database.putconn, database.fetchall_history, database.fetchone_document.

(** ** database.py *)

(** Unfold the field updates of worlds. *)
Ltac unfold_world :=
  cbv [db client template_cache app_initialized initialization_error heap
       clock_reads uuid_draws api_calls stdout trace
       set_db set_client set_template_cache set_heap set_clock_reads
       set_uuid_draws set_api_calls set_stdout set_trace] in *.

(** Take every world of the context apart. *)
Ltac destruct_worlds :=
  repeat match goal with
         | w : World |- _ => destruct w
         end.

(** Routine side conditions. *)
Ltac side :=
  simpl_world;
  try done; try lia; try (intros; congruence);
  try match goal with
      | |- db_frame _ _ =>
          unfold db_frame in *; destruct_worlds; unfold_world;
          repeat match goal with
                 | H : mkWorld _ _ _ _ _ _ _ _ _ _ _ = _ |- _ =>
                     injection H; clear H; intros; subst
                 end;
          reflexivity
      end.

Lemma wp_get_connection_pool E w Q :
  (forall w', db_frame w w' -> trace w' = trace w ->
     chats (db w') = chats (db w) -> documents (db w') = documents (db w) ->
     (db_ops (db w) <= db_ops (db w'))%nat ->
     pool_configured E (db w) ->
     fault_free E (db_ops (db w)) (db_ops (db w')) ->
     connection_pool (db w') = true ->
     Q (Ok tt) w') ->
  (forall e w', db_frame w w' -> trace w' = trace w ->
     chats (db w') = chats (db w) -> documents (db w') = documents (db w) ->
     (db_ops (db w) <= db_ops (db w'))%nat ->
     ~ (pool_configured E (db w)
        /\ fault_free E (db_ops (db w)) (db_ops (db w'))) ->
     connection_pool (db w) = false ->
     Q (Raised e) w') ->
  wp database.get_connection_pool E w Q.
Proof.
  intros Hok Hfail. unfold database.get_connection_pool.
  wp_step. wp_step.
  destruct (connection_pool (db w)) eqn:Hpool.
  - wp_step. apply Hok; side.
    + by left.
    + intros n ?; lia.
  - wp_step. wp_step.
    destruct (database.missing_vars E) eqn:Hmiss.
    + wp_step. repeat wp_step.
      * apply Hfail; side.
        intros [_ Hff]. rewrite Hff in *; [done | lia].
      * apply Hok; side; [by right|].
        intros n ?. by replace n with (db_ops (db w)) by lia.
    + wp_step. apply Hfail; side.
      intros [[?|?] _]; congruence.
Qed.

Lemma fault_free_refl E a : fault_free E a a.
Proof. intros n ?. lia. Qed.

Lemma fault_free_snoc E a b :
  fault_free E a b -> fault E b = None -> fault_free E a (S b).
Proof.
  intros H Hb n ?. destruct (decide (n = b)) as [->|]; [done|]. apply H. lia.
Qed.

Lemma fault_free_shrink E a b b' :
  fault_free E a b -> (b' <= b)%nat -> fault_free E a b'.
Proof. intros H ? n ?. apply H. lia. Qed.

Lemma fault_free_hit E a b k e :
  fault E k = Some e -> (a <= k < b)%nat -> ~ fault_free E a b.
Proof. intros Hk ? H. rewrite H in Hk; done. Qed.

Lemma wp_save_message session_uuid message_type contents t E w Q :
  (forall b w',
     save_spec E w (mkInsert session_uuid message_type contents t) b w' ->
     Q (Ok b) w') ->
  wp (database.save_message session_uuid message_type contents (Some t)) E w Q.
Proof.
  intros HQ. unfold database.save_message, database.save_message_try.
  do 6 wp_step.
  apply wp_get_connection_pool.
  - intros w1 Hfr Htr Hch Hdoc Hops Hcfg Hff Hpool.
    unfold_db. repeat wp_step.
    all: apply HQ; unfold row_of; constructor; side.
    all: try (rewrite Hch; eauto).
    all: try (split; [done|]; intros [_ Hbad]; exfalso;
              match goal with
              | H : fault _ ?k = Some _ |- _ =>
                  apply (fault_free_hit _ _ _ _ _ H) in Hbad; [done | lia]
              end).
    split; [intros _; split; [done|] | done].
    repeat (apply fault_free_snoc; [|assumption]). exact Hff.
  - intros e w1 Hfr Htr Hch Hdoc Hops Hbad Hnopool.
    repeat wp_step. apply HQ; constructor; side.
    all: try match goal with
             | |- _ <-> _ => split; [done | intros ?; by destruct Hbad]
             end.
    all: by left.
Qed.

(** A primitive of the window raised, yet the window is said fault-free. *)
Ltac fault_contradiction :=
  match goal with
  | Hbad : fault_free _ _ _, H : fault _ ?k = Some _ |- _ =>
      exfalso; apply (fault_free_hit _ _ _ _ _ H) in Hbad; [done | lia]
  end.

Lemma wp_get_session_history session_uuid E w Q :
  (forall r w', history_spec E w session_uuid r w' -> Q (Ok r) w') ->
  wp (database.get_session_history session_uuid) E w Q.
Proof.
  intros HQ.
  unfold database.get_session_history, database.get_session_history_try.
  do 4 wp_step.
  apply wp_get_connection_pool.
  - intros w1 Hfr Htr Hch Hdoc Hops Hcfg Hff Hpool.
    unfold_db. repeat wp_step.
    all: apply HQ; unfold select_history; constructor; side.
    all: try (intros [_ ?]; fault_contradiction).
    all: try (by rewrite Hch).
    all: try (intros ? [= <-]; by rewrite Hch).
    intros []. split; [done|].
    repeat (apply fault_free_snoc; [|assumption]). exact Hff.
  - intros e w1 Hfr Htr Hch Hdoc Hops Hbad Hnopool.
    repeat wp_step. apply HQ; constructor; side.
Qed.

Lemma wp_get_document_by_name name E w Q :
  (forall r w', document_spec E w name r w' -> Q (Ok r) w') ->
  wp (database.get_document_by_name name) E w Q.
Proof.
  intros HQ.
  unfold database.get_document_by_name, database.get_document_by_name_try.
  do 4 wp_step.
  apply wp_get_connection_pool.
  - intros w1 Hfr Htr Hch Hdoc Hops Hcfg Hff Hpool.
    unfold_db. repeat wp_step.
    all: apply HQ; constructor; unfold select_document; side.
    all: try (intros [_ ?]; fault_contradiction).
    all: try (intros _; rewrite <- Hdoc; congruence).
    all: try (intros ? [= <-]; rewrite <- Hdoc; congruence).
    all: intros []; split; [done|];
      repeat (apply fault_free_snoc; [|assumption]); exact Hff.
  - intros e w1 Hfr Htr Hch Hdoc Hops Hbad Hnopool.
    repeat wp_step. apply HQ; constructor; side.
Qed.

(** ** Strings *)

Lemma lstrip_nil s : lstrip s = [] <-> blank s.
Proof.
  unfold blank. induction s as [|c s IH]; cbn.
  - split; [constructor | done].
  - destruct (isspace c) eqn:Hc.
    + rewrite IH. split; [by constructor | by inversion 1].
    + split; [done | inversion 1; congruence].
Qed.

Lemma lstrip_blank s : blank (lstrip s) -> blank s.
Proof.
  unfold blank. induction s as [|c s IH]; cbn; [done|].
  destruct (isspace c) eqn:Hc; [|done].
  intros. constructor; auto.
Qed.

Lemma strip_blank s : truthy (strip s) = false <-> blank s.
Proof.
  unfold strip, rstrip. split.
  - intros H. apply lstrip_blank.
    destruct (rev (lstrip (rev (lstrip s)))) eqn:Hr; [|done].
    apply (f_equal (@rev N)) in Hr. rewrite rev_involutive in Hr. cbn in Hr.
    apply lstrip_nil in Hr. unfold blank in *.
    rewrite <- (rev_involutive (lstrip s)). by apply Forall_rev.
  - intros H. apply lstrip_nil in H. by rewrite H.
Qed.

Lemma strip_not_blank s : ~ blank s -> truthy (strip s) = true.
Proof.
  intros H. destruct (truthy (strip s)) eqn:Ht; [done|].
  by apply strip_blank in Ht.
Qed.

#[global] Instance blank_dec s : Decision (blank s).
Proof. unfold blank. apply _. Defined.

(** ** chat_service.format_message_history *)

#[global] Instance replayed_dec msg : Decision (replayed msg).
Proof. unfold replayed. apply _. Defined.

Lemma system_not_replayed : lit "system" <> lit "user" /\ lit "system" <> lit "assistant".
Proof. split; intros H; vm_compute in H; discriminate. Qed.

Lemma format_one_spec messages msg :
  chat_service.format_one messages msg =
  messages ++ (if decide (replayed msg) then [to_api msg] else []).
Proof.
  unfold chat_service.format_one, replayed, to_api.
  destruct system_not_replayed as [Hu Ha].
  repeat case_decide; rewrite ?app_nil_r; try done.
  destruct H0; congruence.
Qed.

Lemma format_message_history_from messages db_messages :
  fold_left chat_service.format_one db_messages messages =
  messages ++ (to_api <$> filter replayed db_messages).
Proof.
  revert messages. induction db_messages as [|msg rest IH]; intros messages.
  - cbn. by rewrite app_nil_r.
  - rewrite filter_cons. cbn [fold_left]. rewrite IH, format_one_spec.
    case_decide; cbn; by rewrite <- ?app_assoc, ?app_nil_r.
Qed.

Lemma format_message_history_spec db_messages :
  chat_service.format_message_history db_messages =
  to_api <$> filter replayed db_messages.
Proof. apply format_message_history_from. Qed.

Lemma format_message_history_roles db_messages m :
  m ∈ chat_service.format_message_history db_messages ->
  role m = lit "user" \/ role m = lit "assistant".
Proof.
  rewrite format_message_history_spec. intros H.
  apply list_elem_of_fmap in H as (msg & -> & Hmsg).
  apply list_elem_of_filter in Hmsg as [Hr _]. exact Hr.
Qed.

(** ** prompt_loader.py *)

Lemma wp_render_prompt template resume jd E w Q :
  (forall out, Q (Ok (rendered E template resume jd))
                 (set_stdout (stdout w ++ out) w)) ->
  wp (prompt_loader.render_prompt template resume jd None) E w Q.
Proof.
  intros HQ. unfold prompt_loader.render_prompt, rendered, render_context in *.
  apply wp_try_except. unfold wp, bind, os_getenv, prompt_loader.pystache_call,
    ret, print, modify. cbn.
  destruct (pystache_render E template _) as [s|e]; cbn.
  - specialize (HQ []). rewrite app_nil_r in HQ. by destruct w.
  - apply HQ.
Qed.

Lemma wp_load_template E w Q :
  (forall w', prompt_frame w w' ->
     Q (Ok (loaded_template E (template_cache w))) w') ->
  wp (prompt_loader.load_template prompt_loader.default_template_path) E w Q.
Proof.
  intros HQ. unfold prompt_loader.load_template, loaded_template in *.
  do 2 wp_step. destruct (template_cache w) eqn:Hc.
  - wp_step. apply HQ. unfold prompt_frame. destruct w; cbn in *; by subst.
  - wp_step. unfold prompt_loader.read_file. apply wp_bind. unfold wp at 1. cbn.
    destruct (read_text E _) as [content|e].
    + repeat wp_step. apply HQ. unfold prompt_frame. by destruct w.
    + destruct (exn_class e); repeat wp_step; apply HQ; unfold prompt_frame;
        by destruct w.
Qed.

(** Lines 158-162 of [main.py]: the prompt of the turn. *)
Lemma wp_turn_prompt resume jd E w Q :
  (forall w', prompt_frame w w' ->
     Q (Ok (turn_prompt E (template_cache w) resume jd)) w') ->
  wp (system_prompt <- prompt_loader.get_system_prompt resume jd
                         prompt_loader.default_template_path;;
      match system_prompt with
      | None => prompt_loader.render_prompt [] resume jd None
      | Some p => ret p
      end) E w Q.
Proof.
  intros HQ. unfold prompt_loader.get_system_prompt, turn_prompt in *.
  do 2 wp_step. apply wp_load_template. intros w1 Hfr.
  assert (Hstep : forall out, prompt_frame w (set_stdout (stdout w1 ++ out) w1)).
  { intros out. unfold prompt_frame in *. destruct w, w1. unfold_world.
    injection Hfr; intros; subst. reflexivity. }
  destruct (loaded_template E (template_cache w)) as [template|]; cbn [default].
  - wp_step. apply wp_render_prompt. intros out. do 2 wp_step.
    apply HQ, Hstep.
  - wp_step. apply wp_render_prompt. intros out. apply HQ, Hstep.
Qed.

(** ** chat_service.stream_message *)

Lemma guarded_stream_cons c rest err full E w :
  guarded_stream (c :: rest) err full E w =
  (Ok (Yield c (guarded_stream rest err (full ++ c))),
   set_trace (trace w ++ [EvChunk c]) w).
Proof. reflexivity. Qed.

Lemma guarded_stream_end full E w :
  guarded_stream [] None full E w = (Ok (Return full), w).
Proof. reflexivity. Qed.

Lemma guarded_stream_error e full E w :
  guarded_stream [] (Some e) full E w =
  (Ok (Yield (error_chunk e) (ret (Return (error_chunk e)))),
   set_trace (trace w ++ [EvChunk (error_chunk e)])
     (set_stdout (stdout w ++ [error_chunk e]) w)).
Proof. reflexivity. Qed.

Lemma stream_message_run messages system_prompt E w :
  client_ready E w ->
  chat_service.stream_message messages system_prompt E w =
  guarded_stream (messages_stream E (api_calls w) messages system_prompt).1
    (messages_stream E (api_calls w) messages system_prompt).2 []
    E (stream_opened messages system_prompt w).
Proof.
  intros Hready. unfold chat_service.stream_message, stream_opened.
  rewrite !bind_run. cbn [get].
  destruct (client w) eqn:Hc.
  - cbn [ret]. destruct w; cbn in Hc; subst. reflexivity.
  - destruct Hready as [|Hkey]; [congruence|].
    unfold chat_service.initialize_client, bind, os_getenv.
    rewrite Hkey. reflexivity.
Qed.

Lemma stream_message_not_ready messages system_prompt E w :
  ~ client_ready E w ->
  chat_service.stream_message messages system_prompt E w =
  (Raised (mkExn ValueError
             (lit "ANTHROPIC_API_KEY environment variable not set")), w).
Proof.
  intros Hready. unfold chat_service.stream_message.
  rewrite !bind_run. cbn [get].
  destruct (client w) eqn:Hc; [destruct Hready; by left|].
  unfold chat_service.initialize_client, bind, os_getenv.
  destruct (falsy _) eqn:Hkey; [reflexivity|]. destruct Hready; by right.
Qed.

Lemma drain_guarded_stream chunks err full E w :
  exists w',
    (s <- guarded_stream chunks err full;; chat_service.drain s) E w =
    (Ok (stream_chunks (chunks, err),
         match err with Some e => error_chunk e | None => full ++ List.concat chunks end),
     w').
Proof.
  revert full w. induction chunks as [|c rest IH]; intros full w.
  - destruct err as [e|]; eexists; rewrite bind_run.
    + rewrite guarded_stream_error. reflexivity.
    + rewrite guarded_stream_end. cbn. by rewrite app_nil_r.
  - destruct (IH (full ++ c) (set_trace (trace w ++ [EvChunk c]) w)) as [w' Hw'].
    exists w'. rewrite bind_run, guarded_stream_cons. cbn [chat_service.drain].
    rewrite bind_run in Hw'.
    destruct (guarded_stream rest err (full ++ c) E _) as [[s|e] w1]; [|done].
    rewrite Hw'. unfold stream_chunks. cbn.
    destruct err; by rewrite <- ?app_assoc.
Qed.

(** ** main.chat_function *)

Lemma drive_yield session_uuid history cell full g chunk resume E w w1 :
  last history = Some cell ->
  g E w = (Ok (Yield chunk resume), w1) ->
  drive session_uuid history full g E w =
  drive session_uuid history (full ++ chunk) resume E
    (set_trace
       (trace w1 ++
        [EvYield history (view (with_reply cell (full ++ chunk) (heap w1)) history)])
       (set_heap (with_reply cell (full ++ chunk) (heap w1)) w1)).
Proof.
  intros Hlast Hg. unfold drive at 1. rewrite !bind_run, Hg.
  cbn [main.chat_loop]. rewrite bind_run. unfold main.set_last_reply.
  rewrite Hlast. reflexivity.
Qed.

Lemma drive_return session_uuid history full g r E w w1 :
  g E w = (Ok (Return r), w1) ->
  drive session_uuid history full g E w = finish session_uuid history full E w1.
Proof.
  intros Hg. unfold drive, finish. rewrite !bind_run, Hg.
  cbn [main.chat_loop]. rewrite !bind_run.
  destruct (datetime_now E w1) as [[t|e] w2]; [|done].
  rewrite !bind_run.
  destruct (database.save_message _ _ _ _ E w2) as [[b|e] w3]; done.
Qed.

Lemma drive_raised session_uuid history full g e E w w1 :
  g E w = (Raised e, w1) ->
  drive session_uuid history full g E w = (Raised e, w1).
Proof. intros Hg. unfold drive. by rewrite !bind_run, Hg. Qed.

Lemma after_stream_cons history cell full c rest err w :
  after_stream history cell (full ++ c) (rest, err)
    (set_trace
       (trace w ++ [EvChunk c] ++
        [EvYield history (view (with_reply cell (full ++ c) (heap w)) history)])
       (set_heap (with_reply cell (full ++ c) (heap w)) w))
  = after_stream history cell full (c :: rest, err) w.
Proof.
  unfold after_stream, stream_chunks. destruct w. unfold_world. cbn.
  by rewrite <- !app_assoc.
Qed.

Lemma drive_guarded_stream session_uuid history cell chunks err full sfull E w :
  last history = Some cell ->
  drive session_uuid history full (guarded_stream chunks err sfull) E w =
  finish session_uuid history (full ++ List.concat (stream_chunks (chunks, err))) E
    (after_stream history cell full (chunks, err) w).
Proof.
  intros Hlast. revert full sfull w.
  induction chunks as [|c rest IH]; intros full sfull w.
  - destruct err as [e|].
    + erewrite drive_yield; [|done|apply guarded_stream_error].
      erewrite drive_return; [|reflexivity].
      unfold after_stream, stream_chunks. cbn. rewrite !app_nil_r.
      f_equal; destruct w; unfold_world; cbn; by rewrite <- !app_assoc.
    + erewrite drive_return; [|apply guarded_stream_end].
      unfold after_stream, stream_chunks. cbn. rewrite !app_nil_r.
      f_equal; by destruct w.
  - erewrite drive_yield; [|done|apply guarded_stream_cons].
    rewrite IH. simpl_world.
    rewrite <- after_stream_cons.
    unfold stream_chunks. cbn. rewrite <- !app_assoc.
    repeat f_equal; destruct w; unfold_world; cbn; by rewrite <- !app_assoc.
Qed.

Lemma db_frame_fields w w' :
  db_frame w w' ->
  client w' = client w /\ template_cache w' = template_cache w
  /\ heap w' = heap w /\ clock_reads w' = clock_reads w
  /\ api_calls w' = api_calls w /\ uuid_draws w' = uuid_draws w
  /\ app_initialized w' = app_initialized w
  /\ initialization_error w' = initialization_error w.
Proof. unfold db_frame. intros H. rewrite H. by destruct w. Qed.

Lemma prompt_frame_fields w w' :
  prompt_frame w w' ->
  db w' = db w /\ client w' = client w /\ heap w' = heap w
  /\ clock_reads w' = clock_reads w /\ api_calls w' = api_calls w
  /\ trace w' = trace w.
Proof. unfold prompt_frame. intros H. rewrite H. by destruct w. Qed.

Lemma save_message_run session_uuid message_type contents t E w :
  exists b w',
    database.save_message session_uuid message_type contents (Some t) E w
    = (Ok b, w')
    /\ save_spec E w (mkInsert session_uuid message_type contents t) b w'.
Proof.
  destruct (wp_elim _ E w _
    (wp_save_message session_uuid message_type contents t E w
       (fun r w' => exists b, r = Ok b /\
          save_spec E w (mkInsert session_uuid message_type contents t) b w')
       (fun b w' H => ex_intro _ b (conj eq_refl H))))
    as (r & w' & Hrun & b & -> & Hspec).
  eauto.
Qed.

Lemma get_session_history_run session_uuid E w :
  exists r w',
    database.get_session_history session_uuid E w = (Ok r, w')
    /\ history_spec E w session_uuid r w'.
Proof.
  destruct (wp_elim _ E w _
    (wp_get_session_history session_uuid E w
       (fun r w' => exists o, r = Ok o /\ history_spec E w session_uuid o w')
       (fun o w' H => ex_intro _ o (conj eq_refl H))))
    as (r & w' & Hrun & o & -> & Hspec).
  eauto.
Qed.

Lemma get_document_by_name_run name E w :
  exists r w',
    database.get_document_by_name name E w = (Ok r, w')
    /\ document_spec E w name r w'.
Proof.
  destruct (wp_elim _ E w _
    (wp_get_document_by_name name E w
       (fun r w' => exists o, r = Ok o /\ document_spec E w name o w')
       (fun o w' H => ex_intro _ o (conj eq_refl H))))
    as (r & w' & Hrun & o & -> & Hspec).
  eauto.
Qed.

Lemma turn_prompt_run resume jd E w :
  exists w',
    (system_prompt <- prompt_loader.get_system_prompt resume jd
                        prompt_loader.default_template_path;;
     match system_prompt with
     | None => prompt_loader.render_prompt [] resume jd None
     | Some p => ret p
     end) E w = (Ok (turn_prompt E (template_cache w) resume jd), w')
    /\ prompt_frame w w'.
Proof.
  destruct (wp_elim _ E w _
    (wp_turn_prompt resume jd E w
       (fun r w' => r = Ok (turn_prompt E (template_cache w) resume jd)
                    /\ prompt_frame w w')
       (fun w' H => conj eq_refl H)))
    as (r & w' & Hrun & -> & Hspec).
  eauto.
Qed.

Lemma bind_assoc {A B C} (m : M A) (f : A -> M B) (g : B -> M C) E w :
  bind (bind m f) g E w = bind m (fun a => bind (f a) g) E w.
Proof. unfold bind. destruct (m E w) as [[a|e] w1]; done. Qed.

Lemma turn_prompt_bind {B} resume jd (k : str -> M B) E w :
  exists w',
    (system_prompt <- prompt_loader.get_system_prompt resume jd
                        prompt_loader.default_template_path;;
     system_prompt <- match system_prompt with
                      | None => prompt_loader.render_prompt [] resume jd None
                      | Some p => ret p
                      end;;
     k system_prompt) E w
    = k (turn_prompt E (template_cache w) resume jd) E w'
    /\ prompt_frame w w'.
Proof.
  destruct (turn_prompt_run resume jd E w) as (w' & Hrun & Hfr).
  exists w'. split; [|done].
  rewrite <- bind_assoc, bind_run, Hrun. reflexivity.
Qed.

Lemma iterate_first session_uuid history full g x E w :
  main.iterate
    (Yield (history, x) (s <- g;; main.chat_loop session_uuid history full s))
    E w =
  drive session_uuid history full g E
    (set_trace (trace w ++ [EvYield history (view (heap w) history)]) w).
Proof. reflexivity. Qed.

Lemma drive_ext session_uuid history full g g' E w w' :
  g E w = g' E w' ->
  drive session_uuid history full g E w = drive session_uuid history full g' E w'.
Proof. intros H. unfold drive. by rewrite !bind_run, H. Qed.

Lemma submit_turn_start message history session_uuid resume jd E w :
  ~ blank message ->
  exists w4,
    let cell := fresh (dom (heap w)) in
    let hist := history ++ [cell] in
    let h1 := <[cell := mkTurn (Some message) None]> (heap w) in
    main.submit_turn message history session_uuid resume jd E w
    = drive session_uuid hist []
        (chat_service.stream_message (turn_messages message session_uuid E w)
           (turn_prompt E (template_cache w) resume jd)) E w4
    /\ client w4 = client w /\ heap w4 = h1
    /\ clock_reads w4 = S (clock_reads w)
    /\ api_calls w4 = api_calls w
    /\ trace w4 = trace w ++
         [EvNow (now E (clock_reads w));
          EvSave (mkInsert session_uuid (lit "user") message
                    (now E (clock_reads w)));
          EvHistory session_uuid; EvYield hist (view h1 hist)]
    /\ exists b r w1 w2,
         save_spec E (datetime_now E w).2
           (mkInsert session_uuid (lit "user") message (now E (clock_reads w)))
           b w1
         /\ history_spec E w1 session_uuid r w2
         /\ db w4 = db w2.
Proof.
  intros Hmsg.
  unfold main.submit_turn, main.chat_function, turn_messages,
    turn_history, world_user_saved.
  rewrite (strip_not_blank _ Hmsg). cbn [negb].
  rewrite !bind_run.
  set (w0 := (datetime_now E w).2).
  change (datetime_now E w) with (Ok (now E (clock_reads w)), w0).
  cbv beta iota.
  destruct (save_message_run session_uuid (lit "user") message
              (now E (clock_reads w)) E w0) as (b & w1 & Hsave & Hs).
  rewrite !bind_run, Hsave. cbn [snd].
  destruct (get_session_history_run session_uuid E w1) as (r & w2 & Hhist & Hh).
  rewrite !bind_run, Hhist. cbn [fst].
  destruct (turn_prompt_bind resume jd
              (fun system_prompt =>
                 cell <- main.new_turn message;;
                 ret (Yield (history ++ [cell], [])
                        (s <- chat_service.stream_message
                                (chat_service.format_message_history
                                   (main.or_empty_list r)) system_prompt;;
                         main.chat_loop session_uuid (history ++ [cell]) [] s)))
              E w2) as (w3 & Hprompt & Hp).
  rewrite Hprompt. clear Hprompt.
  rewrite bind_run. unfold main.new_turn at 1. cbv beta iota zeta.
  unfold ret at 1.
  rewrite iterate_first.
  assert (Hw0 : client w0 = client w /\ template_cache w0 = template_cache w
                /\ heap w0 = heap w /\ clock_reads w0 = S (clock_reads w)
                /\ api_calls w0 = api_calls w
                /\ trace w0 = trace w ++ [EvNow (now E (clock_reads w))])
    by (subst w0; by destruct w).
  destruct Hw0 as (Hc0 & Htc0 & Hh0 & Hcr0 & Hac0 & Htr0).
  destruct (db_frame_fields _ _ (save_frame _ _ _ _ _ Hs))
    as (Hc1 & Htc1 & Hh1 & Hcr1 & Hac1 & _).
  destruct (db_frame_fields _ _ (history_frame _ _ _ _ _ Hh))
    as (Hc2 & Htc2 & Hh2 & Hcr2 & Hac2 & _).
  destruct (prompt_frame_fields _ _ Hp) as (Hdb3 & Hc3 & Hh3 & Hcr3 & Hac3 & Htr3).
  pose proof (save_trace _ _ _ _ _ Hs) as Htr1.
  pose proof (history_trace _ _ _ _ _ Hh) as Htr2.
  simpl_world.
  rewrite Hh3, Hh2, Hh1, Hh0, Htc2, Htc1, Htc0.
  set (cell := fresh (dom (heap w))).
  set (hist := history ++ [cell]).
  set (h1 := <[cell := mkTurn (Some message) None]> (heap w)).
  set (messages := chat_service.format_message_history (main.or_empty_list r)).
  set (system_prompt := turn_prompt E (template_cache w) resume jd).
  set (w4 := set_trace _ _).
  assert (Hw4 : client w4 = client w /\ heap w4 = h1
                /\ clock_reads w4 = S (clock_reads w)
                /\ api_calls w4 = api_calls w
                /\ trace w4 = trace w ++
                     [EvNow (now E (clock_reads w));
                      EvSave (mkInsert session_uuid (lit "user") message
                                (now E (clock_reads w)));
                      EvHistory session_uuid; EvYield hist (view h1 hist)]
                /\ db w4 = db w2).
  { subst w4. simpl_world.
    rewrite Hc3, Hc2, Hc1, Hc0, Hcr3, Hcr2, Hcr1, Hcr0, Hac3, Hac2, Hac1, Hac0.
    rewrite Htr3, Htr2, Htr1, Htr0. by rewrite <- !app_assoc. }
  destruct Hw4 as (? & ? & ? & ? & ? & ?).
  exists w4. cbv zeta. split; [reflexivity|].
  repeat (split; [done|]). by exists b, r, w1, w2.
Qed.

Lemma submit_turn_run message history session_uuid resume jd E w :
  ~ blank message -> client_ready E w ->
  exists w',
    main.submit_turn message history session_uuid resume jd E w
    = (Ok (history ++ [fresh (dom (heap w))], []), w')
    /\ trace w' = trace w ++ turn_events message history session_uuid resume jd E w
    /\ heap w' =
       stream_heap (fresh (dom (heap w)))
         (<[fresh (dom (heap w)) := mkTurn (Some message) None]> (heap w)) []
         (stream_chunks
            (messages_stream E (api_calls w)
               (turn_messages message session_uuid E w)
               (turn_prompt E (template_cache w) resume jd)))
    /\ exists b1 r w1 w2 b2 w6,
         save_spec E (datetime_now E w).2
           (mkInsert session_uuid (lit "user") message (now E (clock_reads w)))
           b1 w1
         /\ history_spec E w1 session_uuid r w2
         /\ db w6 = db w2
         /\ save_spec E w6
              (mkInsert session_uuid (lit "assistant")
                 (List.concat
                    (stream_chunks
                       (messages_stream E (api_calls w)
                          (turn_messages message session_uuid E w)
                          (turn_prompt E (template_cache w) resume jd))))
                 (now E (S (clock_reads w))))
              b2 w'.
Proof.
  intros Hmsg Hready.
  destruct (submit_turn_start message history session_uuid resume jd E w Hmsg)
    as (w4 & Hstart & Hc4 & Hh4 & Hcr4 & Hac4 & Htr4
        & b1 & r & w1 & w2 & Hs1 & Hh1 & Hdb4).
  cbv zeta in *. rewrite Hstart. unfold turn_events.
  set (cell := fresh (dom (heap w))) in *.
  set (hist := history ++ [cell]) in *.
  set (h1 := <[cell := mkTurn (Some message) None]> (heap w)) in *.
  set (messages := turn_messages message session_uuid E w) in *.
  set (system_prompt := turn_prompt E (template_cache w) resume jd) in *.
  assert (Hready4 : client_ready E w4).
  { unfold client_ready in *. by rewrite Hc4. }
  assert (Hlast : last hist = Some cell) by apply last_snoc.
  erewrite drive_ext; [|apply (stream_message_run _ _ E w4 Hready4)].
  rewrite (drive_guarded_stream _ _ cell) by done.
  rewrite Hac4. cbn [app].
  set (answer := messages_stream E (api_calls w) messages system_prompt).
  rewrite <- surjective_pairing.
  unfold finish. rewrite bind_run.
  set (w5 := after_stream _ _ _ _ _).
  set (w6 := (datetime_now E w5).2).
  assert (Hw5 : clock_reads w5 = S (clock_reads w)
                /\ heap w5 = stream_heap cell h1 [] (stream_chunks answer)
                /\ trace w5 = trace w ++
                     [EvNow (now E (clock_reads w));
                      EvSave (mkInsert session_uuid (lit "user") message
                                (now E (clock_reads w)));
                      EvHistory session_uuid; EvYield hist (view h1 hist);
                      EvStream messages system_prompt]
                     ++ stream_events hist cell h1 [] (stream_chunks answer)).
  { subst w5. unfold after_stream, stream_opened. simpl_world.
    rewrite Hcr4, Hh4, Htr4. by rewrite <- !app_assoc. }
  destruct Hw5 as (Hcr5 & Hh5 & Htr5).
  change (datetime_now E w5) with (Ok (now E (clock_reads w5)), w6).
  cbv beta iota. rewrite Hcr5.
  destruct (save_message_run session_uuid (lit "assistant")
              (List.concat (stream_chunks answer))
              (now E (S (clock_reads w))) E w6) as (b' & w7 & Hsave' & Hs').
  rewrite bind_run, Hsave'. exists w7. split; [reflexivity|].
  destruct (db_frame_fields _ _ (save_frame _ _ _ _ _ Hs'))
    as (_ & _ & Hh7 & _).
  rewrite (save_trace _ _ _ _ _ Hs'), Hh7.
  assert (Hw6 : trace w6 = trace w5 ++ [EvNow (now E (S (clock_reads w)))]
                /\ heap w6 = heap w5).
  { subst w6. rewrite <- Hcr5. by destruct w5. }
  destruct Hw6 as [-> ->]. rewrite Htr5, Hh5.
  split; [by rewrite <- !app_assoc|]. split; [done|].
  exists b1, r, w1, w2, b', w6.
  split; [exact Hs1|]. split; [exact Hh1|]. split; [|exact Hs'].
  rewrite <- Hdb4. subst w6 w5. unfold after_stream, stream_opened.
  by destruct w4.
Qed.

(** ** Reading traces *)

Lemma chunks_of_app a b : chunks_of (a ++ b) = chunks_of a ++ chunks_of b.
Proof. induction a as [|[] a IH]; cbn; by rewrite ?IH. Qed.

Lemma saves_of_app a b : saves_of (a ++ b) = saves_of a ++ saves_of b.
Proof. induction a as [|[] a IH]; cbn; by rewrite ?IH. Qed.

Lemma yields_of_app a b : yields_of (a ++ b) = yields_of a ++ yields_of b.
Proof. induction a as [|[] a IH]; cbn; by rewrite ?IH. Qed.

Lemma chunks_of_stream_events history cell h full chunks :
  chunks_of (stream_events history cell h full chunks) = chunks.
Proof.
  revert h full. induction chunks as [|c rest IH]; intros h full; cbn; [done|].
  by rewrite IH.
Qed.

Lemma saves_of_stream_events history cell h full chunks :
  saves_of (stream_events history cell h full chunks) = [].
Proof.
  revert h full. induction chunks as [|c rest IH]; intros h full; cbn; [done|].
  by rewrite IH.
Qed.

Lemma length_yields_of_stream_events history cell h full chunks :
  length (yields_of (stream_events history cell h full chunks)) = length chunks.
Proof.
  revert h full. induction chunks as [|c rest IH]; intros h full; cbn; [done|].
  by rewrite IH.
Qed.

(** ** Snapshots *)

Lemma view_with_reply history cell h message old reply :
  cell ∉ history ->
  h !! cell = Some (mkTurn (Some message) old) ->
  view (with_reply cell reply h) (history ++ [cell])
  = snapshot (view h history) message reply.
Proof.
  intros Hcell Hh. unfold view, snapshot, with_reply.
  rewrite fmap_app. cbn. rewrite lookup_alter_eq, Hh. cbn. f_equal.
  apply list_fmap_ext. intros i l Hl.
  apply lookup_alter_ne. intros ->. apply Hcell.
  by eapply list_elem_of_lookup_2.
Qed.

Lemma view_with_reply_earlier history cell h reply :
  cell ∉ history -> view (with_reply cell reply h) history = view h history.
Proof.
  intros Hcell. unfold view, with_reply. apply list_fmap_ext. intros i l Hl.
  apply lookup_alter_ne. intros ->. apply Hcell.
  by eapply list_elem_of_lookup_2.
Qed.

Lemma stream_events_snapshots history cell h message old full chunks :
  cell ∉ history ->
  h !! cell = Some (mkTurn (Some message) old) ->
  stream_events (history ++ [cell]) cell h full chunks
  = snapshots (history ++ [cell]) (view h history) message full chunks.
Proof.
  intros Hcell. revert h old full.
  induction chunks as [|c rest IH]; intros h old full Hh; cbn; [done|].
  erewrite view_with_reply by done. do 2 f_equal.
  erewrite IH.
  - by rewrite view_with_reply_earlier.
  - unfold with_reply. by rewrite lookup_alter_eq, Hh.
Qed.

Lemma fresh_cell_not_in h history :
  valid_history h history -> fresh (dom h) ∉ history.
Proof.
  intros Hv Hin. unfold valid_history in Hv. rewrite Forall_forall in Hv.
  apply Hv in Hin. apply elem_of_dom in Hin. by apply is_fresh in Hin.
Qed.

Lemma view_insert_fresh h history t :
  valid_history h history ->
  view (<[fresh (dom h) := t]> h) history = view h history.
Proof.
  intros Hv. unfold view. apply list_fmap_ext. intros i l Hl.
  apply lookup_insert_ne. intros <-.
  apply (fresh_cell_not_in h history Hv). by eapply list_elem_of_lookup_2.
Qed.

Lemma view_first_yield h history t :
  valid_history h history ->
  view (<[fresh (dom h) := t]> h) (history ++ [fresh (dom h)])
  = view h history ++ [Some t].
Proof.
  intros Hv. unfold view at 1. rewrite fmap_app. cbn.
  rewrite lookup_insert_eq. f_equal. apply (view_insert_fresh _ _ _ Hv).
Qed.

Lemma contexts_of_app a b : contexts_of (a ++ b) = contexts_of a ++ contexts_of b.
Proof. induction a as [|[] a IH]; cbn; by rewrite ?IH. Qed.

Lemma prompts_of_app a b : prompts_of (a ++ b) = prompts_of a ++ prompts_of b.
Proof. induction a as [|[] a IH]; cbn; by rewrite ?IH. Qed.

Lemma contexts_of_stream_events history cell h full chunks :
  contexts_of (stream_events history cell h full chunks) = [].
Proof.
  revert h full. induction chunks as [|c rest IH]; intros h full; cbn; [done|].
  by rewrite IH.
Qed.

Lemma prompts_of_stream_events history cell h full chunks :
  prompts_of (stream_events history cell h full chunks) = [].
Proof.
  revert h full. induction chunks as [|c rest IH]; intros h full; cbn; [done|].
  by rewrite IH.
Qed.

(** ** Appends and ordered reads *)

#[global] Instance row_le_total : Total row_le.
Proof. intros a b. unfold row_le. lia. Qed.

#[global] Instance row_le_trans : Transitive row_le.
Proof. intros a b c. unfold row_le. lia. Qed.

#[global] Instance row_le_refl : Reflexive row_le.
Proof. intros a. unfold row_le. lia. Qed.

Lemma row_le_antisym a b :
  row_le a b -> row_le b a ->
  row_timestamp a = row_timestamp b /\ row_created_at a = row_created_at b.
Proof. unfold row_le. lia. Qed.

Lemma session_rows_app s a b :
  session_rows s (a ++ b) = session_rows s a ++ session_rows s b.
Proof. apply filter_app. Qed.

Lemma run_appends_rows s ps E w :
  appends_succeeded s ps (run_appends ps E w).1 ->
  exists rows,
    session_rows s (chats (db (run_appends ps E w).2))
    = session_rows s (chats (db w)) ++ rows
    /\ params_of <$> rows = filter (fun p => ins_session_uuid p = s) ps.
Proof.
  revert w. induction ps as [|p rest IH]; intros w Hok.
  - exists []. cbn. by rewrite app_nil_r.
  - cbn [run_appends] in *.
    destruct (save_message_run (ins_session_uuid p) (ins_message_type p)
                (ins_contents p) (ins_timestamp p) E w)
      as (b & w1 & Hrun & Hs).
    rewrite Hrun in *.
    destruct (run_appends rest E w1) as [bs w2] eqn:Hrest.
    cbn [fst snd] in *.
    apply Forall2_cons_1 in Hok as [Hb Hok].
    specialize (IH w1). rewrite Hrest in IH. cbn [fst snd] in IH.
    destruct (IH Hok) as (rows & Hrows & Hparams).
    rewrite Hrows, filter_cons.
    destruct p as [ps_ pt pc pts]. cbn [ins_session_uuid] in *.
    case_decide as Hsess.
    + destruct (save_row _ _ _ _ _ Hs (Hb Hsess)) as (_ & id & created & ->).
      exists (row_of (mkInsert ps_ pt pc pts) id created :: rows).
      rewrite session_rows_app. unfold session_rows at 2.
      rewrite filter_cons, filter_nil. cbn. rewrite decide_True by done.
      rewrite <- app_assoc. cbn. split; [done|]. by rewrite Hparams.
    + exists rows. split; [|done]. f_equal.
      destruct (save_chats _ _ _ _ _ Hs) as [-> | (id & created & ->)]; [done|].
      rewrite session_rows_app. unfold session_rows at 2.
      rewrite filter_cons, filter_nil. cbn. rewrite decide_False by done.
      by rewrite app_nil_r.
Qed.

Lemma select_history_sorted s rows : Sorted row_le (select_history s rows).
Proof. unfold select_history. apply Sorted_merge_sort; apply _. Qed.

Lemma select_history_perm s rows : select_history s rows ≡ₚ session_rows s rows.
Proof. unfold select_history. apply merge_sort_Permutation. Qed.

Lemma streaming_stream_events history cell h full chunks :
  Forall streaming (stream_events history cell h full chunks).
Proof.
  revert h full. induction chunks as [|c rest IH]; intros h full; cbn.
  - constructor.
  - repeat constructor. apply IH.
Qed.

(** When substitution fails, [render_prompt] returns the hardcoded prompt,
    which embeds resume and jd as they are. *)
Lemma render_failure_embeds_resume_and_jd template resume jd e E w :
  pystache_render E template (render_context E resume jd) = Raised e ->
  exists w',
    prompt_loader.render_prompt template resume jd None E w
    = (Ok (prompt_loader.fallback_prompt resume jd), w')
    /\ contains (prompt_loader.fallback_prompt resume jd) resume
    /\ contains (prompt_loader.fallback_prompt resume jd) jd.
Proof.
  intros Hrender.
  destruct (wp_elim _ E w _
    (wp_render_prompt template resume jd E w
       (fun r w' => r = Ok (rendered E template resume jd))
       (fun out => eq_refl))) as (r & w' & Hrun & ->).
  exists w'. unfold rendered in Hrun. rewrite Hrender in Hrun.
  split; [exact Hrun|]. unfold prompt_loader.fallback_prompt, contains. split.
  - exists (lit "You are a helpful career advisor assistant reviewing a resume against a job description."
            ++ prompt_loader.nl ++ prompt_loader.nl ++ lit "RESUME:"
            ++ prompt_loader.nl),
      (prompt_loader.nl ++ prompt_loader.nl ++ lit "JOB DESCRIPTION:"
       ++ prompt_loader.nl ++ jd ++ prompt_loader.nl ++ prompt_loader.nl
       ++ lit "Please provide thoughtful, specific feedback to help the hiring manager evaluate fit for this position.").
    by rewrite <- !app_assoc.
  - exists (lit "You are a helpful career advisor assistant reviewing a resume against a job description."
            ++ prompt_loader.nl ++ prompt_loader.nl ++ lit "RESUME:"
            ++ prompt_loader.nl ++ resume ++ prompt_loader.nl
            ++ prompt_loader.nl ++ lit "JOB DESCRIPTION:" ++ prompt_loader.nl),
      (prompt_loader.nl ++ prompt_loader.nl
       ++ lit "Please provide thoughtful, specific feedback to help the hiring manager evaluate fit for this position.").
    by rewrite <- !app_assoc.
Qed.

(** When the template cannot be loaded, [chat_function] renders the empty
    template, and the prompt of the turn is whatever the renderer makes of
    the empty template. *)
Lemma missing_template_renders_empty resume jd e E w :
  template_cache w = None ->
  read_text E prompt_loader.default_template_path = Raised e ->
  turn_prompt E (template_cache w) resume jd = rendered E [] resume jd.
Proof. intros Hc Hread. unfold turn_prompt, loaded_template. by rewrite Hc, Hread. Qed.

Lemma fault_free_sub E a b a' b' :
  fault_free E a b -> (a <= a')%nat -> (b' <= b)%nat -> fault_free E a' b'.
Proof. intros H ? ? n ?. apply H. lia. Qed.

(** When no primitive of the store fails during the turn, the two calls of
    [save_message] commit: the table grows by the user row and the
    assistant row, in this order, and by nothing else. *)
Lemma turn_commits_both_messages message history session_uuid resume jd E w :
  ~ blank message -> client_ready E w ->
  exists w',
    main.submit_turn message history session_uuid resume jd E w
    = (Ok (history ++ [fresh (dom (heap w))], []), w')
    /\ (pool_configured E (db w)
        /\ fault_free E (db_ops (db w)) (db_ops (db w')) ->
        exists id0 created0 id1 created1 reply,
          chats (db w') =
          chats (db w)
          ++ [mkRow id0 (now E (clock_reads w)) session_uuid (lit "user")
                message created0;
              mkRow id1 (now E (S (clock_reads w))) session_uuid
                (lit "assistant") reply created1]).
Proof.
  intros Hmsg Hready.
  destruct (submit_turn_run message history session_uuid resume jd E w
              Hmsg Hready)
    as (w' & Hrun & _ & _ & b1 & r & w1 & w2 & b2 & w6 & Hs1 & Hh & Hdb & Hs2).
  exists w'. split; [exact Hrun|]. intros [Hcfg Hff].
  assert (Hdb0 : db (datetime_now E w).2 = db w) by (by destruct w).
  pose proof (save_ops _ _ _ _ _ Hs1) as Hops1.
  pose proof (history_ops _ _ _ _ _ Hh) as Hops2.
  pose proof (save_ops _ _ _ _ _ Hs2) as Hops3.
  rewrite Hdb0 in Hops1. rewrite Hdb in Hops3.
  assert (Hb1 : b1 = true).
  { apply (save_true _ _ _ _ _ Hs1). rewrite Hdb0. split; [done|].
    eapply fault_free_sub; [exact Hff|lia|lia]. }
  destruct (save_row _ _ _ _ _ Hs1 Hb1) as (Hpool1 & id0 & c0 & Hch1).
  pose proof (history_pool _ _ _ _ _ Hh Hpool1) as Hpool2.
  pose proof (history_chats _ _ _ _ _ Hh) as Hch2.
  assert (Hb2 : b2 = true).
  { apply (save_true _ _ _ _ _ Hs2). rewrite Hdb. split; [by left|].
    eapply fault_free_sub; [exact Hff|lia|lia]. }
  destruct (save_row _ _ _ _ _ Hs2 Hb2) as (_ & id1 & c1 & Hch3).
  rewrite Hdb, Hch2, Hch1, Hdb0 in Hch3.
  eexists id0, c0, id1, c1, _. rewrite Hch3, <- app_assoc. reflexivity.
Qed.

(** A failure after the commit: [cursor.close()] raises once the row is
    committed; [save_message] returns False although the row is stored. *)
Example save_false_after_commit :
  let E := mkEnv (now sample.env)
             (fun n => if decide (n = 4%nat) then Some sample.store_error
                       else None)
             (store_default sample.env) (getenv sample.env)
             (read_text sample.env) (pystache_render sample.env)
             (messages_stream sample.env) (uuid4 sample.env) in
  let run := database.save_message (lit "s") (lit "user") (lit "Hello")
               (Some 7) E sample.world in
  run.1 = Ok false
  /\ chats (db run.2) = [mkRow 2 7 (lit "s") (lit "user") (lit "Hello") 5002].
Proof. split; vm_compute; reflexivity. Qed.

(** With the sample renderer a double-brace tag is HTML-escaped, a
    triple-brace tag is not. *)
Example escaped_and_raw_tags :
  mustache.render (lit "{{resume}}|{{{resume}}}")
    (mkContext (lit "C<D") (lit "J1") (lit "a@b.c"))
  = Ok (lit "C&lt;D|C<D").
Proof. vm_compute. reflexivity. Qed.

(** Without a client and without an API key the turn stops after its first
    yield: [initialize_client] raises outside the [try] of
    [stream_message], and no assistant message is saved. *)
Lemma turn_without_client_raises message history session_uuid resume jd E w :
  ~ blank message -> ~ client_ready E w ->
  exists w',
    main.submit_turn message history session_uuid resume jd E w
    = (Raised (mkExn ValueError
                 (lit "ANTHROPIC_API_KEY environment variable not set")), w')
    /\ saves_of (trace w') =
       saves_of (trace w)
       ++ [mkInsert session_uuid (lit "user") message (now E (clock_reads w))].
Proof.
  intros Hmsg Hready.
  destruct (submit_turn_start message history session_uuid resume jd E w Hmsg)
    as (w4 & Hstart & Hc4 & _ & _ & _ & Htr4 & _).
  cbv zeta in *. exists w4. split.
  - rewrite Hstart. apply drive_raised, stream_message_not_ready.
    unfold client_ready in *. by rewrite Hc4.
  - rewrite Htr4, saves_of_app. reflexivity.
Qed.

(** Every yield hands out the same transcript object: once the turn is
    over, the transcript read through it is the final one. *)
Lemma yielded_transcript_is_shared message history session_uuid resume jd E w :
  ~ blank message -> client_ready E w -> valid_history (heap w) history ->
  let chunks :=
    stream_chunks
      (messages_stream E (api_calls w) (turn_messages message session_uuid E w)
         (turn_prompt E (template_cache w) resume jd)) in
  chunks <> [] ->
  exists w',
    main.submit_turn message history session_uuid resume jd E w
    = (Ok (history ++ [fresh (dom (heap w))], []), w')
    /\ view (heap w') (history ++ [fresh (dom (heap w))])
       = snapshot (view (heap w) history) message (List.concat chunks).
Proof.
  intros Hmsg Hready Hvalid chunks Hne.
  destruct (submit_turn_run message history session_uuid resume jd E w
              Hmsg Hready) as (w' & Hrun & _ & Hheap & _).
  exists w'. split; [exact Hrun|]. rewrite Hheap. fold chunks.
  pose proof (fresh_cell_not_in _ _ Hvalid) as Hcell.
  set (cell := fresh (dom (heap w))) in *.
  assert (Hgen : forall cs h old full, cs <> [] ->
    h !! cell = Some (mkTurn (Some message) old) ->
    view (stream_heap cell h full cs) (history ++ [cell])
    = snapshot (view h history) message (full ++ List.concat cs)).
  { induction cs as [|c rest IH]; intros h old full Hcs Hh; [done|].
    cbn [stream_heap List.concat]. destruct rest as [|c' rest'].
    - cbn [stream_heap List.concat]. rewrite app_nil_r.
      by eapply view_with_reply.
    - erewrite IH; [| done |].
      + rewrite view_with_reply_earlier by done. by rewrite <- app_assoc.
      + unfold with_reply. by rewrite lookup_alter_eq, Hh. }
  erewrite Hgen; [|done|apply lookup_insert_eq].
  by rewrite (view_insert_fresh _ _ _ Hvalid).
Qed.

Lemma hello_not_blank : ~ blank (lit "Hello").
Proof.
  intros H. inversion H as [|c s Hc _]. vm_compute in Hc. discriminate.
Defined.

(** * The claims *)

(** C1: for a message that is not blank, a turn calls [save_message] once
    for the user message, before the history is read; it then yields one or
    more transcripts while the reply is streamed; once the stream has ended
    it reads the clock again and calls [save_message] once more, for the
    assistant, with the concatenation of all chunks received. *)
Theorem turn_saves_user_then_assistant message history session_uuid resume jd
    E w :
  ~ blank message -> client_ready E w ->
  exists w' streamed,
    let t0 := now E (clock_reads w) in
    let t1 := now E (S (clock_reads w)) in
    let reply := List.concat (chunks_of streamed) in
    main.submit_turn message history session_uuid resume jd E w
    = (Ok (history ++ [fresh (dom (heap w))], []), w')
    /\ trace w' =
       trace w
       ++ [EvNow t0;
           EvSave (mkInsert session_uuid (lit "user") message t0);
           EvHistory session_uuid]
       ++ streamed
       ++ [EvNow t1;
           EvSave (mkInsert session_uuid (lit "assistant") reply t1)]
    /\ Forall streaming streamed
    /\ (1 <= length (yields_of streamed))%nat
    /\ chunks_of streamed =
       stream_chunks
         (messages_stream E (api_calls w)
            (turn_messages message session_uuid E w)
            (turn_prompt E (template_cache w) resume jd)).
Proof.
  intros Hmsg Hready.
  destruct (submit_turn_run message history session_uuid resume jd E w
              Hmsg Hready) as (w' & Hrun & Htrace & _).
  unfold turn_events in Htrace.
  set (cell := fresh (dom (heap w))) in *.
  set (hist := history ++ [cell]) in *.
  set (h1 := <[cell := _]> (heap w)) in *.
  set (messages := turn_messages message session_uuid E w) in *.
  set (system_prompt := turn_prompt E (template_cache w) resume jd) in *.
  set (chunks := stream_chunks _) in *.
  exists w',
    ([EvYield hist (view h1 hist); EvStream messages system_prompt]
     ++ stream_events hist cell h1 [] chunks).
  cbv zeta.
  assert (Hchunks :
    chunks_of ([EvYield hist (view h1 hist); EvStream messages system_prompt]
               ++ stream_events hist cell h1 [] chunks) = chunks).
  { rewrite chunks_of_app. cbn. apply chunks_of_stream_events. }
  rewrite Hchunks. split; [done|]. split; [by rewrite Htrace|].
  split; [|split; [|done]].
  - repeat constructor. apply streaming_stream_events.
  - cbn. lia.
Qed.

Lemma turn_saves_user_then_assistant_witness :
  ~ blank (lit "Hello") /\ client_ready sample.env sample.world
  /\ exists w' streamed,
       main.submit_turn (lit "Hello") [] (lit "s") (lit "R1") (lit "J1")
         sample.env sample.world = (Ok ([0%nat], []), w')
       /\ saves_of (trace w') =
          [mkInsert (lit "s") (lit "user") (lit "Hello") 1000;
           mkInsert (lit "s") (lit "assistant")
             (List.concat (chunks_of streamed)) 1001].
Proof.
  assert (Hready : client_ready sample.env sample.world) by (left; reflexivity).
  split; [exact hello_not_blank|]. split; [exact Hready|].
  destruct (turn_saves_user_then_assistant (lit "Hello") [] (lit "s")
              (lit "R1") (lit "J1") sample.env sample.world
              hello_not_blank Hready)
    as (w' & streamed & Hrun & Htrace & Hstreaming & _ & _).
  exists w', streamed. split; [exact Hrun|].
  assert (Hs : saves_of streamed = []).
  { clear -Hstreaming. induction Hstreaming as [|[] ? ? ? IH]; cbn; done. }
  rewrite Htrace, !saves_of_app, Hs. reflexivity.
Defined.

(** C2: when the streaming call raises after having delivered some chunks,
    [stream_message] yields those chunks, then exactly one more chunk that
    describes the error, and stops; the assistant message that the turn
    saves is the text already delivered followed by the error text. *)
Theorem stream_error_becomes_final_chunk message history session_uuid resume jd
    chunks e E w :
  ~ blank message -> client_ready E w ->
  messages_stream E (api_calls w) (turn_messages message session_uuid E w)
    (turn_prompt E (template_cache w) resume jd) = (chunks, Some e) ->
  let error_msg := lit "Error during streaming: " ++ exn_text e in
  (exists w1,
     (s <- chat_service.stream_message
             (turn_messages message session_uuid E w)
             (turn_prompt E (template_cache w) resume jd);;
      chat_service.drain s) E w
     = (Ok (chunks ++ [error_msg], error_msg), w1))
  /\ exists w' before,
       main.submit_turn message history session_uuid resume jd E w
       = (Ok (history ++ [fresh (dom (heap w))], []), w')
       /\ trace w' =
          trace w ++ before
          ++ [EvNow (now E (S (clock_reads w)));
              EvSave (mkInsert session_uuid (lit "assistant")
                        (List.concat chunks ++ error_msg)
                        (now E (S (clock_reads w))))]
       /\ chunks_of before = chunks ++ [error_msg]
       /\ saves_of before
          = [mkInsert session_uuid (lit "user") message (now E (clock_reads w))].
Proof.
  intros Hmsg Hready Hanswer error_msg. split.
  - rewrite bind_run, (stream_message_run _ _ E w Hready), Hanswer. cbn [fst snd].
    destruct (drain_guarded_stream chunks (Some e) []
                E (stream_opened (turn_messages message session_uuid E w)
                     (turn_prompt E (template_cache w) resume jd) w))
      as (w1 & Hdrain).
    rewrite bind_run in Hdrain. exists w1. exact Hdrain.
  - destruct (submit_turn_run message history session_uuid resume jd E w
                Hmsg Hready) as (w' & Hrun & Htrace & _).
    unfold turn_events in Htrace. rewrite Hanswer in Htrace.
    unfold stream_chunks in Htrace. cbn [fst snd] in Htrace.
    eexists w', _. split; [exact Hrun|].
    split; [|split].
    + rewrite Htrace. rewrite concat_app. cbn [List.concat].
      rewrite app_nil_r. rewrite (app_assoc _ _ [EvNow _; _]). reflexivity.
    + rewrite chunks_of_app. cbn. by rewrite chunks_of_stream_events.
    + rewrite saves_of_app. cbn. by rewrite saves_of_stream_events.
Qed.

Lemma stream_error_becomes_final_chunk_witness :
  ~ blank (lit "Hello")
  /\ client_ready sample.env_stream_breaks sample.world
  /\ exists w',
       main.submit_turn (lit "Hello") [] (lit "s") (lit "R1") (lit "J1")
         sample.env_stream_breaks sample.world = (Ok ([0%nat], []), w')
       /\ last (saves_of (trace w')) =
          Some (mkInsert (lit "s") (lit "assistant")
                  (lit "Hi" ++ lit "Error during streaming: Connection error.")
                  1001).
Proof.
  assert (Hready : client_ready sample.env_stream_breaks sample.world)
    by (left; reflexivity).
  split; [exact hello_not_blank|]. split; [exact Hready|].
  destruct (stream_error_becomes_final_chunk (lit "Hello") [] (lit "s")
              (lit "R1") (lit "J1") [lit "Hi"] sample.transport_error
              sample.env_stream_breaks sample.world
              hello_not_blank Hready eq_refl)
    as (_ & w' & before & Hrun & Htrace & _ & _).
  exists w'. split; [exact Hrun|].
  rewrite Htrace, !saves_of_app, !last_app. reflexivity.
Defined.

(** C3, at a failing input: the template file is missing, the resume is
    "R1" and the job description "J1"; the system prompt of the streaming
    call is the empty string, which contains neither. *)
Theorem missing_template_prompt_is_empty :
  let run :=
    main.submit_turn (lit "Hello") [] (lit "s") (lit "R1") (lit "J1")
      sample.env_no_template sample.world in
  run.1 = Ok ([0%nat], [])
  /\ prompts_of (trace run.2) = [[]]
  /\ containsb [] (lit "R1") = false
  /\ containsb [] (lit "J1") = false
  /\ ~ contains [] (lit "R1")
  /\ ~ contains [] (lit "J1").
Proof.
  cbv zeta. repeat split; try (vm_compute; reflexivity).
  - intros (pre & post & H). destruct pre; discriminate.
  - intros (pre & post & H). destruct pre; discriminate.
Qed.

(** C4: submitting a message that is empty or made of whitespace only is a
    no-op: the generator returns the history it was given without yielding,
    and the world (store, transcript objects, trace, standard output) is
    left exactly as it was; nothing is raised. *)
Theorem blank_message_is_noop message history session_uuid resume jd E w :
  blank message ->
  main.chat_function message history session_uuid resume jd E w
  = (Ok (Return (history, [])), w)
  /\ main.submit_turn message history session_uuid resume jd E w
     = (Ok (history, []), w).
Proof.
  intros Hblank. apply strip_blank in Hblank.
  unfold main.submit_turn. rewrite bind_run.
  unfold main.chat_function. rewrite Hblank. done.
Qed.

Lemma blank_message_is_noop_witness :
  blank (lit "  ")
  /\ main.submit_turn (lit "  ") [] (lit "s") (lit "R1") (lit "J1")
       sample.env sample.world
     = (Ok ([], []), sample.world).
Proof.
  assert (H : blank (lit "  ")) by (repeat constructor).
  split; [exact H|].
  apply (blank_message_is_noop (lit "  ") [] (lit "s") (lit "R1") (lit "J1")
           sample.env sample.world H).
Defined.

(** C5: whatever rows the history holds, no message handed to the model
    client has the role system: [format_message_history] keeps the rows of
    type user and assistant only, and the turn passes its result on. *)
Theorem system_rows_never_replayed db_messages message session_uuid E w :
  Forall (fun m => role m <> lit "system"
                   /\ (role m = lit "user" \/ role m = lit "assistant"))
    (chat_service.format_message_history db_messages)
  /\ Forall (fun m => role m <> lit "system")
       (turn_messages message session_uuid E w).
Proof.
  assert (H : forall rows,
    Forall (fun m => role m <> lit "system"
                     /\ (role m = lit "user" \/ role m = lit "assistant"))
      (chat_service.format_message_history rows)).
  { intros rows. apply Forall_forall. intros m Hm.
    apply format_message_history_roles in Hm.
    destruct system_not_replayed as [Hu Ha].
    split; [|done]. destruct Hm as [-> | ->]; congruence. }
  split; [apply H|].
  unfold turn_messages. eapply Forall_impl; [apply H|]. by intros m [? _].
Qed.

(** C6: after a sequence of appends in which every append to a session
    returned True, on a store that held no row of that session, reading
    the history of the session returns, unless the read itself fails,
    exactly the appended messages, one row for each, sorted by
    (timestamp, created_at) ascending; any two of them are comparable
    in that order. *)
Theorem history_after_appends session_uuid ps E w :
  session_rows session_uuid (chats (db w)) = [] ->
  appends_succeeded session_uuid ps (run_appends ps E w).1 ->
  let wN := (run_appends ps E w).2 in
  let appended := filter (fun p => ins_session_uuid p = session_uuid) ps in
  exists r w',
    database.get_session_history session_uuid E wN = (Ok r, w')
    /\ (pool_configured E (db wN)
        /\ fault_free E (db_ops (db wN)) (db_ops (db w')) ->
        is_Some r)
    /\ forall messages, r = Some messages ->
         length messages = length appended
         /\ params_of <$> messages ≡ₚ appended
         /\ Sorted row_le messages
         /\ StronglySorted row_le messages
         /\ (forall a b, a ∈ messages -> b ∈ messages ->
             row_le a b \/ row_le b a)
         /\ (forall a b, a ∈ messages -> b ∈ messages ->
             row_le a b -> row_le b a ->
             row_timestamp a = row_timestamp b
             /\ row_created_at a = row_created_at b).
Proof.
  intros Hempty Hok wN appended.
  destruct (get_session_history_run session_uuid E wN) as (r & w' & Hrun & Hh).
  exists r, w'. split; [exact Hrun|]. split.
  - intros Hfine. rewrite (history_ok _ _ _ _ _ Hh Hfine). by eexists.
  - intros messages ->.
    rewrite (history_some _ _ _ _ _ Hh _ eq_refl).
    destruct (run_appends_rows session_uuid ps E w Hok)
      as (rows & Hrows & Hparams).
    fold wN in Hrows. rewrite Hempty in Hrows. cbn [app] in Hrows.
    pose proof (select_history_perm session_uuid (chats (db wN))) as Hperm.
    rewrite Hrows in Hperm.
    assert (Hp : params_of <$> select_history session_uuid (chats (db wN))
                 ≡ₚ appended).
    { rewrite Hperm. by rewrite Hparams. }
    split; [|split; [exact Hp|split; [|split; [|split]]]].
    + rewrite <- (length_fmap params_of). by rewrite Hp.
    + apply select_history_sorted.
    + apply Sorted_StronglySorted; [apply _|apply select_history_sorted].
    + intros a b _ _. apply row_le_total.
    + intros a b _ _. apply row_le_antisym.
Qed.

Lemma history_after_appends_witness :
  let ps := [mkInsert (lit "s") (lit "user") (lit "Hello") 20;
             mkInsert (lit "t") (lit "user") (lit "other") 15;
             mkInsert (lit "s") (lit "assistant") (lit "Hi") 10] in
  session_rows (lit "s") (chats (db sample.world)) = []
  /\ appends_succeeded (lit "s") ps (run_appends ps sample.env sample.world).1
  /\ exists r w',
       database.get_session_history (lit "s") sample.env
         (run_appends ps sample.env sample.world).2 = (Ok r, w')
       /\ forall messages, r = Some messages ->
            length messages = 2%nat /\ Sorted row_le messages.
Proof.
  intros ps.
  assert (H0 : session_rows (lit "s") (chats (db sample.world)) = [])
    by reflexivity.
  assert (H1 : appends_succeeded (lit "s") ps
                 (run_appends ps sample.env sample.world).1).
  { vm_compute. repeat constructor. }
  split; [exact H0|]. split; [exact H1|].
  destruct (history_after_appends (lit "s") ps sample.env sample.world H0 H1)
    as (r & w' & Hrun & _ & Hmsgs).
  exists r, w'. split; [exact Hrun|].
  intros messages Hr. destruct (Hmsgs messages Hr) as (Hlen & _ & Hsorted & _).
  split; [exact Hlen | exact Hsorted].
Defined.

(** C7: every chunk that [stream_message] yields is followed at once by
    exactly one yield of the transcript, in which the earlier turns read as
    they did before the turn and the last turn holds the user message and
    the concatenation of the chunks received so far. *)
Theorem every_chunk_yields_a_snapshot message history session_uuid resume jd
    E w :
  ~ blank message -> client_ready E w -> valid_history (heap w) history ->
  exists w',
    let cell := fresh (dom (heap w)) in
    let hist := history ++ [cell] in
    let earlier := view (heap w) history in
    let t0 := now E (clock_reads w) in
    let t1 := now E (S (clock_reads w)) in
    let messages := turn_messages message session_uuid E w in
    let system_prompt := turn_prompt E (template_cache w) resume jd in
    let chunks :=
      stream_chunks (messages_stream E (api_calls w) messages system_prompt) in
    main.submit_turn message history session_uuid resume jd E w
    = (Ok (hist, []), w')
    /\ trace w' =
       trace w
       ++ [EvNow t0;
           EvSave (mkInsert session_uuid (lit "user") message t0);
           EvHistory session_uuid;
           EvYield hist (earlier ++ [Some (mkTurn (Some message) None)]);
           EvStream messages system_prompt]
       ++ snapshots hist earlier message [] chunks
       ++ [EvNow t1;
           EvSave (mkInsert session_uuid (lit "assistant")
                     (List.concat chunks) t1)].
Proof.
  intros Hmsg Hready Hvalid.
  destruct (submit_turn_run message history session_uuid resume jd E w
              Hmsg Hready) as (w' & Hrun & Htrace & _).
  exists w'. cbv zeta. split; [exact Hrun|].
  rewrite Htrace. unfold turn_events.
  pose proof (fresh_cell_not_in _ _ Hvalid) as Hcell.
  erewrite stream_events_snapshots;
    [|exact Hcell|apply lookup_insert_eq].
  rewrite (view_insert_fresh _ _ _ Hvalid).
  by rewrite (view_first_yield _ _ _ Hvalid).
Qed.

Lemma every_chunk_yields_a_snapshot_witness :
  let earlier := mkTurn (Some (lit "Hi")) (Some (lit "Hello!")) in
  let w := set_heap {[ 0%nat := earlier ]} sample.world in
  ~ blank (lit "Hello") /\ client_ready sample.env w
  /\ valid_history (heap w) [0%nat]
  /\ exists w',
       main.submit_turn (lit "Hello") [0%nat] (lit "s") (lit "R1") (lit "J1")
         sample.env w = (Ok ([0%nat; 1%nat], []), w')
       /\ yields_of (trace w') =
          [[Some earlier; Some (mkTurn (Some (lit "Hello")) None)];
           [Some earlier; Some (mkTurn (Some (lit "Hello")) (Some (lit "Hi")))];
           [Some earlier;
            Some (mkTurn (Some (lit "Hello")) (Some (lit "Hi there")))]].
Proof.
  intros earlier w.
  assert (Hready : client_ready sample.env w) by (left; reflexivity).
  assert (Hvalid : valid_history (heap w) [0%nat]).
  { repeat constructor. by exists earlier. }
  split; [exact hello_not_blank|]. split; [exact Hready|].
  split; [exact Hvalid|].
  destruct (every_chunk_yields_a_snapshot (lit "Hello") [0%nat] (lit "s")
              (lit "R1") (lit "J1") sample.env w
              hello_not_blank Hready Hvalid) as (w' & Hrun & Htrace).
  exists w'. split; [exact Hrun|]. rewrite Htrace. reflexivity.
Defined.

(** C8: [save_message] never raises into its caller, whatever its
    arguments and whichever primitive of the store fails.  It returns True
    exactly when the pool was available and no primitive failed, and then
    the row is committed; it returns False on any failure. *)
Theorem save_message_never_raises session_uuid message_type contents timestamp
    E w :
  exists b w',
    database.save_message session_uuid message_type contents timestamp E w
    = (Ok b, w')
    /\ (b = true <->
        pool_configured E (db w)
        /\ fault_free E (db_ops (db w)) (db_ops (db w')))
    /\ (b = true ->
        exists id created_at t,
          chats (db w') =
          chats (db w)
          ++ [mkRow id t session_uuid message_type contents created_at]).
Proof.
  destruct timestamp as [t|].
  - destruct (save_message_run session_uuid message_type contents t E w)
      as (b & w' & Hrun & Hs).
    exists b, w'. split; [done|]. split; [apply Hs|].
    intros Hb. destruct (save_row _ _ _ _ _ Hs Hb) as (_ & id & created & ->).
    by exists id, created, t.
  - set (w0 := (datetime_now E w).2).
    destruct (save_message_run session_uuid message_type contents
                (now E (clock_reads w)) E w0) as (b & w' & Hrun & Hs).
    exists b, w'. split; [exact Hrun|].
    assert (Hdb : db w0 = db w) by (subst w0; by destruct w).
    rewrite <- Hdb. split; [apply Hs|].
    intros Hb. destruct (save_row _ _ _ _ _ Hs Hb) as (_ & id & created & ->).
    by exists id, created, (now E (clock_reads w)).
Qed.

(** C9: when the read of the session history fails, the turn goes on with
    an empty list of messages for the model: the failure result is turned
    into the empty list, exactly as a history that was read and is empty. *)
Theorem failed_history_read_gives_empty_context message history session_uuid
    resume jd r E w :
  ~ blank message -> client_ready E w ->
  (database.get_session_history session_uuid E
     (world_user_saved message session_uuid E w)).1 = Ok r ->
  r = None \/ r = Some [] ->
  exists w' streamed,
    let t0 := now E (clock_reads w) in
    let t1 := now E (S (clock_reads w)) in
    main.submit_turn message history session_uuid resume jd E w
    = (Ok (history ++ [fresh (dom (heap w))], []), w')
    /\ contexts_of (trace w') = contexts_of (trace w) ++ [[]]
    /\ trace w' =
       trace w
       ++ [EvNow t0;
           EvSave (mkInsert session_uuid (lit "user") message t0);
           EvHistory session_uuid]
       ++ streamed
       ++ [EvNow t1;
           EvSave (mkInsert session_uuid (lit "assistant")
                     (List.concat (chunks_of streamed)) t1)].
Proof.
  intros Hmsg Hready Hread Hr.
  destruct (submit_turn_run message history session_uuid resume jd E w
              Hmsg Hready) as (w' & Hrun & Htrace & _).
  assert (Hctx : turn_messages message session_uuid E w = []).
  { unfold turn_messages, turn_history. rewrite Hread.
    destruct Hr as [-> | ->]; reflexivity. }
  unfold turn_events in Htrace. rewrite Hctx in Htrace.
  set (cell := fresh (dom (heap w))) in *.
  set (hist := history ++ [cell]) in *.
  set (h1 := <[cell := _]> (heap w)) in *.
  set (system_prompt := turn_prompt E (template_cache w) resume jd) in *.
  set (chunks := stream_chunks _) in *.
  exists w',
    ([EvYield hist (view h1 hist); EvStream [] system_prompt]
     ++ stream_events hist cell h1 [] chunks).
  cbv zeta. split; [exact Hrun|]. split.
  - rewrite Htrace, !contexts_of_app. cbn.
    rewrite contexts_of_stream_events. by rewrite app_nil_r.
  - rewrite Htrace, chunks_of_app. cbn.
    by rewrite chunks_of_stream_events.
Qed.

Lemma failed_history_read_gives_empty_context_witness :
  ~ blank (lit "Hello") /\ client_ready sample.env_store_down sample.world
  /\ (database.get_session_history (lit "s") sample.env_store_down
        (world_user_saved (lit "Hello") (lit "s") sample.env_store_down
           sample.world)).1 = Ok None
  /\ exists w',
       main.submit_turn (lit "Hello") [] (lit "s") (lit "R1") (lit "J1")
         sample.env_store_down sample.world = (Ok ([0%nat], []), w')
       /\ contexts_of (trace w') = [[]].
Proof.
  assert (Hready : client_ready sample.env_store_down sample.world)
    by (left; reflexivity).
  assert (Hread :
    (database.get_session_history (lit "s") sample.env_store_down
       (world_user_saved (lit "Hello") (lit "s") sample.env_store_down
          sample.world)).1 = Ok None) by (vm_compute; reflexivity).
  split; [exact hello_not_blank|]. split; [exact Hready|].
  split; [exact Hread|].
  destruct (failed_history_read_gives_empty_context (lit "Hello") []
              (lit "s") (lit "R1") (lit "J1") None sample.env_store_down
              sample.world hello_not_blank Hready Hread (or_introl eq_refl))
    as (w' & streamed & Hrun & Hctx & _).
  exists w'. split; [exact Hrun | exact Hctx].
Defined.

(** C10: [get_document_by_name] never raises: an unknown name and a failure
    of the store both give the not-found value.  Hence the [try] block of
    [load_document_on_startup] never raises either, its database-error
    branch is never entered, and in both cases the page shows the same
    "No document found" message with the chat disabled. *)
Theorem lookup_failure_reads_as_not_found request_q E w :
  app_initialized w = true ->
  truthy (strip (default [] request_q)) = true ->
  let name := strip (default [] request_q) in
  let session_uuid := uuid4 E (uuid_draws w) in
  let w0 := set_uuid_draws (S (uuid_draws w)) w in
  exists r w1 page w',
    database.get_document_by_name name E w0 = (Ok r, w1)
    /\ main.load_document_try name session_uuid E w0 = (Ok page, w')
    /\ main.load_document_on_startup request_q E w = (Ok page, w')
    /\ (select_document name (documents (db w)) = None -> r = None)
    /\ (~ (pool_configured E (db w)
           /\ fault_free E (db_ops (db w)) (db_ops (db w1))) ->
        r = None)
    /\ (r = None -> page = not_found_page name session_uuid)
    /\ (forall resume jd, r = Some (resume, jd) ->
        page = main.mkPageLoad [] name session_uuid true
                 (main.or_empty_str resume) (main.or_empty_str jd)).
Proof.
  intros Hinit Hq name session_uuid w0.
  destruct (get_document_by_name_run name E w0) as (r & w1 & Hrun & Hd).
  assert (Hdb : db w0 = db w) by (subst w0; by destruct w).
  assert (Htry : exists page,
    main.load_document_try name session_uuid E w0 = (Ok page, w1)
    /\ (r = None -> page = not_found_page name session_uuid)
    /\ (forall resume jd, r = Some (resume, jd) ->
        page = main.mkPageLoad [] name session_uuid true
                 (main.or_empty_str resume) (main.or_empty_str jd))).
  { unfold main.load_document_try. rewrite bind_run, Hrun.
    destruct r as [[resume jd]|]; eexists; (split; [reflexivity|]);
      split; try done. by intros ? ? [= <- <-]. }
  destruct Htry as (page & Htry & Hnone & Hsome).
  exists r, w1, page, w1. split; [exact Hrun|]. split; [exact Htry|].
  split; [|split; [|split; [|split]]]; try done.
  - subst name session_uuid w0.
    unfold main.load_document_on_startup. rewrite bind_run. cbn [get].
    rewrite Hinit. cbn [negb]. rewrite Hq. cbn [negb].
    rewrite bind_run. unfold uuid_uuid4.
    rewrite try_except_run, Htry. reflexivity.
  - intros Hnone'. rewrite <- Hdb in Hnone'.
    destruct r as [found|]; [|done].
    rewrite (document_some _ _ _ _ _ Hd found eq_refl) in Hnone'. done.
  - intros Hfail. rewrite <- Hdb in Hfail.
    apply (document_failed _ _ _ _ _ Hd Hfail).
Qed.

Lemma lookup_failure_reads_as_not_found_witness :
  app_initialized sample.world = true
  /\ truthy (strip (lit " acme-swe ")) = true
  /\ exists page w',
       main.load_document_on_startup (Some (lit " acme-swe "))
         sample.env_store_down sample.world = (Ok page, w')
       /\ page = not_found_page (lit "acme-swe") (lit "session-0").
Proof.
  assert (Hq : truthy (strip (default [] (Some (lit " acme-swe ")))) = true)
    by (vm_compute; reflexivity).
  split; [reflexivity|]. split; [exact Hq|].
  destruct (lookup_failure_reads_as_not_found (Some (lit " acme-swe "))
              sample.env_store_down sample.world eq_refl Hq)
    as (r & w1 & page & w' & Hlookup & _ & Hload & _ & Hfail & Hnone & _).
  exists page, w'. split; [exact Hload|].
  assert (Hname : strip (default [] (Some (lit " acme-swe "))) = lit "acme-swe")
    by (vm_compute; reflexivity).
  assert (Hsession : uuid4 sample.env_store_down (uuid_draws sample.world)
                     = lit "session-0") by (vm_compute; reflexivity).
  rewrite <- Hname, <- Hsession. apply Hnone, Hfail.
  intros [_ Hff]. specialize (Hff (db_ops (db sample.world))).
  assert (Hle : (db_ops (db sample.world) < db_ops (db w1))%nat).
  { rewrite Hname in Hlookup. clear -Hlookup.
    vm_compute in Hlookup. injection Hlookup as _ <-. vm_compute. lia. }
  cbn in Hff. by specialize (Hff ltac:(cbn in Hle; lia)).
Defined.

(** * Further properties *)

Arguments main.missing_env_vars : simpl never.

(** Projections of updated records, the flags of [main.py] included. *)
Ltac simpl_flags :=
  cbn [db client template_cache app_initialized initialization_error heap
       clock_reads uuid_draws api_calls stdout trace
       chats documents pending connection_pool db_ops
       set_chats set_pending set_connection_pool set_db_ops set_db set_client
       set_template_cache set_heap set_clock_reads set_uuid_draws
       set_api_calls set_stdout set_trace set_app_initialized
       set_initialization_error] in *.

(** ** database.py: the pool *)

Lemma join_contains sep parts p : p ∈ parts -> contains (join sep parts) p.
Proof.
  induction parts as [|q rest IH]; [by intros ?%elem_of_nil|].
  intros [->|Hin]%elem_of_cons.
  - destruct rest as [|q' rest'].
    + exists [], []. cbn. by rewrite app_nil_r.
    + exists [], (sep ++ join sep (q' :: rest')). reflexivity.
  - destruct (IH Hin) as (pre & post & Heq).
    destruct rest as [|q' rest']; [by apply elem_of_nil in Hin|].
    exists (q ++ sep ++ pre), post.
    change (join sep (q :: q' :: rest')) with (q ++ sep ++ join sep (q' :: rest')).
    rewrite Heq. by rewrite <- !app_assoc.
Qed.

Lemma missing_vars_elem var E :
  In var database.required_names -> falsy (getenv E (lit var)) = true ->
  lit var ∈ database.missing_vars E.
Proof.
  intros Hin Hfalsy. unfold database.missing_vars.
  apply list_elem_of_fmap. exists var. split; [done|].
  apply list_elem_of_filter. split; [done|]. by apply list_elem_of_In.
Qed.

(** X1: the pool is a singleton.  A call that finds the pool returns at
    once and changes nothing; a call returns normally exactly when the pool
    exists afterwards, and then every later call, under any environment,
    changes nothing; a call that raises leaves no pool behind.  The tables
    are never touched. *)
Theorem get_connection_pool_is_singleton E w :
  let run := database.get_connection_pool E w in
  (connection_pool (db w) = true -> run = (Ok tt, w))
  /\ (run.1 = Ok tt <-> connection_pool (db run.2) = true)
  /\ (run.1 = Ok tt ->
      forall E', database.get_connection_pool E' run.2 = (Ok tt, run.2))
  /\ chats (db run.2) = chats (db w)
  /\ documents (db run.2) = documents (db w).
Proof.
  cbv zeta. unfold database.get_connection_pool.
  rewrite !bind_run. cbn [get].
  destruct (connection_pool (db w)) eqn:Hpool.
  - cbn [ret fst snd]. rewrite Hpool.
    split; [done|]. split; [done|]. split; [|done].
    intros _ E'. rewrite !bind_run. cbn [get]. by rewrite Hpool.
  - rewrite !bind_run. cbn [ask].
    destruct (database.missing_vars E) eqn:Hmiss.
    + unfold try_except, bind, psycopg2.
      destruct (fault E (db_ops (db w))) as [e|] eqn:Hfault; cbn.
      * rewrite Hpool. repeat split; try done.
      * repeat split; done.
    + cbn [raise fst snd]. rewrite Hpool. repeat split; try done.
Qed.

(** X2: a required variable that is unset, or set to the empty string,
    stops the creation of the pool before psycopg2 is called: the call
    raises ValueError with a text that names the variable and leaves the
    world as it was; [save_message] then returns False and stores
    nothing. *)
Theorem unset_or_empty_variable_stops_pool var E w :
  In var database.required_names ->
  falsy (getenv E (lit var)) = true ->
  connection_pool (db w) = false ->
  exists text,
    database.get_connection_pool E w = (Raised (mkExn ValueError text), w)
    /\ contains text (lit var)
    /\ forall session_uuid message_type contents t,
         exists w',
           database.save_message session_uuid message_type contents (Some t) E w
           = (Ok false, w')
           /\ db w' = db w.
Proof.
  intros Hin Hfalsy Hpool.
  pose proof (missing_vars_elem var E Hin Hfalsy) as Hmiss.
  assert (Hrun : database.get_connection_pool E w =
    (Raised (mkExn ValueError
               (lit "Missing required environment variables: "
                ++ join (lit ", ") (database.missing_vars E))), w)).
  { unfold database.get_connection_pool. rewrite !bind_run. cbn [get].
    rewrite Hpool, !bind_run. cbn [ask].
    destruct (database.missing_vars E); [by apply elem_of_nil in Hmiss|done]. }
  eexists. split; [exact Hrun|]. split.
  - destruct (join_contains (lit ", ") _ _ Hmiss) as (pre & post & ->).
    exists (lit "Missing required environment variables: " ++ pre), post.
    by rewrite <- !app_assoc.
  - intros session_uuid message_type contents t.
    unfold database.save_message, database.save_message_try.
    rewrite !bind_run. cbn [ret]. rewrite !bind_run. unfold emit at 1.
    cbn [modify]. rewrite try_except_run, !bind_run.
    set (w0 := set_trace _ w).
    assert (Hrun0 : database.get_connection_pool E w0 =
      (Raised (mkExn ValueError
                 (lit "Missing required environment variables: "
                  ++ join (lit ", ") (database.missing_vars E))), w0)).
    { unfold database.get_connection_pool. rewrite !bind_run. cbn [get].
      replace (connection_pool (db w0)) with false by (by destruct w).
      rewrite !bind_run. cbn [ask].
      destruct (database.missing_vars E); [by apply elem_of_nil in Hmiss|done]. }
    rewrite Hrun0. eexists. split; [reflexivity|]. by destruct w.
Qed.

Lemma unset_or_empty_variable_stops_pool_witness :
  let E := mkEnv (now sample.env) (fault sample.env)
             (store_default sample.env)
             (fun name =>
                if decide (name = lit "DATABASE_PASSWORD") then Some []
                else Some (lit "set"))
             (read_text sample.env) (pystache_render sample.env)
             (messages_stream sample.env) (uuid4 sample.env) in
  In "DATABASE_PASSWORD"%string database.required_names
  /\ falsy (getenv E (lit "DATABASE_PASSWORD")) = true
  /\ connection_pool (db sample.cold_world) = false
  /\ exists w',
       database.save_message (lit "s") (lit "user") (lit "Hello") (Some 7) E
         sample.cold_world = (Ok false, w')
       /\ db w' = db sample.cold_world.
Proof.
  intros E.
  assert (Hin : In "DATABASE_PASSWORD"%string database.required_names)
    by (cbn; tauto).
  assert (Hfalsy : falsy (getenv E (lit "DATABASE_PASSWORD")) = true)
    by (vm_compute; reflexivity).
  split; [exact Hin|]. split; [exact Hfalsy|]. split; [reflexivity|].
  destruct (unset_or_empty_variable_stops_pool "DATABASE_PASSWORD" E
              sample.cold_world Hin Hfalsy eq_refl) as (text & _ & _ & Hsave).
  exact (Hsave (lit "s") (lit "user") (lit "Hello") 7).
Defined.

(** ** database.py: the start-up probe and the shutdown *)

Lemma wp_test_connection E w Q :
  (forall b w',
     db_frame w w' -> trace w' = trace w ->
     chats (db w') = chats (db w) -> documents (db w') = documents (db w) ->
     (db_ops (db w) <= db_ops (db w'))%nat ->
     (b = true <->
      pool_configured E (db w)
      /\ fault_free E (db_ops (db w)) (db_ops (db w'))) ->
     (b = true -> connection_pool (db w') = true) ->
     (exists text,
        last (stdout w') =
        Some (if b then lit "Database connection test successful"
              else lit "Database connection test failed: " ++ text)) ->
     Q (Ok b) w') ->
  wp database.test_connection E w Q.
Proof.
  intros HQ.
  unfold database.test_connection, database.test_connection_try.
  do 2 wp_step.
  apply wp_get_connection_pool.
  - intros w1 Hfr Htr Hch Hdoc Hops Hcfg Hff Hpool.
    unfold database.fetchone_one. unfold_db. repeat wp_step.
    all: apply HQ; side.
    all: try (split; [done|]; intros [_ ?]; fault_contradiction).
    all: try (eexists; apply last_snoc).
    + split; [intros _; split; [done|] | done].
      repeat (apply fault_free_snoc; [|assumption]). exact Hff.
    + exists []. apply last_snoc.
  - intros e w1 Hfr Htr Hch Hdoc Hops Hbad Hnopool.
    repeat wp_step. apply HQ; side.
    eexists. apply last_snoc.
Qed.

(** X3: [test_connection] never raises.  It returns True exactly when the
    pool was available and none of its psycopg2 calls raised; the pool then
    exists.  It reads and writes no row, and the last line it prints says
    which of the two happened. *)
Theorem test_connection_never_raises E w :
  exists b w',
    database.test_connection E w = (Ok b, w')
    /\ (b = true <->
        pool_configured E (db w)
        /\ fault_free E (db_ops (db w)) (db_ops (db w')))
    /\ (b = true -> connection_pool (db w') = true)
    /\ chats (db w') = chats (db w)
    /\ documents (db w') = documents (db w)
    /\ trace w' = trace w
    /\ exists text,
         last (stdout w') =
         Some (if b then lit "Database connection test successful"
               else lit "Database connection test failed: " ++ text).
Proof.
  destruct (wp_elim _ E w _
    (wp_test_connection E w
       (fun r w' => exists b, r = Ok b
          /\ (b = true <->
              pool_configured E (db w)
              /\ fault_free E (db_ops (db w)) (db_ops (db w')))
          /\ (b = true -> connection_pool (db w') = true)
          /\ chats (db w') = chats (db w)
          /\ documents (db w') = documents (db w)
          /\ trace w' = trace w
          /\ exists text,
               last (stdout w') =
               Some (if b then lit "Database connection test successful"
                     else lit "Database connection test failed: " ++ text))
       ltac:(intros b w' ? ? ? ? ? ? ? ?; exists b; done)))
    as (r & w' & Hrun & b & -> & H).
  by exists b, w'.
Qed.

(** X4: [close_pool] never raises and always leaves the module without a
    pool, also when [closeall] fails; without a pool it does nothing, so a
    second call changes nothing.  The tables are not touched. *)
Theorem close_pool_always_clears E w :
  exists w',
    database.close_pool E w = (Ok tt, w')
    /\ connection_pool (db w') = false
    /\ (connection_pool (db w) = false -> w' = w)
    /\ chats (db w') = chats (db w)
    /\ documents (db w') = documents (db w)
    /\ forall E', database.close_pool E' w' = (Ok tt, w').
Proof.
  assert (Hoff : forall E0 w0, connection_pool (db w0) = false ->
            database.close_pool E0 w0 = (Ok tt, w0)).
  { intros E0 w0 H0. unfold database.close_pool. rewrite bind_run. cbn [get].
    by rewrite H0. }
  destruct (connection_pool (db w)) eqn:Hpool.
  - unfold database.close_pool. rewrite bind_run. cbn [get]. rewrite Hpool.
    unfold try_finally, try_except, database.closeall, bind, psycopg2.
    destruct (fault E (db_ops (db w))) as [e|]; cbn;
      (eexists; split; [reflexivity|]); simpl_world;
      repeat split; try done; intros E'; by apply Hoff.
  - exists w. rewrite (Hoff E w Hpool). repeat split; try done.
    intros E'. by apply Hoff.
Qed.

(** ** database.py: appends and reads *)

(** X5: with the pool in place, [save_message] makes up to six psycopg2
    calls (getconn, cursor, execute, commit, close, putconn).  The row is in
    the table exactly when the first four succeed; it returns True exactly
    when all six succeed.  So a failure of [cursor.close()] or of [putconn]
    gives False for a row that is stored, and a failure before the commit
    stores nothing. *)
Theorem save_message_stores_at_commit session_uuid message_type contents t
    E w :
  connection_pool (db w) = true ->
  let n := db_ops (db w) in
  let row :=
    mkRow (store_default E (2 + n)).1 t session_uuid message_type contents
      (store_default E (2 + n)).2 in
  exists b w',
    database.save_message session_uuid message_type contents (Some t) E w
    = (Ok b, w')
    /\ (fault_free E n (4 + n) -> chats (db w') = chats (db w) ++ [row])
    /\ (~ fault_free E n (4 + n) -> chats (db w') = chats (db w) /\ b = false)
    /\ (b = true <-> fault_free E n (6 + n)).
Proof.
  intros Hpool n row. subst n row.
  assert (Hwp :
    wp (database.save_message session_uuid message_type contents (Some t)) E w
      (fun r w' => exists b, r = Ok b
         /\ (fault_free E (db_ops (db w)) (4 + db_ops (db w)) ->
             chats (db w') =
             chats (db w)
             ++ [mkRow (store_default E (2 + db_ops (db w))).1 t session_uuid
                   message_type contents
                   (store_default E (2 + db_ops (db w))).2])
         /\ (~ fault_free E (db_ops (db w)) (4 + db_ops (db w)) ->
             chats (db w') = chats (db w) /\ b = false)
         /\ (b = true <-> fault_free E (db_ops (db w)) (6 + db_ops (db w))))).
  { unfold database.save_message, database.save_message_try,
      database.get_connection_pool.
    do 8 wp_step. rewrite Hpool. wp_step.
    unfold_db. repeat wp_step.
    all: eexists; split; [reflexivity|]; cbn [Nat.add].
    all: match goal with
         | H : store_default _ _ = _ |- _ => try rewrite H
         | _ => idtac
         end; cbn [fst snd].
    all: split; [| split].
    all: try (intros ?; fault_contradiction).
    all: try (intros _; split; reflexivity).
    all: try (split; [done | intros ?; fault_contradiction]).
    all: try done.
    all: try (intros Hbad; exfalso; apply Hbad).
    all: try (split; [intros _|done]).
    all: repeat (apply fault_free_snoc; [|assumption]); apply fault_free_refl. }
  destruct (wp_elim _ _ _ _ Hwp) as (r & w' & Hrun & b & -> & H).
  by exists b, w'.
Qed.

Lemma save_message_stores_at_commit_witness :
  let E := mkEnv (now sample.env)
             (fun n => if decide (n = 4%nat) then Some sample.store_error
                       else None)
             (store_default sample.env) (getenv sample.env)
             (read_text sample.env) (pystache_render sample.env)
             (messages_stream sample.env) (uuid4 sample.env) in
  connection_pool (db sample.world) = true
  /\ fault_free E 0 4
  /\ exists w',
       database.save_message (lit "s") (lit "user") (lit "Hello") (Some 7) E
         sample.world = (Ok false, w')
       /\ chats (db w') = [mkRow 2 7 (lit "s") (lit "user") (lit "Hello") 5002].
Proof.
  intros E.
  assert (Hff : fault_free E 0 4).
  { intros k Hk. cbn. destruct (decide (k = 4%nat)); [lia|done]. }
  split; [reflexivity|]. split; [exact Hff|].
  destruct (save_message_stores_at_commit (lit "s") (lit "user") (lit "Hello")
              7 E sample.world eq_refl)
    as (b & w' & Hrun & Hrow & _ & Hb).
  assert (b = false) as ->.
  { destruct b; [|done]. exfalso.
    destruct Hb as [Hb _]. specialize (Hb eq_refl 4%nat ltac:(cbn; lia)).
    discriminate Hb. }
  exists w'. split; [exact Hrun|]. exact (Hrow Hff).
Defined.

(** X6: [get_session_history] never raises and never changes a table.  It
    returns None exactly when the pool is not available or a psycopg2 call
    raised.  A list it returns holds the stored rows of the session asked
    for, each one once and no row of another session, sorted by
    (timestamp, created_at). *)
Theorem get_session_history_returns_the_session session_uuid E w :
  exists r w',
    database.get_session_history session_uuid E w = (Ok r, w')
    /\ chats (db w') = chats (db w)
    /\ documents (db w') = documents (db w)
    /\ (r = None <->
        ~ (pool_configured E (db w)
           /\ fault_free E (db_ops (db w)) (db_ops (db w'))))
    /\ forall messages, r = Some messages ->
         Forall (fun m => row_session_uuid m = session_uuid) messages
         /\ messages ≡ₚ session_rows session_uuid (chats (db w))
         /\ (forall m, m ∈ messages <->
               m ∈ chats (db w) /\ row_session_uuid m = session_uuid)
         /\ Sorted row_le messages.
Proof.
  destruct (get_session_history_run session_uuid E w) as (r & w' & Hrun & Hh).
  exists r, w'. split; [exact Hrun|].
  split; [apply Hh|]. split; [apply Hh|]. split.
  - split.
    + intros -> Hfine. by pose proof (history_ok _ _ _ _ _ Hh Hfine).
    + apply Hh.
  - intros messages ->. rewrite (history_some _ _ _ _ _ Hh _ eq_refl).
    pose proof (select_history_perm session_uuid (chats (db w))) as Hperm.
    assert (Hin : forall m, m ∈ select_history session_uuid (chats (db w)) <->
                    m ∈ chats (db w) /\ row_session_uuid m = session_uuid).
    { intros m. rewrite Hperm. unfold session_rows.
      rewrite list_elem_of_filter. tauto. }
    split; [|split; [exact Hperm|split; [exact Hin|]]].
    + apply Forall_forall. intros m Hm. by apply Hin in Hm as [_ ?].
    + apply select_history_sorted.
Qed.

Lemma select_document_some name docs resume jd :
  select_document name docs = Some (resume, jd) ->
  exists d, d ∈ docs /\ doc_name d = name
            /\ doc_resume d = resume /\ doc_jd d = jd.
Proof.
  unfold select_document. intros H.
  destruct (filter (fun d => doc_name d = name) docs) as [|d rest] eqn:Hf;
    [done|].
  injection H as <- <-. exists d.
  assert (Hd : d ∈ filter (fun d => doc_name d = name) docs)
    by (rewrite Hf; apply list_elem_of_here).
  apply list_elem_of_filter in Hd as [? ?]. done.
Qed.

Lemma select_document_none name docs :
  select_document name docs = None <->
  forall d, d ∈ docs -> doc_name d <> name.
Proof.
  unfold select_document. split.
  - intros H d Hd Hname.
    destruct (filter (fun d => doc_name d = name) docs) as [|d' rest] eqn:Hf;
      [|done].
    assert (Hin : d ∈ filter (fun d => doc_name d = name) docs)
      by (by apply list_elem_of_filter).
    rewrite Hf in Hin. by apply elem_of_nil in Hin.
  - intros H.
    destruct (filter (fun d => doc_name d = name) docs) as [|d rest] eqn:Hf;
      [done|].
    assert (Hd : d ∈ filter (fun d => doc_name d = name) docs)
      by (rewrite Hf; apply list_elem_of_here).
    apply list_elem_of_filter in Hd as [? ?]. by destruct (H d).
Qed.

(** X7: [get_document_by_name] never raises and never changes a table.  A
    pair it returns is the resume and the job description of a stored
    document with exactly the name asked for; when the store works it
    returns None only if no document has that name. *)
Theorem get_document_by_name_returns_a_stored_document name E w :
  exists r w',
    database.get_document_by_name name E w = (Ok r, w')
    /\ chats (db w') = chats (db w)
    /\ documents (db w') = documents (db w)
    /\ (forall resume jd, r = Some (resume, jd) ->
        exists d, d ∈ documents (db w) /\ doc_name d = name
                  /\ doc_resume d = resume /\ doc_jd d = jd)
    /\ (pool_configured E (db w)
        /\ fault_free E (db_ops (db w)) (db_ops (db w')) ->
        (r = None <-> forall d, d ∈ documents (db w) -> doc_name d <> name)).
Proof.
  destruct (get_document_by_name_run name E w) as (r & w' & Hrun & Hd).
  exists r, w'. split; [exact Hrun|].
  split; [apply Hd|]. split; [apply Hd|]. split.
  - intros resume jd ->. apply select_document_some.
    by apply (document_some _ _ _ _ _ Hd).
  - intros Hfine. rewrite (document_ok _ _ _ _ _ Hd Hfine).
    apply select_document_none.
Qed.

(** ** chat_service.py *)

(** X8: [format_message_history] keeps the rows of type user and assistant,
    in their order and with their contents, and drops every other row (a
    system row, or a row of any other type); hence it distributes over
    concatenation of histories and never returns more messages than
    rows. *)
Theorem format_message_history_keeps_order db_messages more :
  chat_service.format_message_history db_messages
  = to_api <$> filter replayed db_messages
  /\ chat_service.format_message_history (db_messages ++ more)
     = chat_service.format_message_history db_messages
       ++ chat_service.format_message_history more
  /\ (length (chat_service.format_message_history db_messages)
      <= length db_messages)%nat.
Proof.
  rewrite !format_message_history_spec. split; [done|]. split.
  - by rewrite filter_app, fmap_app.
  - rewrite length_fmap. apply length_filter.
Qed.

Lemma drain_guarded_stream_world chunks err full E w :
  (s <- guarded_stream chunks err full;; chat_service.drain s) E w =
  (Ok (stream_chunks (chunks, err),
       match err with
       | Some e => error_chunk e
       | None => full ++ List.concat chunks
       end),
   set_trace (trace w ++ (EvChunk <$> stream_chunks (chunks, err)))
     (set_stdout
        (stdout w ++ match err with Some e => [error_chunk e] | None => [] end)
        w)).
Proof.
  revert full w. induction chunks as [|c rest IH]; intros full w.
  - rewrite bind_run. destruct err as [e|].
    + rewrite guarded_stream_error. cbn. destruct w; reflexivity.
    + rewrite guarded_stream_end. cbn. rewrite !app_nil_r. by destruct w.
  - specialize (IH (full ++ c) (set_trace (trace w ++ [EvChunk c]) w)).
    rewrite bind_run, guarded_stream_cons. cbn [chat_service.drain].
    rewrite bind_run in IH.
    destruct (guarded_stream rest err (full ++ c) E _) as [[s|e] w1]; [|done].
    rewrite IH. unfold stream_chunks. cbn.
    destruct err; rewrite <- ?app_assoc; destruct w; cbn;
      by rewrite <- ?app_assoc.
Qed.

(** X9: when the client exists or can be created, running [stream_message]
    to its end makes exactly one streaming call, with the messages and the
    system prompt it was given; it yields the fragments of the answer once
    each, in order, and returns their concatenation when the stream ends
    normally.  When the stream ends with an error it prints and yields one
    error chunk and returns the error text alone.  It never touches the
    store or the transcripts. *)
Theorem stream_message_makes_one_call messages system_prompt E w :
  client_ready E w ->
  let answer := messages_stream E (api_calls w) messages system_prompt in
  exists w',
    (s <- chat_service.stream_message messages system_prompt;;
     chat_service.drain s) E w
    = (Ok (stream_chunks answer,
           match answer.2 with
           | Some e => error_chunk e
           | None => List.concat answer.1
           end), w')
    /\ client w' = true
    /\ api_calls w' = S (api_calls w)
    /\ trace w' =
       trace w ++ EvStream messages system_prompt
                  :: (EvChunk <$> stream_chunks answer)
    /\ stdout w' =
       stdout w ++ match answer.2 with Some e => [error_chunk e] | None => [] end
    /\ db w' = db w
    /\ heap w' = heap w.
Proof.
  intros Hready answer.
  pose proof (drain_guarded_stream_world answer.1 answer.2 [] E
                (stream_opened messages system_prompt w)) as Hdrain.
  rewrite bind_run in Hdrain.
  eexists. split.
  - rewrite bind_run, (stream_message_run _ _ E w Hready). fold answer.
    rewrite Hdrain.
    replace (answer.1, answer.2) with answer by (by destruct answer).
    reflexivity.
  - unfold stream_opened. simpl_world.
    repeat split; try done. by rewrite <- app_assoc.
Qed.

Lemma stream_message_makes_one_call_witness :
  client_ready sample.env sample.world
  /\ exists w',
       (s <- chat_service.stream_message [mkMsg (lit "user") (lit "Hello")]
               (lit "P");;
        chat_service.drain s) sample.env sample.world
       = (Ok ([lit "Hi"; lit " there"], lit "Hi there"), w')
       /\ api_calls w' = 1%nat.
Proof.
  assert (Hready : client_ready sample.env sample.world) by (left; reflexivity).
  split; [exact Hready|].
  destruct (stream_message_makes_one_call [mkMsg (lit "user") (lit "Hello")]
              (lit "P") sample.env sample.world Hready)
    as (w' & Hrun & _ & Hcalls & _).
  exists w'. split; [exact Hrun | exact Hcalls].
Defined.

Lemma wp_os_getenv name E w Q :
  Q (Ok (getenv E (lit name))) w -> wp (os_getenv name) E w Q.
Proof. done. Qed.

Lemma wp_messages_create_call H E w Q :
  (forall e, messages_create H (api_calls w) = Some e ->
     Q (Raised e) (set_api_calls (S (api_calls w)) w)) ->
  (messages_create H (api_calls w) = None ->
     Q (Ok tt) (set_api_calls (S (api_calls w)) w)) ->
  wp (chat_service.messages_create_call H) E w Q.
Proof.
  unfold wp, chat_service.messages_create_call.
  destruct (messages_create H (api_calls w)); cbn; auto.
Qed.

(** One step of symbolic execution, the calls of the start included. *)
Ltac wp_next :=
  lazymatch goal with
  | |- wp (os_getenv _) _ _ _ => apply wp_os_getenv
  | |- wp (chat_service.messages_create_call _) _ _ _ =>
      apply wp_messages_create_call; [intros ? ? | intros ?]
  | |- _ => wp_step
  end; simpl_flags.

(** X10: [validate_api_key] never raises.  It returns True exactly when the
    client exists or can be created and the test call does not raise.
    Without a client and without an API key no call is made; otherwise
    exactly one call is made and the client exists afterwards, also when
    the call failed.  The store is not touched. *)
Theorem validate_api_key_never_raises H E w :
  exists b w',
    chat_service.validate_api_key H E w = (Ok b, w')
    /\ (b = true <->
        client_ready E w /\ messages_create H (api_calls w) = None)
    /\ (client_ready E w ->
        client w' = true /\ api_calls w' = S (api_calls w))
    /\ (~ client_ready E w ->
        client w' = false /\ api_calls w' = api_calls w)
    /\ db w' = db w
    /\ trace w' = trace w
    /\ heap w' = heap w.
Proof.
  assert (Hwp :
    wp (chat_service.validate_api_key H) E w
      (fun r w' => exists b, r = Ok b
         /\ (b = true <->
             client_ready E w /\ messages_create H (api_calls w) = None)
         /\ (client_ready E w ->
             client w' = true /\ api_calls w' = S (api_calls w))
         /\ (~ client_ready E w ->
             client w' = false /\ api_calls w' = api_calls w)
         /\ db w' = db w
         /\ trace w' = trace w
         /\ heap w' = heap w)).
  { unfold chat_service.validate_api_key, chat_service.initialize_client,
      client_ready.
    repeat wp_next.
    all: eexists; split; [reflexivity|].
    all: repeat split; try done; try tauto; try congruence.
    all: try (intros [[?|?] ?]; congruence).
    all: try (intros [?|?]; congruence).
    all: try (intros Hno; exfalso; apply Hno; tauto).
    all: match goal with
         | Hor : _ \/ _ |- _ => destruct Hor; congruence
         end. }
  destruct (wp_elim _ _ _ _ Hwp) as (r & w' & Hrun & b & -> & Hb).
  by exists b, w'.
Qed.

(** ** prompt_loader.py *)

(** What [load_template] returns for any path. *)
Lemma load_template_run template_path E w :
  exists w',
    prompt_loader.load_template template_path E w
    = (Ok match template_cache w with
          | Some cached => Some cached
          | None =>
              match read_text E template_path with
              | Ok content => Some content
              | Raised _ => None
              end
          end, w')
    /\ prompt_frame w w'
    /\ template_cache w' =
       match template_cache w with
       | Some cached => Some cached
       | None =>
           match read_text E template_path with
           | Ok content => Some content
           | Raised _ => None
           end
       end
    /\ (is_Some (template_cache w) -> w' = w).
Proof.
  unfold prompt_loader.load_template. rewrite bind_run. cbn [get].
  destruct (template_cache w) as [cached|] eqn:Hc.
  - exists w. split; [done|]. split; [|done].
    unfold prompt_frame. destruct w; cbn in *; by subst.
  - rewrite try_except_run, bind_run. unfold prompt_loader.read_file at 1.
    destruct (read_text E template_path) as [content|e].
    + eexists. split; [reflexivity|]. split; [|split; [done|]].
      * unfold prompt_frame. by destruct w.
      * by intros [? [=]].
    + destruct (exn_class e); (eexists; split; [reflexivity|]);
        (split; [unfold prompt_frame; by destruct w|]);
        (split; [simpl_world; done|]); by intros [? [=]].
Qed.

(** X11: [load_template] never raises, and what it returns is what the
    cache holds afterwards.  A cached template is returned without reading
    any file and without any other effect; None is returned exactly when
    nothing is cached and the file cannot be read, and that failure is not
    cached.  After a first success every later call, for any path and
    whatever has become of the file, returns the same text. *)
Theorem load_template_serves_the_cache template_path E w :
  exists r w',
    prompt_loader.load_template template_path E w = (Ok r, w')
    /\ template_cache w' = r
    /\ (forall cached, template_cache w = Some cached ->
        r = Some cached /\ w' = w)
    /\ (r = None <->
        template_cache w = None
        /\ exists e, read_text E template_path = Raised e)
    /\ (is_Some r ->
        forall E' path',
          prompt_loader.load_template path' E' w' = (Ok r, w'))
    /\ db w' = db w
    /\ trace w' = trace w.
Proof.
  destruct (load_template_run template_path E w)
    as (w' & Hrun & Hfr & Hcache & Hsame).
  eexists _, w'. split; [exact Hrun|]. split; [exact Hcache|].
  destruct (prompt_frame_fields _ _ Hfr) as (Hdb & _ & _ & _ & _ & Htr).
  split; [|split; [|split; [|done]]].
  - intros cached Hc. rewrite Hc. split; [done|]. apply Hsame. by eexists.
  - destruct (template_cache w) as [cached|]; [by split; [|intros [? _]]|].
    destruct (read_text E template_path) as [content|e].
    + split; [done|]. by intros [_ [? ?]].
    + split; [|done]. intros _. split; [done|]. by exists e.
  - intros Hsome E' path'. rewrite <- Hcache in Hsome |- *.
    destruct (load_template_run path' E' w') as (w'' & Hrun' & _ & _ & Hsame').
    rewrite Hrun'. destruct Hsome as [cached Hc].
    rewrite (Hsame' ltac:(by eexists)). by rewrite Hc.
Qed.

Lemma wp_pystache_call template context E w Q :
  Q (pystache_render E template context) w ->
  wp (prompt_loader.pystache_call template context) E w Q.
Proof. done. Qed.

Ltac wp_render :=
  lazymatch goal with
  | |- wp (prompt_loader.pystache_call _ _) _ _ _ =>
      apply wp_pystache_call;
      destruct (pystache_render _ _ _) eqn:?; simpl_flags
  | |- _ => wp_next
  end.

Lemma fallback_prompt_embeds resume jd :
  contains (prompt_loader.fallback_prompt resume jd) resume
  /\ contains (prompt_loader.fallback_prompt resume jd) jd.
Proof.
  unfold prompt_loader.fallback_prompt, contains. split.
  - exists (lit "You are a helpful career advisor assistant reviewing a resume against a job description."
            ++ prompt_loader.nl ++ prompt_loader.nl ++ lit "RESUME:"
            ++ prompt_loader.nl),
      (prompt_loader.nl ++ prompt_loader.nl ++ lit "JOB DESCRIPTION:"
       ++ prompt_loader.nl ++ jd ++ prompt_loader.nl ++ prompt_loader.nl
       ++ lit "Please provide thoughtful, specific feedback to help the hiring manager evaluate fit for this position.").
    by rewrite <- !app_assoc.
  - exists (lit "You are a helpful career advisor assistant reviewing a resume against a job description."
            ++ prompt_loader.nl ++ prompt_loader.nl ++ lit "RESUME:"
            ++ prompt_loader.nl ++ resume ++ prompt_loader.nl
            ++ prompt_loader.nl ++ lit "JOB DESCRIPTION:" ++ prompt_loader.nl),
      (prompt_loader.nl ++ prompt_loader.nl
       ++ lit "Please provide thoughtful, specific feedback to help the hiring manager evaluate fit for this position.").
    by rewrite <- !app_assoc.
Qed.

(** X12: [render_prompt] never raises, for any template and with or without
    an email argument.  The renderer is given the resume, the job
    description and the email (the argument, or else APPLICANT_EMAIL, or
    else the empty string); its result is returned as it is.  When the
    renderer raises, the hardcoded prompt is returned, which holds the
    resume and the job description verbatim, and one line is printed. *)
Theorem render_prompt_never_raises template resume jd email E w :
  let context :=
    mkContext resume jd
      match email with
      | Some given => given
      | None => default [] (getenv E (lit "APPLICANT_EMAIL"))
      end in
  exists out w',
    prompt_loader.render_prompt template resume jd email E w = (Ok out, w')
    /\ (forall s, pystache_render E template context = Ok s ->
        out = s /\ w' = w)
    /\ (forall e, pystache_render E template context = Raised e ->
        out = prompt_loader.fallback_prompt resume jd
        /\ contains out resume /\ contains out jd
        /\ w' = set_stdout
                  (stdout w ++ [lit "Error rendering template: " ++ exn_text e])
                  w).
Proof.
  intros context. subst context.
  assert (Hwp :
    wp (prompt_loader.render_prompt template resume jd email) E w
      (fun r w' => exists out, r = Ok out
         /\ (forall s,
               pystache_render E template
                 (mkContext resume jd
                    match email with
                    | Some given => given
                    | None => default [] (getenv E (lit "APPLICANT_EMAIL"))
                    end) = Ok s ->
               out = s /\ w' = w)
         /\ (forall e,
               pystache_render E template
                 (mkContext resume jd
                    match email with
                    | Some given => given
                    | None => default [] (getenv E (lit "APPLICANT_EMAIL"))
                    end) = Raised e ->
               out = prompt_loader.fallback_prompt resume jd
               /\ contains out resume /\ contains out jd
               /\ w' = set_stdout
                         (stdout w
                          ++ [lit "Error rendering template: " ++ exn_text e])
                         w))).
  { unfold prompt_loader.render_prompt.
    destruct (fallback_prompt_embeds resume jd) as [Hresume Hjd].
    destruct email as [given|]; repeat wp_render.
    all: eexists; split; [reflexivity|].
    all: split; [intros ? [= <-] | intros ? [= <-]]; done. }
  destruct (wp_elim _ _ _ _ Hwp) as (r & w' & Hrun & out & -> & H).
  by exists out, w'.
Qed.

(** X13: [get_system_prompt] never raises.  It returns None exactly when no
    template is cached and the file cannot be read; with a template, it
    returns a prompt also when the renderer fails, namely the hardcoded
    one. *)
Theorem get_system_prompt_none_iff_unreadable resume jd template_path E w :
  exists r w',
    prompt_loader.get_system_prompt resume jd template_path E w = (Ok r, w')
    /\ (r = None <->
        template_cache w = None
        /\ exists e, read_text E template_path = Raised e)
    /\ (forall template,
          template_cache w = Some template
          \/ (template_cache w = None
              /\ read_text E template_path = Ok template) ->
          r = Some (rendered E template resume jd)
          /\ forall e,
               pystache_render E template (render_context E resume jd)
               = Raised e ->
               r = Some (prompt_loader.fallback_prompt resume jd)).
Proof.
  unfold prompt_loader.get_system_prompt. rewrite bind_run.
  destruct (load_template_run template_path E w) as (w1 & -> & _ & _ & _).
  assert (Hrender : forall template,
    exists w2,
      (rendered0 <- prompt_loader.render_prompt template resume jd None;;
       ret (Some rendered0)) E w1
      = (Ok (Some (rendered E template resume jd)), w2)).
  { intros template.
    destruct (wp_elim _ E w1 _
      (wp_render_prompt template resume jd E w1
         (fun r w' => r = Ok (rendered E template resume jd))
         (fun out => eq_refl))) as (r & w2 & Hrun & ->).
    exists w2. by rewrite bind_run, Hrun. }
  assert (Hfall : forall template e,
    pystache_render E template (render_context E resume jd) = Raised e ->
    rendered E template resume jd = prompt_loader.fallback_prompt resume jd).
  { intros template e He. unfold rendered. by rewrite He. }
  destruct (template_cache w) as [cached|].
  - destruct (Hrender cached) as (w2 & ->). eexists _, w2.
    split; [reflexivity|]. split; [by split; [|intros [? _]]|].
    intros template [[= <-]|[? _]]; [|done].
    split; [done|]. intros e He. by rewrite (Hfall _ _ He).
  - destruct (read_text E template_path) as [content|e0].
    + destruct (Hrender content) as (w2 & ->). eexists _, w2.
      split; [reflexivity|]. split; [by split; [|intros [_ [? ?]]]|].
      intros template [?|[_ [= <-]]]; [done|].
      split; [done|]. intros e He. by rewrite (Hfall _ _ He).
    + eexists _, w1. split; [reflexivity|].
      split; [split; [intros _; split; [done|by exists e0]|done]|].
      by intros template [?|[_ ?]].
Qed.

(** ** main.py: the page load *)

Lemma lit_app_nonempty a s (rest : str) : lit (String a s) ++ rest <> [].
Proof. done. Qed.

(** Every way [load_document_on_startup] can go. *)
Lemma load_document_on_startup_run request_q E w :
  exists page w',
    main.load_document_on_startup request_q E w = (Ok page, w')
    /\ main.session_uuid_of page = uuid4 E (uuid_draws w)
    /\ uuid_draws w' = S (uuid_draws w)
    /\ (main.chat_enabled page = true <-> main.error_message page = [])
    /\ (main.chat_enabled page = false ->
        main.resume_of page = [] /\ main.jd_of page = [])
    /\ chats (db w') = chats (db w)
    /\ documents (db w') = documents (db w)
    /\ (main.chat_enabled page = true ->
        app_initialized w = true
        /\ ~ blank (default [] request_q)
        /\ main.q_value page = strip (default [] request_q)
        /\ exists resume jd,
             select_document (strip (default [] request_q))
               (documents (db w)) = Some (resume, jd)
             /\ main.resume_of page = default [] resume
             /\ main.jd_of page = default [] jd).
Proof.
  unfold main.load_document_on_startup. rewrite bind_run. cbn [get].
  destruct (app_initialized w) eqn:Hinit; cbn [negb].
  - destruct (truthy (strip (default [] request_q))) eqn:Hq; cbn [negb].
    + rewrite bind_run. unfold uuid_uuid4 at 1. cbv beta iota.
      rewrite try_except_run. unfold main.load_document_try.
      rewrite bind_run.
      set (w0 := set_uuid_draws (S (uuid_draws w)) w).
      destruct (get_document_by_name_run (strip (default [] request_q)) E w0)
        as (r & w1 & Hrun & Hd).
      rewrite Hrun.
      destruct (db_frame_fields _ _ (document_frame _ _ _ _ _ Hd))
        as (_ & _ & _ & _ & _ & Hu & _).
      assert (Hdb0 : db w0 = db w) by (by destruct w).
      assert (Hnb : ~ blank (default [] request_q)).
      { intros Hb. apply strip_blank in Hb. congruence. }
      destruct r as [[resume jd]|]; cbn [ret];
        (eexists _, w1; split; [reflexivity|]); cbn;
        rewrite Hu, (document_chats _ _ _ _ _ Hd),
          (document_documents _ _ _ _ _ Hd), Hdb0.
      * repeat split; try done.
        pose proof (document_some _ _ _ _ _ Hd _ eq_refl) as Hsel.
        rewrite Hdb0 in Hsel. by exists resume, jd.
      * repeat split; try done; try (by intros ?%lit_app_nonempty).
    + rewrite bind_run. unfold uuid_uuid4 at 1. cbn.
      eexists _, _. split; [reflexivity|]. cbn.
      repeat split; try done.
  - rewrite bind_run. unfold uuid_uuid4 at 1. cbn.
    eexists _, _. split; [reflexivity|]. cbn.
    repeat split; try done; try (by intros ?%lit_app_nonempty).
Qed.

(** X14: [load_document_on_startup] never raises, and every page load draws
    exactly one fresh session identifier, whichever branch is taken.  The
    chat is enabled exactly when the error message is empty, and a page
    with the chat disabled shows neither resume nor job description.  The
    tables are not changed. *)
Theorem page_load_draws_one_session request_q E w :
  exists page w',
    main.load_document_on_startup request_q E w = (Ok page, w')
    /\ main.session_uuid_of page = uuid4 E (uuid_draws w)
    /\ uuid_draws w' = S (uuid_draws w)
    /\ (main.chat_enabled page = true <-> main.error_message page = [])
    /\ (main.chat_enabled page = false ->
        main.resume_of page = [] /\ main.jd_of page = [])
    /\ chats (db w') = chats (db w)
    /\ documents (db w') = documents (db w).
Proof.
  destruct (load_document_on_startup_run request_q E w)
    as (page & w' & Hrun & Hs & Hu & Hen & Hdis & Hch & Hdoc & _).
  by exists page, w'.
Qed.

(** X15: the chat is enabled only for a stored document: the application
    was initialised, the parameter q is not blank, and the documents table
    holds a document whose name is q without its surrounding whitespace;
    the page then shows that document's resume and job description, a NULL
    column as the empty string. *)
Theorem chat_enabled_only_for_a_stored_document request_q E w :
  exists page w',
    main.load_document_on_startup request_q E w = (Ok page, w')
    /\ (main.chat_enabled page = true ->
        app_initialized w = true
        /\ ~ blank (default [] request_q)
        /\ main.q_value page = strip (default [] request_q)
        /\ exists d,
             d ∈ documents (db w)
             /\ doc_name d = strip (default [] request_q)
             /\ main.resume_of page = default [] (doc_resume d)
             /\ main.jd_of page = default [] (doc_jd d)).
Proof.
  destruct (load_document_on_startup_run request_q E w)
    as (page & w' & Hrun & _ & _ & _ & _ & _ & _ & Hen).
  exists page, w'. split; [exact Hrun|]. intros Hon.
  destruct (Hen Hon) as (Hinit & Hq & Hname & resume & jd & Hsel & Hr & Hj).
  repeat (split; [done|]).
  destruct (select_document_some _ _ _ _ Hsel) as (d & Hd & Hdn & <- & <-).
  by exists d.
Qed.

(** X16: when the application was not initialised, or when q is missing,
    empty or made of whitespace only, the page load makes no lookup: it
    only draws the session identifier and returns an error page with the
    chat disabled.  A failed start takes precedence over a missing q, and
    its page shows the recorded initialisation error. *)
Theorem page_load_without_lookup request_q E w :
  app_initialized w = false \/ blank (default [] request_q) ->
  main.load_document_on_startup request_q E w
  = (Ok (main.mkPageLoad
           (if app_initialized w
            then lit "**Error:** 'q' parameter must be specified in the URL"
            else lit "**Error:** "
                 ++ main.format_optional (initialization_error w))
           [] (uuid4 E (uuid_draws w)) false [] []),
     set_uuid_draws (S (uuid_draws w)) w).
Proof.
  intros Hcase. unfold main.load_document_on_startup.
  rewrite bind_run. cbn [get].
  destruct (app_initialized w) eqn:Hinit; cbn [negb]; [|done].
  destruct Hcase as [|Hblank]; [done|].
  apply strip_blank in Hblank. by rewrite Hblank.
Qed.

Lemma page_load_without_lookup_witness :
  blank (default [] (Some (lit "   ")))
  /\ main.load_document_on_startup (Some (lit "   ")) sample.env_store_down
       sample.world
     = (Ok (main.mkPageLoad
              (lit "**Error:** 'q' parameter must be specified in the URL")
              [] (lit "session-0") false [] []),
        set_uuid_draws 1 sample.world).
Proof.
  assert (Hb : blank (default [] (Some (lit "   ")))) by (repeat constructor).
  split; [exact Hb|].
  exact (page_load_without_lookup (Some (lit "   ")) sample.env_store_down
           sample.world (or_intror Hb)).
Defined.

(** X17: when the application is initialised, the store works and the
    documents table holds a document named as q (without its surrounding
    whitespace), the page load enables the chat, reports no error and
    shows the resume and the job description of the first such document,
    a NULL column as the empty string. *)
Theorem page_load_finds_the_document request_q resume jd E w :
  app_initialized w = true ->
  ~ blank (default [] request_q) ->
  pool_configured E (db w) ->
  (forall n, fault E n = None) ->
  select_document (strip (default [] request_q)) (documents (db w))
  = Some (resume, jd) ->
  exists w',
    main.load_document_on_startup request_q E w
    = (Ok (main.mkPageLoad [] (strip (default [] request_q))
             (uuid4 E (uuid_draws w)) true
             (default [] resume) (default [] jd)), w').
Proof.
  intros Hinit Hq Hcfg Hfault Hsel.
  unfold main.load_document_on_startup. rewrite bind_run. cbn [get].
  rewrite Hinit, (strip_not_blank _ Hq). cbn [negb].
  rewrite bind_run. unfold uuid_uuid4 at 1. cbv beta iota.
  rewrite try_except_run. unfold main.load_document_try. rewrite bind_run.
  set (w0 := set_uuid_draws (S (uuid_draws w)) w).
  destruct (get_document_by_name_run (strip (default [] request_q)) E w0)
    as (r & w1 & Hrun & Hd).
  rewrite Hrun. assert (Hdb0 : db w0 = db w) by (by destruct w).
  rewrite (document_ok _ _ _ _ _ Hd), Hdb0, Hsel.
  - by exists w1.
  - rewrite Hdb0. split; [done|]. intros n _. apply Hfault.
Qed.

Lemma page_load_finds_the_document_witness :
  app_initialized sample.world = true
  /\ ~ blank (default [] (Some (lit " acme-swe ")))
  /\ exists w',
       main.load_document_on_startup (Some (lit " acme-swe ")) sample.env
         sample.world
       = (Ok (main.mkPageLoad [] (lit "acme-swe") (lit "session-0") true
                (lit "R1") (lit "J1")), w').
Proof.
  assert (Hq : ~ blank (default [] (Some (lit " acme-swe ")))).
  { intros Hb. apply strip_blank in Hb. vm_compute in Hb. discriminate. }
  split; [reflexivity|]. split; [exact Hq|].
  exact (page_load_finds_the_document (Some (lit " acme-swe "))
           (Some (lit "R1")) (Some (lit "J1")) sample.env sample.world
           eq_refl Hq (or_introl eq_refl) (fun _ => eq_refl) eq_refl).
Defined.

(** X18: [on_load] shows the error banner exactly when it disables the two
    chat inputs, and both inputs get the same setting.  An accordion is
    visible exactly when its text is not empty, so with the chat disabled
    both accordions are hidden, and a stored document with an empty or
    NULL resume enables the chat with the resume accordion hidden. *)
Theorem on_load_banner_iff_chat_disabled request_q E w :
  exists o w',
    main.on_load request_q E w = (Ok o, w')
    /\ main.error_display_visible o = negb (main.message_input_interactive o)
    /\ main.send_button_interactive o = main.message_input_interactive o
    /\ (main.resume_accordion_visible o = true
        <-> main.resume_display_value o <> [])
    /\ (main.jd_accordion_visible o = true
        <-> main.jd_display_value o <> [])
    /\ (main.message_input_interactive o = false ->
        main.resume_accordion_visible o = false
        /\ main.jd_accordion_visible o = false)
    /\ main.session_uuid_state o = uuid4 E (uuid_draws w).
Proof.
  destruct (load_document_on_startup_run request_q E w)
    as (page & w' & Hrun & Hs & _ & Hen & Hdis & _).
  unfold main.on_load. rewrite bind_run, Hrun. cbn [ret].
  eexists _, w'. split; [reflexivity|]. cbn.
  assert (Hvis : forall s : str, (0 <? length s)%nat = true <-> s <> []).
  { intros [|c s]; cbn; split; done. }
  split; [|split; [done|split; [apply Hvis|split; [apply Hvis|split; [|done]]]]].
  - destruct (main.chat_enabled page) eqn:Hc.
    + destruct Hen as [Hen _]. by rewrite (Hen eq_refl).
    + destruct (main.error_message page) eqn:He; [|done].
      destruct Hen as [_ Hen]. by specialize (Hen eq_refl).
  - intros Hoff. destruct (Hdis Hoff) as [-> ->]. done.
Qed.

(** ** main.py: the start of the process *)

Lemma client_frame_fields w w' :
  client_frame w w' ->
  db w' = db w /\ template_cache w' = template_cache w
  /\ heap w' = heap w /\ clock_reads w' = clock_reads w
  /\ uuid_draws w' = uuid_draws w /\ trace w' = trace w
  /\ app_initialized w' = app_initialized w
  /\ initialization_error w' = initialization_error w.
Proof. unfold client_frame. intros H. rewrite H. by destruct w. Qed.

Lemma wp_validate_api_key H E w Q :
  (forall b w',
     client_frame w w' ->
     (b = true <->
      client_ready E w /\ messages_create H (api_calls w) = None) ->
     (client_ready E w ->
      client w' = true /\ api_calls w' = S (api_calls w)) ->
     (~ client_ready E w ->
      client w' = false /\ api_calls w' = api_calls w) ->
     Q (Ok b) w') ->
  wp (chat_service.validate_api_key H) E w Q.
Proof.
  intros HQ.
  unfold chat_service.validate_api_key, chat_service.initialize_client,
    client_ready.
  repeat wp_next.
  all: apply HQ; unfold client_ready, client_frame; simpl_flags; try done.
  all: try (by destruct w).
  all: try (split; [done|]).
  all: try (intros [[?|?] ?]; congruence).
  all: try (intros [?|?]; congruence).
  all: try (intros Hno; exfalso; apply Hno; tauto).
  all: try tauto.
  all: try (intros _; split; [tauto|done]).
Qed.

Lemma wp_validate_template_exists H template_path E w Q :
  (forall line,
     Q (Ok (isfile H (if isabs H template_path then template_path
                      else abspath H template_path)))
       (set_stdout (stdout w ++ [line]) w)) ->
  wp (prompt_loader.validate_template_exists H template_path) E w Q.
Proof.
  intros HQ. unfold prompt_loader.validate_template_exists.
  set (found := isfile H _) in *. clearbody found.
  destruct found; repeat wp_next; apply HQ.
Qed.

Lemma test_connection_run E w :
  exists b w',
    database.test_connection E w = (Ok b, w')
    /\ db_frame w w' /\ trace w' = trace w
    /\ chats (db w') = chats (db w) /\ documents (db w') = documents (db w)
    /\ (b = true -> connection_pool (db w') = true).
Proof.
  destruct (wp_elim _ E w _
    (wp_test_connection E w
       (fun r w' => exists b, r = Ok b
          /\ db_frame w w' /\ trace w' = trace w
          /\ chats (db w') = chats (db w)
          /\ documents (db w') = documents (db w)
          /\ (b = true -> connection_pool (db w') = true))
       ltac:(intros b w' ? ? ? ? ? ? ? ?; exists b; done)))
    as (r & w' & Hrun & b & -> & H).
  by exists b, w'.
Qed.

Lemma wp_startup_checks H E w Q :
  (forall success error w',
     startup_spec H E w success error w' -> Q (Ok (success, error)) w') ->
  wp (main.startup_checks H) E w Q.
Proof.
  intros HQ. unfold main.startup_checks. do 2 wp_next.
  destruct (main.missing_env_vars E) as [|missing rest] eqn:Hmiss.
  - wp_next. wp_next. wp_next.
    destruct (test_connection_run E w)
      as (b & w1 & Hrun & Hfr & Htr & Hch & Hdoc & Hpool).
    apply (wp_run _ E w _ (Ok b) w1 Hrun).
    destruct (db_frame_fields _ _ Hfr)
      as (Hc1 & Htc1 & Hh1 & Hcr1 & Hac1 & Hu1 & Hai1 & Hie1).
    assert (Hb1 : (database.test_connection E w).1 = Ok false -> b = false).
    { rewrite Hrun. by intros [= <-]. }
    destruct b; cbn [negb].
    + repeat wp_next. apply wp_validate_api_key.
      intros b2 w2 Hfr2 Hb2 Hready2 Hnot2.
      destruct (client_frame_fields _ _ Hfr2)
        as (Hdb2 & Htc2 & Hh2 & Hcr2 & Hu2 & Htr2 & Hai2 & Hie2).
      destruct b2; cbn [negb].
      * repeat wp_next. apply wp_validate_template_exists. intros line.
        destruct (isfile H _) eqn:Hfile; cbn [negb]; repeat wp_next.
        all: apply HQ; constructor; simpl_flags; rewrite ?Hdb2; try done.
        all: try (intros ? [= <-]; unfold startup_failures;
                  repeat (first [apply list_elem_of_here
                                |apply list_elem_of_further])).
        all: try (intros _; repeat split; try done;
                  [by apply Hpool | apply Hready2; by apply Hb2]).
        all: try (intros _ Hfalse; apply Hb1 in Hfalse; done).
        all: try congruence.
        all: try (split; congruence).
      * repeat wp_next.
        all: apply HQ; constructor; simpl_flags; rewrite ?Hdb2; try done.
        all: try (intros ? [= <-]; unfold startup_failures;
                  repeat (first [apply list_elem_of_here
                                |apply list_elem_of_further])).
        all: try (intros _ Hfalse; apply Hb1 in Hfalse; done).
        all: try congruence.
        all: try (split; congruence).
    + repeat wp_next.
      all: apply HQ; constructor; simpl_flags; try done.
      all: try (intros ? [= <-]; unfold startup_failures;
                repeat (first [apply list_elem_of_here
                              |apply list_elem_of_further])).
      all: try congruence.
      all: try (split; congruence).
  - wp_next. rewrite <- Hmiss. apply HQ; constructor; simpl_flags; try done.
    + intros ? [= <-]. apply list_elem_of_here.
    + rewrite Hmiss. done.
Qed.

Lemma lit_head_differs a s (r : str) b s' (r' : str) :
  a <> b -> lit (String a s) ++ r <> lit (String b s') ++ r'.
Proof.
  intros Hab Heq. apply Hab.
  change (N_of_ascii a :: (lit s ++ r) = N_of_ascii b :: (lit s' ++ r')) in Heq.
  injection Heq as Hhead _.
  apply (f_equal ascii_of_N) in Hhead. by rewrite !ascii_N_embedding in Hhead.
Qed.

(** The texts of the two [except] branches of [startup_checks] are none of
    the texts it can report. *)
Lemma startup_failures_exclude E text e :
  text ∈ startup_failures E ->
  text <> lit "Database connection error: " ++ exn_text e
  /\ text <> lit "Claude API error: " ++ exn_text e.
Proof.
  unfold startup_failures. intros Hin.
  repeat (apply elem_of_cons in Hin as [->|Hin]);
    [| | | |by apply elem_of_nil in Hin].
  all: split.
  all: first [ apply lit_head_differs; discriminate
             | rewrite <- (app_nil_r (lit _)) at 1;
               apply lit_head_differs; discriminate ].
Qed.

Lemma startup_checks_run H E w :
  exists success error w',
    main.startup_checks H E w = (Ok (success, error), w')
    /\ startup_spec H E w success error w'.
Proof.
  destruct (wp_elim _ E w _
    (wp_startup_checks H E w
       (fun r w' => exists success error,
          r = Ok (success, error) /\ startup_spec H E w success error w')
       (fun success error w' Hs =>
          ex_intro _ success (ex_intro _ error (conj eq_refl Hs)))))
    as (r & w' & Hrun & success & error & -> & Hs).
  by exists success, error, w'.
Qed.

(** X19: [startup_checks] never raises, and its result is consistent: it
    succeeds exactly when it reports no error.  An error it reports is the
    list of missing variables, the store message, the API message or the
    template message: the texts of its two [except] branches are never
    reported, because [test_connection] and [validate_api_key] never
    raise.  With a variable missing nothing at all is done; when the store
    probe fails the API is not called.  On success the pool and the client
    exist. *)
Theorem startup_checks_reports_first_failure H E w :
  exists success error w',
    main.startup_checks H E w = (Ok (success, error), w')
    /\ (success = true <-> error = None)
    /\ (forall text e, error = Some text ->
        text ∈ startup_failures E
        /\ text <> lit "Database connection error: " ++ exn_text e
        /\ text <> lit "Claude API error: " ++ exn_text e)
    /\ (main.missing_env_vars E <> [] ->
        w' = w
        /\ error = Some (lit "Missing required environment variables: "
                         ++ join (lit ", ") (main.missing_env_vars E)))
    /\ (main.missing_env_vars E = [] ->
        (database.test_connection E w).1 = Ok false ->
        error = Some (lit "Unable to connect to database. Please check configuration.")
        /\ api_calls w' = api_calls w /\ client w' = client w)
    /\ (success = true ->
        main.missing_env_vars E = []
        /\ connection_pool (db w') = true
        /\ client w' = true)
    /\ chats (db w') = chats (db w)
    /\ documents (db w') = documents (db w).
Proof.
  destruct (startup_checks_run H E w) as (success & error & w' & Hrun & Hs).
  exists success, error, w'. split; [exact Hrun|].
  split; [apply Hs|]. split.
  - intros text e Herr.
    pose proof (startup_texts _ _ _ _ _ _ Hs text Herr) as Hin.
    split; [exact Hin|]. by apply (startup_failures_exclude E).
  - split; [apply Hs|]. split; [apply Hs|]. split; [|split; apply Hs].
    intros Hok. destruct (startup_ready _ _ _ _ _ _ Hs Hok) as (? & ? & ? & _).
    done.
Qed.

Lemma initialize_app_run H E w :
  exists w',
    main.initialize_app H E w = (Ok tt, w')
    /\ (app_initialized w' = true <-> initialization_error w' = None)
    /\ (app_initialized w' = true ->
        main.missing_env_vars E = []
        /\ connection_pool (db w') = true
        /\ client w' = true)
    /\ chats (db w') = chats (db w)
    /\ documents (db w') = documents (db w)
    /\ heap w' = heap w
    /\ trace w' = trace w.
Proof.
  assert (Hwp :
    wp (main.initialize_app H) E w
      (fun r w' => r = Ok tt
         /\ (app_initialized w' = true <-> initialization_error w' = None)
         /\ (app_initialized w' = true ->
             main.missing_env_vars E = []
             /\ connection_pool (db w') = true
             /\ client w' = true)
         /\ chats (db w') = chats (db w)
         /\ documents (db w') = documents (db w)
         /\ heap w' = heap w
         /\ trace w' = trace w)).
  { unfold main.initialize_app. do 3 wp_next.
    apply wp_startup_checks. intros success error w1 Hs. cbn [fst snd].
    pose proof (startup_chats _ _ _ _ _ _ Hs) as Hch.
    pose proof (startup_documents _ _ _ _ _ _ Hs) as Hdoc.
    pose proof (startup_heap _ _ _ _ _ _ Hs) as Hh.
    pose proof (startup_trace _ _ _ _ _ _ Hs) as Htr.
    simpl_flags.
    destruct success; repeat wp_next.
    - destruct (startup_ready _ _ _ _ _ _ Hs eq_refl) as (? & ? & ? & _).
      repeat split; done.
    - repeat split; try done.
      intros Hnone. apply (startup_error _ _ _ _ _ _ Hs) in Hnone. done. }
  destruct (wp_elim _ _ _ _ Hwp) as (r & w' & Hrun & -> & Hfacts).
  by exists w'.
Qed.

(** X20: [initialize_app] never raises.  Afterwards the flag
    [app_initialized] is set exactly when no initialisation error is
    recorded, and when it is set the pool and the client exist and no
    required variable is missing.  The tables and the transcripts are not
    touched. *)
Theorem initialize_app_records_the_outcome H E w :
  exists w',
    main.initialize_app H E w = (Ok tt, w')
    /\ (app_initialized w' = true <-> initialization_error w' = None)
    /\ (app_initialized w' = true ->
        main.missing_env_vars E = []
        /\ connection_pool (db w') = true
        /\ client w' = true)
    /\ chats (db w') = chats (db w)
    /\ documents (db w') = documents (db w)
    /\ heap w' = heap w.
Proof.
  destruct (initialize_app_run H E w)
    as (w' & Hrun & Hiff & Hready & Hch & Hdoc & Hh & _).
  by exists w'.
Qed.

(** X21: after a successful start a turn does not fail for want of a client:
    the client that [validate_api_key] created is the one [stream_message]
    finds, so a turn with a message that is not blank returns normally and
    calls [save_message] twice, for the user and for the assistant. *)
Theorem turn_completes_after_successful_start H message history session_uuid
    resume jd E w :
  ~ blank message ->
  app_initialized (main.initialize_app H E w).2 = true ->
  let w1 := (main.initialize_app H E w).2 in
  client w1 = true
  /\ connection_pool (db w1) = true
  /\ exists w' reply,
       main.submit_turn message history session_uuid resume jd E w1
       = (Ok (history ++ [fresh (dom (heap w))], []), w')
       /\ saves_of (trace w') =
          saves_of (trace w)
          ++ [mkInsert session_uuid (lit "user") message
                (now E (clock_reads w1));
              mkInsert session_uuid (lit "assistant") reply
                (now E (S (clock_reads w1)))].
Proof.
  intros Hmsg Hinit w1.
  destruct (initialize_app_run H E w)
    as (w' & Hrun & _ & Hready & _ & _ & Hh & Htr).
  subst w1. rewrite Hrun in *. cbn [snd] in *.
  destruct (Hready Hinit) as (_ & Hpool & Hclient).
  split; [exact Hclient|]. split; [exact Hpool|].
  destruct (submit_turn_run message history session_uuid resume jd E w'
              Hmsg (or_introl Hclient)) as (w2 & Hturn & Htrace & _).
  exists w2. eexists. rewrite <- Hh. split; [exact Hturn|].
  rewrite Htrace, Htr. unfold turn_events.
  rewrite !saves_of_app, saves_of_stream_events. cbn. reflexivity.
Qed.

Lemma turn_completes_after_successful_start_witness :
  ~ blank (lit "Hello")
  /\ app_initialized
       (main.initialize_app sample.host sample.env sample.cold_world).2 = true
  /\ exists w' reply,
       main.submit_turn (lit "Hello") [] (lit "s") (lit "R1") (lit "J1")
         sample.env
         (main.initialize_app sample.host sample.env sample.cold_world).2
       = (Ok ([0%nat], []), w')
       /\ saves_of (trace w') =
          [mkInsert (lit "s") (lit "user") (lit "Hello") 1000;
           mkInsert (lit "s") (lit "assistant") reply 1001].
Proof.
  assert (Hinit :
    app_initialized
      (main.initialize_app sample.host sample.env sample.cold_world).2 = true)
    by (vm_compute; reflexivity).
  split; [exact hello_not_blank|]. split; [exact Hinit|].
  destruct (turn_completes_after_successful_start sample.host (lit "Hello") []
              (lit "s") (lit "R1") (lit "J1") sample.env sample.cold_world
              hello_not_blank Hinit)
    as (_ & _ & w' & reply & Hrun & Hsaves).
  exists w', reply. split; [exact Hrun|]. exact Hsaves.
Defined.

(** ** main.py: the turn *)

Lemma contexts_of_turn_events message history session_uuid resume jd E w :
  contexts_of (turn_events message history session_uuid resume jd E w)
  = [turn_messages message session_uuid E w].
Proof.
  unfold turn_events. cbn. rewrite contexts_of_app, contexts_of_stream_events.
  reflexivity.
Qed.

(** X22: when the store works, the user message is committed before the
    history is read, so the context sent to the model holds the new
    message; and it holds nothing but messages of this session: every
    message of the context is the new one or comes from a stored row of
    the session of type user or assistant. *)
Theorem turn_context_includes_new_message message history session_uuid
    resume jd E w :
  ~ blank message -> client_ready E w ->
  pool_configured E (db w) -> (forall n, fault E n = None) ->
  exists w' context,
    main.submit_turn message history session_uuid resume jd E w
    = (Ok (history ++ [fresh (dom (heap w))], []), w')
    /\ contexts_of (trace w') = contexts_of (trace w) ++ [context]
    /\ mkMsg (lit "user") message ∈ context
    /\ forall m, m ∈ context ->
         m = mkMsg (lit "user") message
         \/ exists r, r ∈ chats (db w)
                      /\ row_session_uuid r = session_uuid
                      /\ replayed r /\ m = to_api r.
Proof.
  intros Hmsg Hready Hcfg Hfault.
  destruct (submit_turn_run message history session_uuid resume jd E w
              Hmsg Hready) as (w' & Hrun & Htrace & _).
  exists w', (turn_messages message session_uuid E w).
  split; [exact Hrun|]. split.
  { by rewrite Htrace, contexts_of_app, contexts_of_turn_events. }
  unfold turn_messages, turn_history, world_user_saved.
  set (w0 := (datetime_now E w).2).
  assert (Hdb0 : db w0 = db w) by (subst w0; by destruct w).
  destruct (save_message_run session_uuid (lit "user") message
              (now E (clock_reads w)) E w0) as (b & w1 & Hsave & Hs).
  rewrite Hsave. cbn [snd].
  destruct (get_session_history_run session_uuid E w1)
    as (r & w2 & Hhist & Hh).
  rewrite Hhist. cbn [fst].
  assert (Hff : forall a c, fault_free E a c) by (intros a c n _; apply Hfault).
  assert (Hb : b = true).
  { apply (save_true _ _ _ _ _ Hs). rewrite Hdb0. by split. }
  destruct (save_row _ _ _ _ _ Hs Hb) as (Hpool1 & id & created & Hch1).
  rewrite Hdb0 in Hch1.
  rewrite (history_ok _ _ _ _ _ Hh (conj (or_introl Hpool1) (Hff _ _))).
  cbn [main.or_empty_list default]. rewrite Hch1.
  rewrite format_message_history_spec.
  set (row := row_of _ id created).
  assert (Hin : forall x, x ∈ select_history session_uuid (chats (db w) ++ [row])
            <-> (x ∈ chats (db w) /\ row_session_uuid x = session_uuid)
                \/ x = row).
  { intros x. rewrite select_history_perm. unfold session_rows.
    rewrite list_elem_of_filter, elem_of_app, list_elem_of_singleton.
    split; [intros [? [?|?]]; auto | intros [[? ?]| ->]; auto]. }
  split.
  - apply list_elem_of_fmap. exists row. split; [done|].
    apply list_elem_of_filter. split; [by left|]. apply Hin. by right.
  - intros m Hm. apply list_elem_of_fmap in Hm as (x & -> & Hx).
    apply list_elem_of_filter in Hx as [Hrep Hx].
    apply Hin in Hx as [[? ?]| ->]; [right; by exists x | by left].
Qed.

Lemma turn_context_includes_new_message_witness :
  ~ blank (lit "Hello") /\ client_ready sample.env sample.world
  /\ pool_configured sample.env (db sample.world)
  /\ exists w' context,
       main.submit_turn (lit "Hello") [] (lit "s") (lit "R1") (lit "J1")
         sample.env sample.world = (Ok ([0%nat], []), w')
       /\ contexts_of (trace w') = [context]
       /\ mkMsg (lit "user") (lit "Hello") ∈ context.
Proof.
  assert (Hready : client_ready sample.env sample.world) by (left; reflexivity).
  assert (Hcfg : pool_configured sample.env (db sample.world))
    by (left; reflexivity).
  split; [exact hello_not_blank|]. split; [exact Hready|].
  split; [exact Hcfg|].
  destruct (turn_context_includes_new_message (lit "Hello") [] (lit "s")
              (lit "R1") (lit "J1") sample.env sample.world
              hello_not_blank Hready Hcfg (fun _ => eq_refl))
    as (w' & context & Hrun & Hctx & Hin & _).
  exists w', context. split; [exact Hrun|]. split; [exact Hctx | exact Hin].
Defined.

(** X23: when the service answers with no fragment and no error, the only
    transcript yielded is the first one; the bot slot of the new turn stays
    None, and an assistant message with empty contents is saved all the
    same. *)
Theorem empty_answer_is_saved_as_empty_text message history session_uuid
    resume jd E w :
  ~ blank message -> client_ready E w ->
  messages_stream E (api_calls w) (turn_messages message session_uuid E w)
    (turn_prompt E (template_cache w) resume jd) = ([], None) ->
  exists w',
    main.submit_turn message history session_uuid resume jd E w
    = (Ok (history ++ [fresh (dom (heap w))], []), w')
    /\ length (yields_of (trace w')) = S (length (yields_of (trace w)))
    /\ chunks_of (trace w') = chunks_of (trace w)
    /\ last (saves_of (trace w')) =
       Some (mkInsert session_uuid (lit "assistant") []
               (now E (S (clock_reads w))))
    /\ heap w' !! fresh (dom (heap w)) = Some (mkTurn (Some message) None).
Proof.
  intros Hmsg Hready Hanswer.
  destruct (submit_turn_run message history session_uuid resume jd E w
              Hmsg Hready) as (w' & Hrun & Htrace & Hheap & _).
  exists w'. split; [exact Hrun|].
  rewrite Htrace, Hheap. unfold turn_events. rewrite Hanswer.
  unfold stream_chunks. cbn [fst snd app stream_events stream_heap List.concat].
  rewrite yields_of_app, chunks_of_app, saves_of_app, length_app. cbn.
  rewrite app_nil_r, last_app. cbn.
  split; [lia|]. split; [done|]. split; [done|]. apply lookup_insert_eq.
Qed.

Lemma empty_answer_is_saved_as_empty_text_witness :
  let E := mkEnv (now sample.env) (fault sample.env)
             (store_default sample.env) (getenv sample.env)
             (read_text sample.env) (pystache_render sample.env)
             (fun _ _ _ => ([], None)) (uuid4 sample.env) in
  ~ blank (lit "Hello") /\ client_ready E sample.world
  /\ exists w',
       main.submit_turn (lit "Hello") [] (lit "s") (lit "R1") (lit "J1") E
         sample.world = (Ok ([0%nat], []), w')
       /\ last (saves_of (trace w')) =
          Some (mkInsert (lit "s") (lit "assistant") [] 1001)
       /\ heap w' !! 0%nat = Some (mkTurn (Some (lit "Hello")) None).
Proof.
  intros E.
  assert (Hready : client_ready E sample.world) by (left; reflexivity).
  split; [exact hello_not_blank|]. split; [exact Hready|].
  destruct (empty_answer_is_saved_as_empty_text (lit "Hello") [] (lit "s")
              (lit "R1") (lit "J1") E sample.world hello_not_blank Hready
              eq_refl) as (w' & Hrun & _ & _ & Hsave & Hcell).
  exists w'. split; [exact Hrun|]. split; [exact Hsave | exact Hcell].
Defined.

Lemma stream_heap_other cell l h full chunks :
  l <> cell -> stream_heap cell h full chunks !! l = h !! l.
Proof.
  intros Hl. revert h full.
  induction chunks as [|c rest IH]; intros h full; cbn; [done|].
  rewrite IH. unfold with_reply. by apply lookup_alter_ne.
Qed.

Lemma stream_heap_cell cell h message old full chunks :
  h !! cell = Some (mkTurn (Some message) old) ->
  stream_heap cell h full chunks !! cell
  = Some (mkTurn (Some message)
            match chunks with
            | [] => old
            | _ :: _ => Some (full ++ List.concat chunks)
            end).
Proof.
  revert h old full.
  induction chunks as [|c rest IH]; intros h old full Hh; cbn; [done|].
  erewrite IH;
    [|unfold with_reply; rewrite lookup_alter_eq, Hh; reflexivity].
  destruct rest; cbn; by rewrite ?app_nil_r, <- ?app_assoc.
Qed.

(** X24: a turn allocates one new transcript cell and writes to no other:
    every cell that existed before reads as before, also the cells of the
    history it was given.  The new cell holds the user message and, once
    the turn is over, the whole reply (None when no chunk came): the list
    yielded at every step is one shared object. *)
Theorem turn_writes_only_its_own_cell message history session_uuid resume jd
    E w :
  ~ blank message -> client_ready E w ->
  let cell := fresh (dom (heap w)) in
  let chunks :=
    stream_chunks
      (messages_stream E (api_calls w) (turn_messages message session_uuid E w)
         (turn_prompt E (template_cache w) resume jd)) in
  exists w',
    main.submit_turn message history session_uuid resume jd E w
    = (Ok (history ++ [cell], []), w')
    /\ heap w !! cell = None
    /\ (forall l, l <> cell -> heap w' !! l = heap w !! l)
    /\ heap w' !! cell =
       Some (mkTurn (Some message)
               match chunks with
               | [] => None
               | _ :: _ => Some (List.concat chunks)
               end).
Proof.
  intros Hmsg Hready cell chunks.
  destruct (submit_turn_run message history session_uuid resume jd E w
              Hmsg Hready) as (w' & Hrun & _ & Hheap & _).
  exists w'. split; [exact Hrun|]. fold cell chunks in Hheap. rewrite Hheap.
  split; [|split].
  - apply not_elem_of_dom. apply is_fresh.
  - intros l Hl. rewrite stream_heap_other by done. by apply lookup_insert_ne.
  - erewrite stream_heap_cell; [reflexivity|]. apply lookup_insert_eq.
Qed.

Lemma turn_writes_only_its_own_cell_witness :
  let earlier := mkTurn (Some (lit "Hi")) (Some (lit "Hello!")) in
  let w := set_heap {[ 0%nat := earlier ]} sample.world in
  ~ blank (lit "Hello") /\ client_ready sample.env w
  /\ exists w',
       main.submit_turn (lit "Hello") [0%nat] (lit "s") (lit "R1") (lit "J1")
         sample.env w = (Ok ([0%nat; 1%nat], []), w')
       /\ heap w' !! 0%nat = Some earlier
       /\ heap w' !! 1%nat
          = Some (mkTurn (Some (lit "Hello")) (Some (lit "Hi there"))).
Proof.
  intros earlier w.
  assert (Hready : client_ready sample.env w) by (left; reflexivity).
  split; [exact hello_not_blank|]. split; [exact Hready|].
  destruct (turn_writes_only_its_own_cell (lit "Hello") [0%nat] (lit "s")
              (lit "R1") (lit "J1") sample.env w hello_not_blank Hready)
    as (w' & Hrun & _ & Hother & Hcell).
  exists w'. split; [exact Hrun|]. split.
  - etrans; [apply (Hother 0%nat); vm_compute; discriminate|reflexivity].
  - exact Hcell.
Defined.

(** X25: without a client and without an API key, the error of
    [initialize_client] is not turned into a chunk: it is raised outside
    the [try] of [stream_message].  The turn saves the user message, reads
    the history, yields the transcript once and then raises ValueError; no
    streaming call is made, no chunk is yielded and no assistant message is
    saved; the new cell keeps an empty bot slot. *)
Theorem missing_api_key_stops_the_turn message history session_uuid resume jd
    E w :
  ~ blank message ->
  client w = false ->
  falsy (getenv E (lit "ANTHROPIC_API_KEY")) = true ->
  exists w',
    main.submit_turn message history session_uuid resume jd E w
    = (Raised (mkExn ValueError
                 (lit "ANTHROPIC_API_KEY environment variable not set")), w')
    /\ trace w' =
       trace w
       ++ [EvNow (now E (clock_reads w));
           EvSave (mkInsert session_uuid (lit "user") message
                     (now E (clock_reads w)));
           EvHistory session_uuid;
           EvYield (history ++ [fresh (dom (heap w))])
             (view (<[fresh (dom (heap w)) := mkTurn (Some message) None]>
                      (heap w))
                (history ++ [fresh (dom (heap w))]))]
    /\ api_calls w' = api_calls w
    /\ client w' = false
    /\ heap w' !! fresh (dom (heap w)) = Some (mkTurn (Some message) None).
Proof.
  intros Hmsg Hclient Hkey.
  destruct (submit_turn_start message history session_uuid resume jd E w Hmsg)
    as (w4 & Hstart & Hc4 & Hh4 & _ & Hac4 & Htr4 & _).
  cbv zeta in *. exists w4. split.
  - rewrite Hstart. apply drive_raised, stream_message_not_ready.
    unfold client_ready. rewrite Hc4. intros [?|?]; congruence.
  - split; [exact Htr4|]. split; [exact Hac4|]. split; [congruence|].
    rewrite Hh4. apply lookup_insert_eq.
Qed.

Lemma missing_api_key_stops_the_turn_witness :
  let w := set_client false sample.world in
  ~ blank (lit "Hello") /\ client w = false
  /\ falsy (getenv sample.env_no_key (lit "ANTHROPIC_API_KEY")) = true
  /\ exists w',
       main.submit_turn (lit "Hello") [] (lit "s") (lit "R1") (lit "J1")
         sample.env_no_key w
       = (Raised (mkExn ValueError
                    (lit "ANTHROPIC_API_KEY environment variable not set")),
          w')
       /\ saves_of (trace w') =
          [mkInsert (lit "s") (lit "user") (lit "Hello") 1000].
Proof.
  intros w.
  assert (Hkey :
    falsy (getenv sample.env_no_key (lit "ANTHROPIC_API_KEY")) = true)
    by (vm_compute; reflexivity).
  split; [exact hello_not_blank|]. split; [reflexivity|]. split; [exact Hkey|].
  destruct (missing_api_key_stops_the_turn (lit "Hello") [] (lit "s")
              (lit "R1") (lit "J1") sample.env_no_key w hello_not_blank
              eq_refl Hkey) as (w' & Hrun & Htrace & _).
  exists w'. split; [exact Hrun|]. rewrite Htrace. reflexivity.
Defined.

Lemma prompts_of_turn_events message history session_uuid resume jd E w :
  prompts_of (turn_events message history session_uuid resume jd E w)
  = [turn_prompt E (template_cache w) resume jd].
Proof.
  unfold turn_events. cbn. rewrite prompts_of_app, prompts_of_stream_events.
  reflexivity.
Qed.

Lemma saves_of_turn_events message history session_uuid resume jd E w :
  saves_of (turn_events message history session_uuid resume jd E w)
  = [mkInsert session_uuid (lit "user") message (now E (clock_reads w));
     mkInsert session_uuid (lit "assistant")
       (List.concat
          (stream_chunks
             (messages_stream E (api_calls w)
                (turn_messages message session_uuid E w)
                (turn_prompt E (template_cache w) resume jd))))
       (now E (S (clock_reads w)))].
Proof.
  unfold turn_events. cbn. rewrite saves_of_app, saves_of_stream_events.
  reflexivity.
Qed.

(** X26: the transcript that the caller passes in plays no part in what the
    model is asked and in what is stored: for two different transcripts,
    a turn opens the streaming call with the same messages and the same
    system prompt, and calls [save_message] with the same arguments.  The
    context comes from the store alone. *)
Theorem model_context_ignores_the_transcript message history history'
    session_uuid resume jd E w :
  ~ blank message -> client_ready E w ->
  exists w1 w2,
    main.submit_turn message history session_uuid resume jd E w
    = (Ok (history ++ [fresh (dom (heap w))], []), w1)
    /\ main.submit_turn message history' session_uuid resume jd E w
       = (Ok (history' ++ [fresh (dom (heap w))], []), w2)
    /\ contexts_of (trace w1) = contexts_of (trace w2)
    /\ prompts_of (trace w1) = prompts_of (trace w2)
    /\ chunks_of (trace w1) = chunks_of (trace w2)
    /\ saves_of (trace w1) = saves_of (trace w2).
Proof.
  intros Hmsg Hready.
  destruct (submit_turn_run message history session_uuid resume jd E w
              Hmsg Hready) as (w1 & Hrun1 & Htr1 & _).
  destruct (submit_turn_run message history' session_uuid resume jd E w
              Hmsg Hready) as (w2 & Hrun2 & Htr2 & _).
  exists w1, w2. split; [exact Hrun1|]. split; [exact Hrun2|].
  rewrite Htr1, Htr2.
  rewrite !contexts_of_app, !prompts_of_app, !saves_of_app, !chunks_of_app.
  rewrite !contexts_of_turn_events, !prompts_of_turn_events,
    !saves_of_turn_events.
  repeat split. unfold turn_events. cbn.
  by rewrite !chunks_of_app, !chunks_of_stream_events.
Qed.

Lemma model_context_ignores_the_transcript_witness :
  let earlier := mkTurn (Some (lit "Hi")) (Some (lit "Hello!")) in
  let w := set_heap {[ 0%nat := earlier ]} sample.world in
  ~ blank (lit "Hello") /\ client_ready sample.env w
  /\ exists w1 w2,
       main.submit_turn (lit "Hello") [] (lit "s") (lit "R1") (lit "J1")
         sample.env w = (Ok ([1%nat], []), w1)
       /\ main.submit_turn (lit "Hello") [0%nat] (lit "s") (lit "R1")
            (lit "J1") sample.env w = (Ok ([0%nat; 1%nat], []), w2)
       /\ contexts_of (trace w1) = contexts_of (trace w2).
Proof.
  intros earlier w.
  assert (Hready : client_ready sample.env w) by (left; reflexivity).
  split; [exact hello_not_blank|]. split; [exact Hready|].
  destruct (model_context_ignores_the_transcript (lit "Hello") [] [0%nat]
              (lit "s") (lit "R1") (lit "J1") sample.env w
              hello_not_blank Hready)
    as (w1 & w2 & Hrun1 & Hrun2 & Hctx & _).
  exists w1, w2. split; [exact Hrun1|]. split; [exact Hrun2 | exact Hctx].
Defined.

Lemma save_spec_rows E w p b w' :
  save_spec E w p b w' ->
  exists rows,
    chats (db w') = chats (db w) ++ rows
    /\ (length rows <= 1)%nat
    /\ Forall (fun r => row_session_uuid r = ins_session_uuid p) rows.
Proof.
  intros Hs. destruct (save_chats _ _ _ _ _ Hs) as [->|(id & created & ->)].
  - exists []. split; [by rewrite app_nil_r|]. split; [cbn; lia|constructor].
  - eexists [_]. split; [done|]. split; [cbn; lia|]. by repeat constructor.
Qed.

Lemma session_rows_none s rows :
  Forall (fun r => row_session_uuid r <> s) rows -> session_rows s rows = [].
Proof.
  unfold session_rows. induction 1 as [|r rows Hr _ IH]; [done|].
  rewrite filter_cons, decide_False by done. exact IH.
Qed.

(** X27: a turn only appends to the table of messages: the rows that were
    there stay, in their order, and at most two rows are added, both of
    the session of the turn.  The rows of every other session and the
    documents are left as they were. *)
Theorem turn_appends_to_its_session_only message history session_uuid resume
    jd other E w :
  ~ blank message -> client_ready E w -> other <> session_uuid ->
  exists w' rows,
    main.submit_turn message history session_uuid resume jd E w
    = (Ok (history ++ [fresh (dom (heap w))], []), w')
    /\ chats (db w') = chats (db w) ++ rows
    /\ (length rows <= 2)%nat
    /\ Forall (fun r => row_session_uuid r = session_uuid) rows
    /\ session_rows other (chats (db w')) = session_rows other (chats (db w))
    /\ documents (db w') = documents (db w).
Proof.
  intros Hmsg Hready Hother.
  destruct (submit_turn_run message history session_uuid resume jd E w
              Hmsg Hready)
    as (w' & Hrun & _ & _ & b1 & r & w1 & w2 & b2 & w6 & Hs1 & Hh & Hdb & Hs2).
  assert (Hdb0 : db (datetime_now E w).2 = db w) by (by destruct w).
  destruct (save_spec_rows _ _ _ _ _ Hs1) as (rows1 & Hch1 & Hlen1 & Hall1).
  destruct (save_spec_rows _ _ _ _ _ Hs2) as (rows2 & Hch2 & Hlen2 & Hall2).
  rewrite Hdb, (history_chats _ _ _ _ _ Hh), Hch1, Hdb0 in Hch2.
  cbn [ins_session_uuid] in *.
  assert (Hall : Forall (fun r => row_session_uuid r = session_uuid)
                   (rows1 ++ rows2)) by (by apply Forall_app).
  exists w', (rows1 ++ rows2). split; [exact Hrun|].
  split; [by rewrite Hch2, <- app_assoc|].
  split; [rewrite length_app; lia|]. split; [exact Hall|]. split.
  - rewrite Hch2, !session_rows_app.
    rewrite (session_rows_none other rows1), (session_rows_none other rows2).
    + by rewrite !app_nil_r.
    + eapply Forall_impl; [exact Hall2|]. cbn. congruence.
    + eapply Forall_impl; [exact Hall1|]. cbn. congruence.
  - rewrite (save_documents _ _ _ _ _ Hs2), Hdb.
    rewrite (history_documents _ _ _ _ _ Hh), (save_documents _ _ _ _ _ Hs1).
    by rewrite Hdb0.
Qed.

Lemma turn_appends_to_its_session_only_witness :
  ~ blank (lit "Hello") /\ client_ready sample.env sample.world
  /\ lit "t" <> lit "s"
  /\ exists w' rows,
       main.submit_turn (lit "Hello") [] (lit "s") (lit "R1") (lit "J1")
         sample.env sample.world = (Ok ([0%nat], []), w')
       /\ chats (db w') = chats (db sample.world) ++ rows
       /\ (length rows <= 2)%nat
       /\ session_rows (lit "t") (chats (db w')) = [].
Proof.
  assert (Hready : client_ready sample.env sample.world) by (left; reflexivity).
  assert (Hother : lit "t" <> lit "s") by (vm_compute; discriminate).
  split; [exact hello_not_blank|]. split; [exact Hready|].
  split; [exact Hother|].
  destruct (turn_appends_to_its_session_only (lit "Hello") [] (lit "s")
              (lit "R1") (lit "J1") (lit "t") sample.env sample.world
              hello_not_blank Hready Hother)
    as (w' & rows & Hrun & Hch & Hlen & _ & Hsess & _).
  exists w', rows. split; [exact Hrun|]. split; [exact Hch|].
  split; [exact Hlen|]. rewrite Hsess. reflexivity.
Defined.

(** ** database.py: a message that was saved is read back *)

(** X28: read your writes.  Once [save_message] has returned True, a read of
    the same session that does not fail returns the rows the session had
    before together with one new row that carries the session, the type,
    the contents and the timestamp that were saved, sorted by
    (timestamp, created_at); and the read does not fail when none of its
    psycopg2 calls raises. *)
Theorem saved_message_is_read_back session_uuid message_type contents t E w
    w1 :
  database.save_message session_uuid message_type contents (Some t) E w
  = (Ok true, w1) ->
  exists r w2,
    database.get_session_history session_uuid E w1 = (Ok r, w2)
    /\ (fault_free E (db_ops (db w1)) (db_ops (db w2)) -> is_Some r)
    /\ forall messages, r = Some messages ->
         exists id created_at,
           messages ≡ₚ
             session_rows session_uuid (chats (db w))
             ++ [mkRow id t session_uuid message_type contents created_at]
           /\ Sorted row_le messages.
Proof.
  intros Hsaved.
  destruct (save_message_run session_uuid message_type contents t E w)
    as (b & w1' & Hrun & Hs).
  rewrite Hsaved in Hrun. injection Hrun as <- <-.
  destruct (save_row _ _ _ _ _ Hs eq_refl) as (Hpool & id & created & Hch).
  destruct (get_session_history_run session_uuid E w1)
    as (r & w2 & Hhist & Hh).
  exists r, w2. split; [exact Hhist|]. split.
  - intros Hff.
    rewrite (history_ok _ _ _ _ _ Hh (conj (or_introl Hpool) Hff)).
    by eexists.
  - intros messages ->. rewrite (history_some _ _ _ _ _ Hh _ eq_refl).
    exists id, created. split; [|apply select_history_sorted].
    rewrite select_history_perm, Hch, session_rows_app.
    unfold session_rows at 2, row_of. cbn [ins_session_uuid ins_timestamp
      ins_message_type ins_contents].
    rewrite filter_cons, filter_nil. cbn. by rewrite decide_True.
Qed.

Lemma saved_message_is_read_back_witness :
  let w1 :=
    (database.save_message (lit "s") (lit "user") (lit "Hello") (Some 7)
       sample.env sample.world).2 in
  database.save_message (lit "s") (lit "user") (lit "Hello") (Some 7)
    sample.env sample.world = (Ok true, w1)
  /\ exists r w2,
       database.get_session_history (lit "s") sample.env w1 = (Ok r, w2)
       /\ forall messages, r = Some messages ->
            exists id created_at,
              messages ≡ₚ
                [mkRow id 7 (lit "s") (lit "user") (lit "Hello") created_at].
Proof.
  intros w1.
  assert (Hsaved :
    database.save_message (lit "s") (lit "user") (lit "Hello") (Some 7)
      sample.env sample.world = (Ok true, w1)) by (vm_compute; reflexivity).
  split; [exact Hsaved|].
  destruct (saved_message_is_read_back (lit "s") (lit "user") (lit "Hello") 7
              sample.env sample.world w1 Hsaved) as (r & w2 & Hrun & _ & Hread).
  exists r, w2. split; [exact Hrun|]. intros messages Hr.
  destruct (Hread messages Hr) as (id & created & Hperm & _).
  exists id, created. exact Hperm.
Defined.
